(** * Vector geometry rendering: marker symbolizer and line arrows

    A shallow embedding of
    [src/renderer/geometry/VectorRenderer.js] (the [LineString] arrow
    generator) and of
    [src/renderer/geometry/symbolizers/VectorMarkerSymbolizer.js]
    (style resolution, identity stamp, shape vertices, marker drawing and
    the marker image cache).

    Conventions of the embedding.
    - A JavaScript number is a real number ([R]): the arithmetic of the
      source is read over the reals, so rounding, NaN and infinities of
      IEEE doubles are outside the model.
    - A thrown exception is the [Throws] case of [completion]; state
      changes made before the throw are kept, as in the source.
    - The 2D context is a record of the state this code itself writes
      (line cap, transform, save stack) together with the chronological
      list of the calls it received. *)

From Stdlib Require Import Reals Lra Lia ZArith List String Ascii Bool.
From stdpp Require Import base gmap strings.
Import ListNotations.

#[local] Open Scope string_scope.
#[local] Open Scope list_scope.
#[local] Open Scope R_scope.
#[local] Arguments IZR _ : simpl never.

(* ================================================================== *)
(** ** JavaScript runtime *)
(* ================================================================== *)

Module JS.

(** Errors the embedded code can raise. *)
Inductive error : Type :=
| Error (message : string)      (* [throw new Error(message)] *)
| TypeError.                    (* property read on [undefined] *)

(** The way a call ends. *)
Inductive completion (A : Type) : Type :=
| Returns (a : A)
| Throws (e : error).
Arguments Returns {A} a.
Arguments Throws {A} e.

(** [x === 0] on a number. *)
Definition isZero (x : R) : bool := if Req_dec_T x 0 then true else false.

(** Truthiness of a number: [!x] is true exactly for 0 (NaN is outside
    the model). *)
Definition truthy (x : R) : bool := negb (isZero x).

(** Integer part, rounding toward zero. *)
Definition trunc (x : R) : Z := if Rle_dec 0 x then Zfloor x else Zceil x.

(** [x % y]: the remainder has the sign of the dividend. *)
Definition rem (x y : R) : R := x - y * IZR (trunc (x / y)).

(** [String.prototype.toLowerCase], on the ASCII letters. *)
Definition lowerAscii (c : ascii) : ascii :=
  let n := nat_of_ascii c in
  if (Nat.leb 65 n && Nat.leb n 90)%bool then ascii_of_nat (n + 32) else c.

Fixpoint toLowerCase (s : string) : string :=
  match s with
  | EmptyString => EmptyString
  | String c rest => String (lowerAscii c) (toLowerCase rest)
  end.

(** [Array.prototype.join]: the elements are already converted to
    strings. *)
Definition join (sep : string) (parts : list string) : string :=
  String.concat sep parts.

(** [Array.prototype.slice(from, to)]. *)
Definition slice {A : Type} (from to : nat) (l : list A) : list A :=
  firstn (to - from) (skipn from l).

(** [array[i]]: an index outside the array reads as [undefined]
    ([None]). *)
Definition index {A : Type} (l : list A) (i : Z) : option A :=
  if (i <? 0)%Z then None else nth_error l (Z.to_nat i).

(** The values a style object can hold under a key. *)
Inductive value : Type :=
| Undefined
| Null
| Number (r : R)
| Str (s : string)
| Obj                            (* a gradient object *)
| Arr (items : list R).

(** [v === 0]: strict equality never converts, so only the number zero
    qualifies. *)
Definition strictEqZero (v : value) : bool :=
  match v with
  | Number r => isZero r
  | _ => false
  end.

(** [obj[key]] on an object literal given as its list of entries: a key
    the literal does not define reads as [undefined]. *)
Fixpoint get (entries : list (string * value)) (key : string) : value :=
  match entries with
  | [] => Undefined
  | (k, v) :: rest => if String.eqb k key then v else get rest key
  end.

End JS.

Export JS (completion, Returns, Throws).

(* ================================================================== *)
(** ** Points and extents *)
(* ================================================================== *)

(** Modelled from the spec: [geo/Point] is imported by both source files
    but is not part of them.  The spec describes it as a 2D coordinate
    with vector arithmetic (add, subtract, scale, unit-normalize,
    perpendicular); methods whose name starts with an underscore update
    the receiver in place, the others return a copy.  In the embedding
    both return the new value and the caller rebinds the name. *)
Module Point.

Record t : Type := new { x : R; y : R }.

Definition add (p q : t) : t := new (x p + x q) (y p + y q).
Definition sub (p q : t) : t := new (x p - x q) (y p - y q).
Definition substract (p q : t) : t := sub p q.
Definition multi (p : t) (k : R) : t := new (x p * k) (y p * k).
Definition mag (p : t) : R := sqrt (x p * x p + y p * y p).
Definition _unit (p : t) : t := new (x p / mag p) (y p / mag p).
Definition _perp (p : t) : t := new (- y p) (x p).
Definition _multi (p : t) (k : R) : t := multi p k.
Definition _add (p q : t) : t := add p q.

(** The scalar product; the source does not use it, the statements about
    unit and perpendicular vectors do. *)
Definition dot (p q : t) : R := x p * x q + y p * y q.

End Point.

(** Modelled from the spec: [geo/PointExtent] is not part of the source
    files; the spec calls it a bounding box that can be combined with a
    point and expanded by a distance. *)
Module PointExtent.

Record t : Type := new { xmin : R; ymin : R; xmax : R; ymax : R }.

(** [new PointExtent(p1, p2)]. *)
Definition ofCorners (p q : Point.t) : t :=
  new (Rmin (Point.x p) (Point.x q)) (Rmin (Point.y p) (Point.y q))
      (Rmax (Point.x p) (Point.x q)) (Rmax (Point.y p) (Point.y q)).

(** [new PointExtent()._combine(p)]. *)
Definition ofPoint (p : Point.t) : t :=
  new (Point.x p) (Point.y p) (Point.x p) (Point.y p).

Definition expand (e : t) (d : R) : t :=
  new (xmin e - d) (ymin e - d) (xmax e + d) (ymax e + d).
Definition _expand (e : t) (d : R) : t := expand e d.

End PointExtent.

(* ================================================================== *)
(** ** [LineString]: arrow heads (VectorRenderer.js) *)
(* ================================================================== *)

Module LineString.

(** The value of [options.arrowStyle]. *)
Inductive arrowStyleOption : Type :=
| NoArrowStyle                          (* undefined / null *)
| NamedStyle (name : string)
| ArrayStyle (factors : R * R).

(** The part of a line string the arrow code reads. *)
Record t : Type := {
  arrowStyle : arrowStyleOption;
  arrowPlacement : option string
}.

(** The paint parameter [points]: a flat array of points, or an array of
    such arrays when the path was split. *)
Inductive path : Type :=
| Flat (points : list Point.t)
| Split (segments : list (list Point.t)).

(** [arrowStyles]: the table of named styles, as far as its own keys
    go. *)
Definition arrowStyles (name : string) : option (R * R) :=
  if String.eqb name "classic" then Some (3, 4) else None.

(** [_getArrowPoints(prePoint, point, lineWidth, arrowStyle, tolerance)].
    A missing tolerance is [None]; [!tolerance] also holds for 0, which
    is replaced by 0. *)
Definition _getArrowPoints (prePoint point : Point.t) (lineWidth : R)
    (arrowStyle : R * R) (tolerance : option R) : list Point.t :=
  let tolerance :=
    match tolerance with
    | Some t => if JS.truthy t then t else 0
    | None => 0
    end in
  let width := lineWidth * fst arrowStyle in
  let height := lineWidth * snd arrowStyle + tolerance in
  let hw := width / 2 + tolerance in
  let normal := Point._unit (Point.substract point prePoint) in
  let p1 := Point.substract point (Point.multi normal height) in
  let normal := Point._perp normal in
  let p0 := Point.add p1 (Point.multi normal hw) in
  let normal := Point._multi normal (-1) in
  let p2 := Point.add p1 (Point.multi normal hw) in
  [p0; point; p2; p0].

(** [_getArrowPlacement()]. *)
Definition _getArrowPlacement (this : t) : option string :=
  arrowPlacement this.

(** [_getArrowStyle()]: the empty name is falsy, an unknown name reads
    [undefined] from the table. *)
Definition _getArrowStyle (this : t) : option (R * R) :=
  match arrowStyle this with
  | NoArrowStyle => None
  | NamedStyle name => if String.eqb name "" then None else arrowStyles name
  | ArrayStyle factors => Some factors
  end.

(** [placement === name]. *)
Definition placementIs (placement : option string) (name : string) : bool :=
  match placement with
  | Some p => String.eqb p name
  | None => false
  end.

(** [_getArrowPoints(segment[i], segment[j], ...)]: reading an index
    outside the array gives [undefined], on which the point arithmetic
    raises. *)
Definition arrowAt (segment : list Point.t) (i j : Z) (lineWidth : R)
    (arrowStyle : R * R) (tolerance : option R)
  : completion (list Point.t) :=
  match JS.index segment i, JS.index segment j with
  | Some prePoint, Some point =>
      Returns (_getArrowPoints prePoint point lineWidth arrowStyle tolerance)
  | _, _ => Throws JS.TypeError
  end.

(** The inner loop of the ['point'] branch:
    [for (ii = 0, ll = segment.length - 1; ii < ll; ii++)]. *)
Fixpoint pointLoop (segment : list Point.t) (lineWidth : R)
    (arrowStyle : R * R) (tolerance : option R) : list (list Point.t) :=
  match segment with
  | prePoint :: ((point :: _) as rest) =>
      _getArrowPoints prePoint point lineWidth arrowStyle tolerance
        :: pointLoop rest lineWidth arrowStyle tolerance
  | _ => []
  end.

(** The arrows that one iteration of the outer loop pushes for
    [segments[i]], in push order. *)
Definition segmentArrows (placement : option string)
    (segment : list Point.t) (lineWidth : R) (arrowStyle : R * R)
    (tolerance : option R) : completion (list (list Point.t)) :=
  let first :=
    if (placementIs placement "vertex-first"
        || placementIs placement "vertex-firstlast")%bool
    then match arrowAt segment 1 0 lineWidth arrowStyle tolerance with
         | Returns a => Returns [a]
         | Throws e => Throws e
         end
    else Returns [] in
  match first with
  | Throws e => Throws e
  | Returns pushed =>
      if (placementIs placement "vertex-last"
          || placementIs placement "vertex-firstlast")%bool
      then match arrowAt segment (Z.of_nat (length segment) - 2)
                   (Z.of_nat (length segment) - 1)
                   lineWidth arrowStyle tolerance with
           | Returns a => Returns (pushed ++ [a])
           | Throws e => Throws e
           end
      else if placementIs placement "point"
      then Returns (pushed ++ pointLoop segment lineWidth arrowStyle tolerance)
      else Returns pushed
  end.

(** The outer loop, over the segments already put in visiting order. *)
Fixpoint collectArrows (placement : option string)
    (segments : list (list Point.t)) (lineWidth : R) (arrowStyle : R * R)
    (tolerance : option R) : completion (list (list Point.t)) :=
  match segments with
  | [] => Returns []
  | segment :: rest =>
      match segmentArrows placement segment lineWidth arrowStyle tolerance with
      | Throws e => Throws e
      | Returns pushed =>
          match collectArrows placement rest lineWidth arrowStyle tolerance with
          | Throws e => Throws e
          | Returns more => Returns (pushed ++ more)
          end
      end
  end.

(** [points.length]. *)
Definition pathLength (points : path) : nat :=
  match points with
  | Flat pts => length pts
  | Split segments => length segments
  end.

(** [_getArrows(points, lineWidth, tolerance)]; [None] is [null]. *)
Definition _getArrows (this : t) (points : path) (lineWidth : R)
    (tolerance : option R) : completion (option (list (list Point.t))) :=
  match _getArrowStyle this with
  | None => Returns None
  | Some arrowStyle =>
      if Nat.ltb (pathLength points) 2 then Returns None
      else
        let segments :=
          match points with
          | Flat pts => [pts]
          | Split segments => segments
          end in
        let placement := _getArrowPlacement this in
        match collectArrows placement (rev segments) lineWidth arrowStyle
                tolerance with
        | Throws e => Throws e
        | Returns arrows =>
            Returns (match arrows with [] => None | _ => Some arrows end)
        end
  end.

End LineString.

(* ================================================================== *)
(** ** Styling values *)
(* ================================================================== *)

(** A gradient object, as far as this code looks inside it. *)
Record gradient : Type := {
  gradientType : string;
  colorStops : list (R * string)
}.

(** A fill or a line colour: a colour string or a gradient object. *)
Inductive paint : Type :=
| Color (css : string)
| Gradient (g : gradient).

(** Modelled from the spec: [isGradient] of [core/util/style] is not part
    of the source files; the styling contract of the spec calls it
    gradient detection. *)
Definition isGradient (p : paint) : bool :=
  match p with
  | Gradient _ => true
  | Color _ => false
  end.

(** What the styling contract and the host supply, taken as parameters:
    the stable string of a gradient ([getGradientStamp] of
    [core/util/style], which is not part of the source files) and the
    conversion of a number to a string that [Array.prototype.join]
    applies. *)
Class Host : Type := {
  getGradientStamp : gradient -> string;
  numberToString : R -> string
}.

(** Modelled from the spec: [getValueOrDefault] of [core/util] is not
    part of the source files; the spec says that every field either
    takes the caller-supplied value or a fixed default.  A field the
    caller left out is [None]. *)
Definition getValueOrDefault {A : Type} (v : option A) (d : A) : A :=
  match v with
  | Some a => a
  | None => d
  end.

(** Modelled from the spec: [round] of [core/util] is not part of the
    source files; the spec describes the image dimensions as the ceiling
    of the summed extents. *)
Definition round (x : R) : Z := Zceil x.

(** Modelled from the spec: [isArrayHasData] of [core/util] is not part
    of the source files; the spec tests whether the set of instance
    points is empty. *)
Definition isArrayHasData {A : Type} (l : list A) : bool :=
  match l with
  | [] => false
  | _ :: _ => true
  end.

(** The symbol definition handed to the symbolizer: every property is
    optional. *)
Module Symbol.

Record t : Type := {
  markerType : option string;
  markerFill : option paint;
  markerFillOpacity : option R;
  markerFillPatternFile : option string;
  markerLineColor : option paint;
  markerLineWidth : option R;
  markerLineOpacity : option R;
  markerLineDasharray : option (list R);
  markerLinePatternFile : option string;
  markerWidth : option R;
  markerHeight : option R;
  markerDx : option R;
  markerDy : option R;
  markerOpacity : option R;
  markerRotation : option R
}.

(** The symbol [{}]. *)
Definition empty : t :=
  {| markerType := None; markerFill := None; markerFillOpacity := None;
     markerFillPatternFile := None; markerLineColor := None;
     markerLineWidth := None; markerLineOpacity := None;
     markerLineDasharray := None; markerLinePatternFile := None;
     markerWidth := None; markerHeight := None; markerDx := None;
     markerDy := None; markerOpacity := None; markerRotation := None |}.

End Symbol.

(** The object that [translateLineAndFill] builds; the two gradient
    extents are the properties that [_drawVectorMarker] assigns later. *)
Module StrokeAndFill.

Record t : Type := {
  lineColor : paint;
  linePatternFile : option string;
  lineWidth : R;
  lineOpacity : R;
  lineDasharray : option (list R);
  lineCap : string;
  lineJoin : string;
  polygonFill : paint;
  polygonPatternFile : option string;
  polygonOpacity : R;
  lineGradientExtent : option PointExtent.t;
  polygonGradientExtent : option PointExtent.t
}.

Definition setLineOpacity (s : t) (v : R) : t :=
  {| lineColor := lineColor s; linePatternFile := linePatternFile s;
     lineWidth := lineWidth s; lineOpacity := v;
     lineDasharray := lineDasharray s; lineCap := lineCap s;
     lineJoin := lineJoin s; polygonFill := polygonFill s;
     polygonPatternFile := polygonPatternFile s;
     polygonOpacity := polygonOpacity s;
     lineGradientExtent := lineGradientExtent s;
     polygonGradientExtent := polygonGradientExtent s |}.

Definition setLineGradientExtent (s : t) (e : PointExtent.t) : t :=
  {| lineColor := lineColor s; linePatternFile := linePatternFile s;
     lineWidth := lineWidth s; lineOpacity := lineOpacity s;
     lineDasharray := lineDasharray s; lineCap := lineCap s;
     lineJoin := lineJoin s; polygonFill := polygonFill s;
     polygonPatternFile := polygonPatternFile s;
     polygonOpacity := polygonOpacity s;
     lineGradientExtent := Some e;
     polygonGradientExtent := polygonGradientExtent s |}.

Definition setPolygonGradientExtent (s : t) (e : PointExtent.t) : t :=
  {| lineColor := lineColor s; linePatternFile := linePatternFile s;
     lineWidth := lineWidth s; lineOpacity := lineOpacity s;
     lineDasharray := lineDasharray s; lineCap := lineCap s;
     lineJoin := lineJoin s; polygonFill := polygonFill s;
     polygonPatternFile := polygonPatternFile s;
     polygonOpacity := polygonOpacity s;
     lineGradientExtent := lineGradientExtent s;
     polygonGradientExtent := Some e |}.

End StrokeAndFill.

(* ================================================================== *)
(** ** The drawing surface *)
(* ================================================================== *)

(** Modelled from the spec: [core/Canvas] is not part of the source
    files.  The drawing-surface contract of the spec lists its
    primitives; each one is recorded, with its arguments, in the list of
    calls of the context it is given.  [save], [restore], [translate],
    [rotate] and the [lineCap] property are those of the 2D context of
    the platform. *)
Module Canvas.

Inductive transformation : Type :=
| Translate (x y : R)
| Rotate (angle : R).

#[warnings="-register-all"]
Inductive call : Type :=
| PrepareContext
| PrepareCanvas (style : StrokeAndFill.t)
| Ellipse (center : Point.t) (width height lineOpacity fillOpacity : R)
| Path (points : list Point.t) (lineOpacity : R)
| Polygon (points : list Point.t) (lineOpacity fillOpacity : R)
| BezierCurveAndFill (points : list Point.t) (lineOpacity fillOpacity : R)
| Sector (center : Point.t) (size : R) (angles : R * R)
    (lineOpacity fillOpacity : R)
| Image (width height : Z) (content : list call) (x y : R)
| Save
| Restore
| TranslateBy (x y : R)
| RotateBy (angle : R).

(** A 2D context. *)
Record context : Type := {
  lineCap : string;
  transform : list transformation;
  saved : list (string * list transformation);
  calls : list call
}.

(** A canvas element with its 2D context. *)
Record t : Type := {
  width : Z;
  height : Z;
  getContext : context
}.

Definition record (ctx : context) (c : call) : context :=
  {| lineCap := lineCap ctx; transform := transform ctx;
     saved := saved ctx; calls := calls ctx ++ [c] |}.

(** [ctx.lineCap = cap]. *)
Definition setLineCap (ctx : context) (cap : string) : context :=
  {| lineCap := cap; transform := transform ctx;
     saved := saved ctx; calls := calls ctx |}.

(** [ctx.save()]. *)
Definition save (ctx : context) : context :=
  {| lineCap := lineCap ctx; transform := transform ctx;
     saved := (lineCap ctx, transform ctx) :: saved ctx;
     calls := calls ctx ++ [Save] |}.

(** [ctx.restore()]: nothing to pop leaves the state as it is. *)
Definition restore (ctx : context) : context :=
  match saved ctx with
  | (cap, tr) :: rest =>
      {| lineCap := cap; transform := tr; saved := rest;
         calls := calls ctx ++ [Restore] |}
  | [] => record ctx Restore
  end.

(** [ctx.translate(x, y)]. *)
Definition translate (ctx : context) (x y : R) : context :=
  {| lineCap := lineCap ctx; transform := transform ctx ++ [Translate x y];
     saved := saved ctx; calls := calls ctx ++ [TranslateBy x y] |}.

(** [ctx.rotate(angle)]. *)
Definition rotate (ctx : context) (angle : R) : context :=
  {| lineCap := lineCap ctx; transform := transform ctx ++ [Rotate angle];
     saved := saved ctx; calls := calls ctx ++ [RotateBy angle] |}.

Definition prepareCanvas (ctx : context) (style : StrokeAndFill.t) : context :=
  record ctx (PrepareCanvas style).
Definition ellipse (ctx : context) (pt : Point.t) (w h lo fo : R) : context :=
  record ctx (Ellipse pt w h lo fo).
Definition path (ctx : context) (points : list Point.t) (lo : R) : context :=
  record ctx (Path points lo).
Definition polygon (ctx : context) (points : list Point.t) (lo fo : R)
  : context := record ctx (Polygon points lo fo).
Definition bezierCurveAndFill (ctx : context) (points : list Point.t)
    (lo fo : R) : context := record ctx (BezierCurveAndFill points lo fo).
Definition sector (ctx : context) (pt : Point.t) (size : R) (angles : R * R)
    (lo fo : R) : context := record ctx (Sector pt size angles lo fo).
Definition image (ctx : context) (img : t) (x y : R) : context :=
  record ctx (Image (width img) (height img) (calls (getContext img)) x y).

(** [Canvas.createCanvas(w, h, canvasClass)]: a blank canvas with the
    default state of a new 2D context. *)
Definition createCanvas (w h : Z) : t :=
  {| width := w; height := h;
     getContext := {| lineCap := "butt"; transform := [];
                      saved := []; calls := [] |} |}.

End Canvas.

(* ================================================================== *)
(** ** [VectorMarkerSymbolizer] *)
(* ================================================================== *)

Module VectorMarkerSymbolizer.

(** The object that [translate] returns. *)
Record Style : Type := {
  markerType : string;
  markerFill : paint;
  markerFillOpacity : R;
  markerFillPatternFile : option string;
  markerLineColor : paint;
  markerLineWidth : R;
  markerLineOpacity : R;
  markerLineDasharray : list R;
  markerLinePatternFile : option string;
  markerWidth : R;
  markerHeight : R;
  markerDx : R;
  markerDy : R
}.

Definition paintValue (p : paint) : JS.value :=
  match p with
  | Color css => JS.Str css
  | Gradient _ => JS.Obj
  end.

Definition nullableValue (o : option string) : JS.value :=
  match o with
  | Some s => JS.Str s
  | None => JS.Null
  end.

(** The style as the object literal of [translate]: its keys and their
    values, for the reads [style['key']]. *)
Definition entries (s : Style) : list (string * JS.value) :=
  [ ("markerType", JS.Str (markerType s));
    ("markerFill", paintValue (markerFill s));
    ("markerFillOpacity", JS.Number (markerFillOpacity s));
    ("markerFillPatternFile", nullableValue (markerFillPatternFile s));
    ("markerLineColor", paintValue (markerLineColor s));
    ("markerLineWidth", JS.Number (markerLineWidth s));
    ("markerLineOpacity", JS.Number (markerLineOpacity s));
    ("markerLineDasharray", JS.Arr (markerLineDasharray s));
    ("markerLinePatternFile", nullableValue (markerLinePatternFile s));
    ("markerWidth", JS.Number (markerWidth s));
    ("markerHeight", JS.Number (markerHeight s));
    ("markerDx", JS.Number (markerDx s));
    ("markerDy", JS.Number (markerDy s)) ].

(** Modelled from the spec: the geometry, its layer and the painter are
    not part of the source files.  The record holds what the symbolizer
    asks them: [geometry.options['shadowBlur']], the points of
    [_getRenderContainerPoints()], the rotation of [_getRotationAt(i)]
    ([None] when no rotation is defined for the index),
    [getPainter().isSpriting()], whether the geometry is the mask of its
    layer, and the layer option ['cacheVectorOnCanvas'] ([None] when it
    is not set). *)
Record Geometry : Type := {
  shadowBlur : R;
  renderContainerPoints : list Point.t;
  rotationAt : nat -> option R;
  isSpriting : bool;
  isMask : bool;
  cacheVectorOnCanvas : option bool
}.

(** The symbolizer object [this]. *)
Record t : Type := {
  symbol : Symbol.t;
  geometry : Geometry;
  _dynamic : bool;
  style : Style;
  strokeAndFill : StrokeAndFill.t;
  padding : R * R;
  _stamp : option string
}.

Definition setStrokeAndFill (this : t) (s : StrokeAndFill.t) : t :=
  {| symbol := symbol this; geometry := geometry this;
     _dynamic := _dynamic this; style := style this; strokeAndFill := s;
     padding := padding this; _stamp := _stamp this |}.

Definition setStamp (this : t) (s : string) : t :=
  {| symbol := symbol this; geometry := geometry this;
     _dynamic := _dynamic this; style := style this;
     strokeAndFill := strokeAndFill this;
     padding := padding this; _stamp := Some s |}.

(** Modelled from the spec: the resource pool is not part of the source
    files; its contract is [getImage(stamp)] and
    [addResource(key, image)], the image being registered under the
    stamp of the key [[stamp, width, height]]. *)
Abbreviation Resources := (gmap string Canvas.t).

Definition getImage (resources : Resources) (stamp : string)
  : option Canvas.t := resources !! stamp.

Definition addResource (resources : Resources)
    (key : string * Z * Z) (img : Canvas.t) : Resources :=
  <[ fst (fst key) := img ]> resources.

(** Modelled from the spec: [_defineStyle] belongs to the base class,
    which is not part of the source files; for a symbol without
    function-valued properties the style it returns reads as the object
    it was given. *)
Definition _defineStyle {A : Type} (s : A) : A := s.

(** [translate()], applied to [this.symbol]. *)
Definition translate (s : Symbol.t) : Style :=
  let fillOpacity := getValueOrDefault (Symbol.markerFillOpacity s) 1 in
  let lineOpacity := getValueOrDefault (Symbol.markerLineOpacity s) 1 in
  let scale (v : R) : R :=
    match Symbol.markerOpacity s with
    | Some o => v * o
    | None => v
    end in
  {| markerType := getValueOrDefault (Symbol.markerType s) "ellipse";
     markerFill := getValueOrDefault (Symbol.markerFill s) (Color "#00f");
     markerFillOpacity := scale fillOpacity;
     markerFillPatternFile := Symbol.markerFillPatternFile s;
     markerLineColor :=
       getValueOrDefault (Symbol.markerLineColor s) (Color "#000");
     markerLineWidth := getValueOrDefault (Symbol.markerLineWidth s) 1;
     markerLineOpacity := scale lineOpacity;
     markerLineDasharray :=
       getValueOrDefault (Symbol.markerLineDasharray s) [];
     markerLinePatternFile := Symbol.markerLinePatternFile s;
     markerWidth := getValueOrDefault (Symbol.markerWidth s) 10;
     markerHeight := getValueOrDefault (Symbol.markerHeight s) 10;
     markerDx := getValueOrDefault (Symbol.markerDx s) 0;
     markerDy := getValueOrDefault (Symbol.markerDy s) 0 |}.

(** [translateLineAndFill(s)]. *)
Definition translateLineAndFill (s : Style) : StrokeAndFill.t :=
  let result :=
    {| StrokeAndFill.lineColor := markerLineColor s;
       StrokeAndFill.linePatternFile := markerLinePatternFile s;
       StrokeAndFill.lineWidth := markerLineWidth s;
       StrokeAndFill.lineOpacity := markerLineOpacity s;
       StrokeAndFill.lineDasharray := None;
       StrokeAndFill.lineCap := "butt";
       StrokeAndFill.lineJoin := "round";
       StrokeAndFill.polygonFill := markerFill s;
       StrokeAndFill.polygonPatternFile := markerFillPatternFile s;
       StrokeAndFill.polygonOpacity := markerFillOpacity s;
       StrokeAndFill.lineGradientExtent := None;
       StrokeAndFill.polygonGradientExtent := None |} in
  if JS.isZero (StrokeAndFill.lineWidth result)
  then StrokeAndFill.setLineOpacity result 0
  else result.

(** The symbol object as [test] receives it: the marker properties and
    the property ['markerFile'], which only [test] reads. *)
Record SymbolObject : Type := {
  markerFile : option string;
  properties : Symbol.t
}.

(** [test(symbol)]; a missing symbol is [None], and [isNil] holds of a
    property the symbol does not define. *)
Definition test (symbol : option SymbolObject) : bool :=
  match symbol with
  | None => false
  | Some s =>
      match markerFile s, Symbol.markerType (properties s) with
      | None, Some markerType => negb (String.eqb markerType "path")
      | _, _ => false
      end
  end.

(** [constructor(symbol, geometry, painter)]; [dynamic] is the value of
    [hasFunctionDefinition(symbol)], a function of [core/mapbox] that is
    not part of the source files. *)
Definition constructor (symbol : Symbol.t) (geometry : Geometry)
    (dynamic : bool) : t :=
  let style := _defineStyle (translate symbol) in
  let strokeAndFill := _defineStyle (translateLineAndFill style) in
  let lineWidth := StrokeAndFill.lineWidth strokeAndFill in
  {| symbol := symbol; geometry := geometry; _dynamic := dynamic;
     style := style; strokeAndFill := strokeAndFill;
     padding := if JS.isZero (JS.rem lineWidth 2) then (2, 2) else (3, 3);
     _stamp := None |}.

(** [_getVectorPoints(markerType, width, height)]. *)
Definition _getVectorPoints (markerType : string) (width height : R)
  : list Point.t :=
  let hh := height / 2 in
  let hw := width / 2 in
  let left := 0 in
  let top := 0 in
  if String.eqb markerType "triangle" then
    let v0 := Point.new left (top - hh) in
    let v1 := Point.new (left - hw) (top + hh) in
    let v2 := Point.new (left + hw) (top + hh) in
    [v0; v1; v2]
  else if String.eqb markerType "cross" then
    let v0 := Point.new (left - hw) top in
    let v1 := Point.new (left + hw) top in
    let v2 := Point.new left (top - hh) in
    let v3 := Point.new left (top + hh) in
    [v0; v1; v2; v3]
  else if String.eqb markerType "diamond" then
    let v0 := Point.new (left - hw) top in
    let v1 := Point.new left (top - hh) in
    let v2 := Point.new (left + hw) top in
    let v3 := Point.new left (top + hh) in
    [v0; v1; v2; v3]
  else if String.eqb markerType "square" then
    let v0 := Point.new (left - hw) (top + hh) in
    let v1 := Point.new (left + hw) (top + hh) in
    let v2 := Point.new (left + hw) (top - hh) in
    let v3 := Point.new (left - hw) (top - hh) in
    [v0; v1; v2; v3]
  else if String.eqb markerType "x" then
    let v0 := Point.new (left - hw) (top + hh) in
    let v1 := Point.new (left + hw) (top - hh) in
    let v2 := Point.new (left + hw) (top + hh) in
    let v3 := Point.new (left - hw) (top - hh) in
    [v0; v1; v2; v3]
  else if String.eqb markerType "bar" then
    let v0 := Point.new (left - hw) (top - height) in
    let v1 := Point.new (left + hw) (top - height) in
    let v2 := Point.new (left + hw) top in
    let v3 := Point.new (left - hw) top in
    [v0; v1; v2; v3]
  else if String.eqb markerType "pin" then
    let extWidth := height * atan (hw / hh) in
    let v0 := Point.new left top in
    let v1 := Point.new (left - extWidth) (top - height) in
    let v2 := Point.new (left + extWidth) (top - height) in
    let v3 := Point.new left top in
    [v0; v1; v2; v3]
  else [].

(** [markerType === 'bar' || markerType === 'pie' || markerType === 'pin']. *)
Definition standsOnAnchor (markerType : string) : bool :=
  (String.eqb markerType "bar" || String.eqb markerType "pie"
   || String.eqb markerType "pin")%bool.

(** [_getAnchor(w, h)]. *)
Definition _getAnchor (this : t) (w h : R) : Point.t :=
  let lineWidth := StrokeAndFill.lineWidth (strokeAndFill this) in
  let shadow := shadowBlur (geometry this) in
  let markerType := JS.toLowerCase (markerType (style this)) in
  if standsOnAnchor markerType
  then Point.new (w / 2) (h - snd (padding this) - lineWidth / 2 - shadow)
  else Point.new (w / 2) (h / 2).

(** [getRotation()]: the style of [translate] has no ['markerRotation']
    key. *)
Definition getRotation (this : t) : option R :=
  match JS.get (entries (style this)) "markerRotation" with
  | JS.Number r => Some (r * PI / 180)
  | _ => None
  end.

(** [getDxDy()]. *)
Definition getDxDy (this : t) : Point.t :=
  let s := style this in
  Point.new (markerDx s) (markerDy s).

(** [getMarkerExtent()]. *)
Definition getMarkerExtent (this : t) : PointExtent.t :=
  let dxdy := getDxDy this in
  let style := style this in
  let markerType := JS.toLowerCase (markerType style) in
  let width := markerWidth style in
  let height := markerHeight style in
  let result :=
    if standsOnAnchor markerType
    then PointExtent.ofCorners
           (Point.add dxdy (Point.new (- width / 2) (- height)))
           (Point.add dxdy (Point.new (width / 2) 0))
    else PointExtent.ofCorners
           (Point.add dxdy (Point.new (- width / 2) (- height / 2)))
           (Point.add dxdy (Point.new (width / 2) (height / 2))) in
  if JS.truthy (markerLineWidth style)
  then PointExtent._expand result (markerLineWidth style / 2)
  else result.

(** [_getGraidentExtent(points)], for the single point it is called
    with. *)
Definition _getGraidentExtent (this : t) (point : Point.t) : PointExtent.t :=
  let e := PointExtent.ofPoint point in
  let m := getMarkerExtent this in
  PointExtent.new
    (PointExtent.xmin e + PointExtent.xmin m)
    (PointExtent.ymin e + PointExtent.ymin m)
    (PointExtent.xmax e + PointExtent.xmax m)
    (PointExtent.ymax e + PointExtent.ymax m).

(** Modelled from the spec: [_prepareContext] belongs to the base class,
    which is not part of the source files; it stands for the Preparing
    state of the driver and is recorded as one call on the context. *)
Definition _prepareContext (this : t) (ctx : Canvas.context)
  : Canvas.context := Canvas.record ctx Canvas.PrepareContext.

(** Modelled from the spec: [_rotate] belongs to the base class, which is
    not part of the source files.  The spec says that when a rotation is
    defined for the instance the surface is asked to rotate about the
    point before the draw; the saved state is the one that the caller
    restores afterwards.  The point returned is the place of the marker
    in the rotated frame, its offset. *)
Definition _rotate (this : t) (ctx : Canvas.context) (origin : Point.t)
    (rotation : option R) : Canvas.context * option Point.t :=
  match rotation with
  | Some angle =>
      let dxdy := getDxDy this in
      let p := Point.sub origin dxdy in
      let ctx := Canvas.save ctx in
      let ctx := Canvas.translate ctx (Point.x p) (Point.y p) in
      let ctx := Canvas.rotate ctx angle in
      (ctx, Some dxdy)
  | None => (ctx, None)
  end.

(** [_getRotationAt(i)]. *)
Definition _getRotationAt (this : t) (i : nat) : option R :=
  rotationAt (geometry this) i.

(** [_getRenderContainerPoints()]. *)
Definition _getRenderContainerPoints (this : t) : list Point.t :=
  renderContainerPoints (geometry this).

(** [isGradient(strokeAndFill['lineColor']) ||
     isGradient(strokeAndFill['polygonFill'])]. *)
Definition usesGradient (s : StrokeAndFill.t) : bool :=
  (isGradient (StrokeAndFill.lineColor s)
   || isGradient (StrokeAndFill.polygonFill s))%bool.

(** The [if (gradient) { ... }] block of [_drawVectorMarker], up to the
    call of [Canvas.prepareCanvas]: the extents are assigned on the
    shared [strokeAndFill] object. *)
Definition assignGradientExtents (this : t) (point : Point.t)
  : StrokeAndFill.t :=
  let strokeAndFill := strokeAndFill this in
  let '(strokeAndFill, gradientExtent) :=
    if isGradient (StrokeAndFill.lineColor strokeAndFill)
    then
      let gradientExtent := _getGraidentExtent this point in
      (StrokeAndFill.setLineGradientExtent strokeAndFill
         (PointExtent.expand gradientExtent
            (StrokeAndFill.lineWidth strokeAndFill)),
       Some gradientExtent)
    else (strokeAndFill, None) in
  if isGradient (StrokeAndFill.polygonFill strokeAndFill)
  then
    let gradientExtent :=
      match gradientExtent with
      | Some e => e
      | None => _getGraidentExtent this point
      end in
    StrokeAndFill.setPolygonGradientExtent strokeAndFill gradientExtent
  else strokeAndFill.

(** [vectorArray[j]._add(point)] for every [j]. *)
Definition addToAll (vectorArray : list Point.t) (point : Point.t)
  : list Point.t := map (fun v => Point._add v point) vectorArray.

(** [_drawVectorMarker(ctx, point, resources)]: the symbolizer and the
    context after the call, and how the call ended. *)
Definition _drawVectorMarker (this : t) (ctx : Canvas.context)
    (point : Point.t) : t * Canvas.context * completion unit :=
  let style := style this in
  let markerType := JS.toLowerCase (markerType style) in
  let vectorArray :=
    _getVectorPoints markerType (markerWidth style) (markerHeight style) in
  let lineOpacity := StrokeAndFill.lineOpacity (strokeAndFill this) in
  let fillOpacity := StrokeAndFill.polygonOpacity (strokeAndFill this) in
  let gradient := usesGradient (strokeAndFill this) in
  let '(this, ctx) :=
    if gradient
    then
      let strokeAndFill := assignGradientExtents this point in
      (setStrokeAndFill this strokeAndFill,
       Canvas.prepareCanvas ctx strokeAndFill)
    else (this, ctx) in
  let width := markerWidth style in
  let height := markerHeight style in
  if String.eqb markerType "ellipse" then
    (this,
     Canvas.ellipse ctx point (width / 2) (height / 2) lineOpacity fillOpacity,
     Returns tt)
  else if (String.eqb markerType "cross" || String.eqb markerType "x")%bool
  then
    let vectorArray := addToAll vectorArray point in
    let ctx := Canvas.path ctx (JS.slice 0 2 vectorArray) lineOpacity in
    let ctx := Canvas.path ctx (JS.slice 2 4 vectorArray) lineOpacity in
    (this, ctx, Returns tt)
  else if (String.eqb markerType "diamond" || String.eqb markerType "bar"
           || String.eqb markerType "square"
           || String.eqb markerType "triangle")%bool
  then
    let point :=
      if String.eqb markerType "bar"
      then Point.add point (Point.new 0 (- markerLineWidth style / 2))
      else point in
    let vectorArray := addToAll vectorArray point in
    (this, Canvas.polygon ctx vectorArray lineOpacity fillOpacity, Returns tt)
  else if String.eqb markerType "pin" then
    let point := Point.add point (Point.new 0 (- markerLineWidth style / 2)) in
    let vectorArray := addToAll vectorArray point in
    let lineCap := Canvas.lineCap ctx in
    let ctx := Canvas.setLineCap ctx "round" in
    let ctx :=
      Canvas.bezierCurveAndFill ctx vectorArray lineOpacity fillOpacity in
    let ctx := Canvas.setLineCap ctx lineCap in
    (this, ctx, Returns tt)
  else if String.eqb markerType "pie" then
    let point := Point.add point (Point.new 0 (- markerLineWidth style / 2)) in
    let angle := atan (width / 2 / height) * 180 / PI in
    let lineCap := Canvas.lineCap ctx in
    let ctx := Canvas.setLineCap ctx "round" in
    let ctx :=
      Canvas.sector ctx point height (90 - angle, 90 + angle)
        lineOpacity fillOpacity in
    let ctx := Canvas.setLineCap ctx lineCap in
    (this, ctx, Returns tt)
  else
    (this, ctx, Throws (JS.Error ("unsupported markerType: " ++ markerType))).

(** [cookedPoints] with the index of each point, in the order of the
    loops [for (i = cookedPoints.length - 1; i >= 0; i--)]. *)
Definition downwards (cookedPoints : list Point.t) : list (nat * Point.t) :=
  rev (combine (seq 0 (length cookedPoints)) cookedPoints).

(** The loop of [_drawMarkers], over the points still to visit. *)
Fixpoint drawMarkersLoop (this : t) (ctx : Canvas.context)
    (todo : list (nat * Point.t)) : t * Canvas.context * completion unit :=
  match todo with
  | [] => (this, ctx, Returns tt)
  | (i, point) :: rest =>
      let '(ctx, origin) := _rotate this ctx point (_getRotationAt this i) in
      let point := match origin with Some o => o | None => point end in
      match _drawVectorMarker this ctx point with
      | (this, ctx, Throws e) => (this, ctx, Throws e)
      | (this, ctx, Returns _) =>
          let ctx :=
            match origin with
            | Some _ => Canvas.restore ctx
            | None => ctx
            end in
          drawMarkersLoop this ctx rest
      end
  end.

(** [_drawMarkers(ctx, cookedPoints, resources)]. *)
Definition _drawMarkers (this : t) (ctx : Canvas.context)
    (cookedPoints : list Point.t) : t * Canvas.context * completion unit :=
  let strokeAndFill := strokeAndFill this in
  let gradient := usesGradient strokeAndFill in
  let ctx :=
    if negb gradient then Canvas.prepareCanvas ctx strokeAndFill else ctx in
  drawMarkersLoop this ctx (downwards cookedPoints).

(** [_createMarkerImage(ctx, resources)]: the canvas is returned only
    when the marker could be drawn on it. *)
Definition _createMarkerImage (this : t) : t * completion Canvas.t :=
  let lineWidth := StrokeAndFill.lineWidth (strokeAndFill this) in
  let shadow := shadowBlur (geometry this) in
  let w := round (markerWidth (style this) + lineWidth + 2 * shadow
                  + fst (padding this) * 2) in
  let h := round (markerHeight (style this) + lineWidth + 2 * shadow
                  + snd (padding this) * 2) in
  let canvas := Canvas.createCanvas w h in
  let point := _getAnchor this (IZR w) (IZR h) in
  let context := Canvas.getContext canvas in
  let gradient := usesGradient (strokeAndFill this) in
  let context :=
    if negb gradient
    then Canvas.prepareCanvas context (strokeAndFill this)
    else context in
  match _drawVectorMarker this context point with
  | (this, context, Returns _) =>
      (this, Returns {| Canvas.width := w; Canvas.height := h;
                        Canvas.getContext := context |})
  | (this, _, Throws e) => (this, Throws e)
  end.

(** The loop of [_drawMarkersWithCache], over the points still to
    visit. *)
Fixpoint drawImagesLoop (this : t) (ctx : Canvas.context)
    (img : Canvas.t) (anchor : Point.t) (todo : list (nat * Point.t))
  : Canvas.context :=
  match todo with
  | [] => ctx
  | (i, cooked) :: rest =>
      let point := Point.sub cooked anchor in
      let '(ctx, origin) := _rotate this ctx point (_getRotationAt this i) in
      let point := match origin with Some o => o | None => point end in
      let ctx := Canvas.image ctx img (Point.x point) (Point.y point) in
      let ctx :=
        match origin with
        | Some _ => Canvas.restore ctx
        | None => ctx
        end in
      drawImagesLoop this ctx img anchor rest
  end.

Section WithHost.

Context {host : Host}.

(** The string that [join] makes of a colour or of a gradient. *)
Definition paintStamp (p : paint) : string :=
  match p with
  | Gradient g => getGradientStamp g
  | Color css => css
  end.

(** [join] turns [null] into the empty string. *)
Definition nullableStamp (o : option string) : string :=
  match o with
  | Some s => s
  | None => ""
  end.

(** The array that [_stampSymbol] joins. *)
Definition stampParts (s : Style) : list string :=
  [ markerType s;
    paintStamp (markerFill s);
    numberToString (markerFillOpacity s);
    nullableStamp (markerFillPatternFile s);
    paintStamp (markerLineColor s);
    numberToString (markerLineWidth s);
    numberToString (markerLineOpacity s);
    JS.join "," (map numberToString (markerLineDasharray s));
    nullableStamp (markerLinePatternFile s);
    numberToString (markerWidth s);
    numberToString (markerHeight s) ].

Definition computeStamp (s : Style) : string := JS.join "_" (stampParts s).

(** [!this._stamp]: an unset or an empty stamp. *)
Definition stampMissing (stamp : option string) : bool :=
  match stamp with
  | Some s => String.eqb s ""
  | None => true
  end.

(** [_stampSymbol()]. *)
Definition _stampSymbol (this : t) : t * string :=
  if stampMissing (_stamp this)
  then
    let stamp := computeStamp (style this) in
    (setStamp this stamp, stamp)
  else (this, getValueOrDefault (_stamp this) "").

(** [_drawMarkersWithCache(ctx, cookedPoints, resources)]. *)
Definition _drawMarkersWithCache (this : t) (ctx : Canvas.context)
    (cookedPoints : list Point.t) (resources : Resources)
  : t * Canvas.context * Resources * completion unit :=
  let '(this, stamp) := _stampSymbol this in
  let '(this, resources, found) :=
    match getImage resources stamp with
    | Some img => (this, resources, Returns img)
    | None =>
        match _createMarkerImage this with
        | (this, Returns img) =>
            (this,
             addResource resources
               (stamp, Canvas.width img, Canvas.height img) img,
             Returns img)
        | (this, Throws e) => (this, resources, Throws e)
        end
    end in
  match found with
  | Throws e => (this, ctx, resources, Throws e)
  | Returns img =>
      let anchor :=
        _getAnchor this (IZR (Canvas.width img)) (IZR (Canvas.height img)) in
      (this,
       drawImagesLoop this ctx img anchor (downwards cookedPoints),
       resources, Returns tt)
  end.

(** [this.geometry.getLayer().options['cacheVectorOnCanvas'] === false]. *)
Definition cacheDisabled (g : Geometry) : bool :=
  match cacheVectorOnCanvas g with
  | Some false => true
  | _ => false
  end.

(** [symbolize(ctx, resources)]. *)
Definition symbolize (this : t) (ctx : Canvas.context)
    (resources : Resources)
  : t * Canvas.context * Resources * completion unit :=
  let style := entries (style this) in
  if (JS.strictEqZero (JS.get style "markerWidth")
      || JS.strictEqZero (JS.get style "markerHeight")
      || (JS.strictEqZero (JS.get style "polygonOpacity")
          && JS.strictEqZero (JS.get style "lineOpacity")))%bool
  then (this, ctx, resources, Returns tt)
  else
    let cookedPoints := _getRenderContainerPoints this in
    if negb (isArrayHasData cookedPoints)
    then (this, ctx, resources, Returns tt)
    else
      let ctx := _prepareContext this ctx in
      if (isSpriting (geometry this) || isMask (geometry this)
          || _dynamic this || cacheDisabled (geometry this))%bool
      then
        let '(this, ctx, outcome) := _drawMarkers this ctx cookedPoints in
        (this, ctx, resources, outcome)
      else _drawMarkersWithCache this ctx cookedPoints resources.

End WithHost.

End VectorMarkerSymbolizer.

(* ================================================================== *)
(** ** [LineString]: painting (VectorRenderer.js) *)
(* ================================================================== *)

(** The context as the painting of a line uses it.  [Canvas.path] is
    called here with five arguments and a path that may be split, and the
    context is asked to clear its dash pattern and to take its stroke
    style as fill style: each of these statements is recorded, in
    order. *)
Module LineCanvas.

Inductive call : Type :=
| Path (points : LineString.path) (lineOpacity : R)
    (dasharray : option (list R))   (* the fourth argument is [null] *)
| SetLineDash (segments : list R)
| FillStyleFromStrokeStyle          (* [ctx.fillStyle = ctx.strokeStyle] *)
| Polygon (points : list Point.t) (lineOpacity fillOpacity : R).

Record context : Type := {
  hasSetLineDash : bool;            (* [ctx.setLineDash] is defined *)
  calls : list call
}.

Definition record (ctx : context) (c : call) : context :=
  {| hasSetLineDash := hasSetLineDash ctx; calls := calls ctx ++ [c] |}.

End LineCanvas.

Module LineStringPaint.

(** The loop of [_paintArrow], over the arrows still to fill. *)
Fixpoint fillArrows (ctx : LineCanvas.context)
    (todo : list (list Point.t)) (lineOpacity : R) : LineCanvas.context :=
  match todo with
  | [] => ctx
  | arrow :: rest =>
      let ctx := LineCanvas.record ctx LineCanvas.FillStyleFromStrokeStyle in
      let ctx :=
        LineCanvas.record ctx
          (LineCanvas.Polygon arrow lineOpacity lineOpacity) in
      fillArrows ctx rest lineOpacity
  end.

(** The line width that [_paintArrow] hands to [_getArrows]:
    [if (!lineWidth || lineWidth < 3) lineWidth = 3]; [symbolLineWidth]
    is [this._getInternalSymbol()['lineWidth']], [None] when the symbol
    has no such property. *)
Definition arrowLineWidth (symbolLineWidth : option R) : R :=
  match symbolLineWidth with
  | None => 3
  | Some lineWidth =>
      if (negb (JS.truthy lineWidth)
          || (if Rlt_dec lineWidth 3 then true else false))%bool
      then 3
      else lineWidth
  end.

(** [_paintArrow(ctx, points, lineOpacity)]. *)
Definition _paintArrow (this : LineString.t) (symbolLineWidth : option R)
    (ctx : LineCanvas.context) (points : LineString.path) (lineOpacity : R)
  : LineCanvas.context * completion unit :=
  let lineWidth := arrowLineWidth symbolLineWidth in
  match LineString._getArrows this points lineWidth None with
  | Throws e => (ctx, Throws e)
  | Returns None => (ctx, Returns tt)
  | Returns (Some arrows) =>
      let ctx :=
        if LineCanvas.hasSetLineDash ctx
        then LineCanvas.record ctx (LineCanvas.SetLineDash [])
        else ctx in
      (fillArrows ctx (rev arrows) lineOpacity, Returns tt)
  end.

(** [_paintOn(ctx, points, lineOpacity, fillOpacity, dasharray)]. *)
Definition _paintOn (this : LineString.t) (symbolLineWidth : option R)
    (ctx : LineCanvas.context) (points : LineString.path)
    (lineOpacity fillOpacity : R) (dasharray : option (list R))
  : LineCanvas.context * completion unit :=
  let ctx := LineCanvas.record ctx (LineCanvas.Path points lineOpacity dasharray) in
  _paintArrow this symbolLineWidth ctx points lineOpacity.

End LineStringPaint.

(* ================================================================== *)
(** ** [Polygon]: paint parameters (VectorRenderer.js) *)
(* ================================================================== *)

Module Polygon.

(** The arrays this method handles hold points, arrays or, when an index
    is read past the end, [undefined]. *)
#[warnings="-register-all"]
Inductive node : Type :=
| Vertex (p : Point.t)
| List (items : list node)
| Other                          (* a value that is not an array *)
| Undefined.

(** [Array.isArray(n)]. *)
Definition isArray (n : node) : bool :=
  match n with
  | List _ => true
  | _ => false
  end.

(** [n[i]], for [n] an array. *)
Definition at_ (n : node) (i : nat) : node :=
  match n with
  | List items => nth i items Undefined
  | _ => Undefined
  end.

(** One round of the loop over the holes: [parts] are [points[0]] and
    [points[1]] of a split polygon, [holePoints] the holes of one that is
    not split. *)
Definition addHole (isSplitted : bool)
    (state : list node * list node * list node) (hole : node)
  : list node * list node * list node :=
  let '(part0, part1, holePoints) := state in
  if isSplitted
  then
    if isArray hole
    then (part0 ++ [at_ hole 0], part1 ++ [at_ hole 1], holePoints)
    else (part0 ++ [hole], part1, holePoints)
  else (part0, part1, holePoints ++ [hole]).

(** [_getPaintParams()]: [points] is the array that [_getPath2DPoints]
    returns for the shell and [holes] are the arrays it returns for the
    holes, in the order of [_getPrjHoles()]. *)
Definition _getPaintParams (points : list node) (holes : list node)
  : list node :=
  let isSplitted :=
    match points with
    | first :: _ => isArray first
    | [] => false
    end in
  let '(part0, part1, holePoints) :=
    fold_left (addHole isSplitted) holes
      ([nth 0 points Undefined], [nth 1 points Undefined], []) in
  [ if isSplitted
    then List [List part0; List part1]
    else List (List points :: holePoints) ].

End Polygon.

(* ================================================================== *)
(** ** Vocabulary of the statements *)
(* ================================================================== *)

(** An even integer, among the reals. *)
Definition isEvenInteger (x : R) : Prop := exists k : Z, x = IZR (2 * k).





(** The kinds that [_getVectorPoints] gives vertices to, and the kinds
    that [_drawVectorMarker] draws. *)
Definition vertexKinds : list string :=
  ["triangle"; "cross"; "diamond"; "square"; "x"; "bar"; "pin"].
Definition supportedKinds : list string :=
  ["ellipse"; "cross"; "x"; "diamond"; "square"; "bar"; "triangle"; "pin";
   "pie"].

(** Two contexts with the same line cap, transform and save stack. *)
Definition sameState (a b : Canvas.context) : Prop :=
  Canvas.lineCap a = Canvas.lineCap b
  /\ Canvas.transform a = Canvas.transform b
  /\ Canvas.saved a = Canvas.saved b.

(** The symbolizer and the context after the gradient block of
    [_drawVectorMarker]. *)
Definition afterGradientBlock (this : VectorMarkerSymbolizer.t)
    (ctx : Canvas.context) (point : Point.t)
  : VectorMarkerSymbolizer.t * Canvas.context :=
  if VectorMarkerSymbolizer.usesGradient
       (VectorMarkerSymbolizer.strokeAndFill this)
  then
    (VectorMarkerSymbolizer.setStrokeAndFill this
       (VectorMarkerSymbolizer.assignGradientExtents this point),
     Canvas.prepareCanvas ctx
       (VectorMarkerSymbolizer.assignGradientExtents this point))
  else (this, ctx).

(** A symbol with other values of [markerDx], [markerDy] and
    [markerRotation]. *)
Definition withPlacement (s : Symbol.t) (dx dy rotation : option R)
  : Symbol.t :=
  {| Symbol.markerType := Symbol.markerType s;
     Symbol.markerFill := Symbol.markerFill s;
     Symbol.markerFillOpacity := Symbol.markerFillOpacity s;
     Symbol.markerFillPatternFile := Symbol.markerFillPatternFile s;
     Symbol.markerLineColor := Symbol.markerLineColor s;
     Symbol.markerLineWidth := Symbol.markerLineWidth s;
     Symbol.markerLineOpacity := Symbol.markerLineOpacity s;
     Symbol.markerLineDasharray := Symbol.markerLineDasharray s;
     Symbol.markerLinePatternFile := Symbol.markerLinePatternFile s;
     Symbol.markerWidth := Symbol.markerWidth s;
     Symbol.markerHeight := Symbol.markerHeight s;
     Symbol.markerDx := dx;
     Symbol.markerDy := dy;
     Symbol.markerOpacity := Symbol.markerOpacity s;
     Symbol.markerRotation := rotation |}.

(** A style with other values of [markerDx] and [markerDy]. *)
Definition withOffset (s : VectorMarkerSymbolizer.Style) (dx dy : R)
  : VectorMarkerSymbolizer.Style :=
  {| VectorMarkerSymbolizer.markerType := VectorMarkerSymbolizer.markerType s;
     VectorMarkerSymbolizer.markerFill := VectorMarkerSymbolizer.markerFill s;
     VectorMarkerSymbolizer.markerFillOpacity :=
       VectorMarkerSymbolizer.markerFillOpacity s;
     VectorMarkerSymbolizer.markerFillPatternFile :=
       VectorMarkerSymbolizer.markerFillPatternFile s;
     VectorMarkerSymbolizer.markerLineColor :=
       VectorMarkerSymbolizer.markerLineColor s;
     VectorMarkerSymbolizer.markerLineWidth :=
       VectorMarkerSymbolizer.markerLineWidth s;
     VectorMarkerSymbolizer.markerLineOpacity :=
       VectorMarkerSymbolizer.markerLineOpacity s;
     VectorMarkerSymbolizer.markerLineDasharray :=
       VectorMarkerSymbolizer.markerLineDasharray s;
     VectorMarkerSymbolizer.markerLinePatternFile :=
       VectorMarkerSymbolizer.markerLinePatternFile s;
     VectorMarkerSymbolizer.markerWidth := VectorMarkerSymbolizer.markerWidth s;
     VectorMarkerSymbolizer.markerHeight :=
       VectorMarkerSymbolizer.markerHeight s;
     VectorMarkerSymbolizer.markerDx := dx;
     VectorMarkerSymbolizer.markerDy := dy |}.

(** A style with another [markerFill]. *)
Definition withFill (s : VectorMarkerSymbolizer.Style) (fill : paint)
  : VectorMarkerSymbolizer.Style :=
  {| VectorMarkerSymbolizer.markerType := VectorMarkerSymbolizer.markerType s;
     VectorMarkerSymbolizer.markerFill := fill;
     VectorMarkerSymbolizer.markerFillOpacity :=
       VectorMarkerSymbolizer.markerFillOpacity s;
     VectorMarkerSymbolizer.markerFillPatternFile :=
       VectorMarkerSymbolizer.markerFillPatternFile s;
     VectorMarkerSymbolizer.markerLineColor :=
       VectorMarkerSymbolizer.markerLineColor s;
     VectorMarkerSymbolizer.markerLineWidth :=
       VectorMarkerSymbolizer.markerLineWidth s;
     VectorMarkerSymbolizer.markerLineOpacity :=
       VectorMarkerSymbolizer.markerLineOpacity s;
     VectorMarkerSymbolizer.markerLineDasharray :=
       VectorMarkerSymbolizer.markerLineDasharray s;
     VectorMarkerSymbolizer.markerLinePatternFile :=
       VectorMarkerSymbolizer.markerLinePatternFile s;
     VectorMarkerSymbolizer.markerWidth := VectorMarkerSymbolizer.markerWidth s;
     VectorMarkerSymbolizer.markerHeight :=
       VectorMarkerSymbolizer.markerHeight s;
     VectorMarkerSymbolizer.markerDx := VectorMarkerSymbolizer.markerDx s;
     VectorMarkerSymbolizer.markerDy := VectorMarkerSymbolizer.markerDy s |}.


(** The placements that [_getArrows] knows. *)
Definition knownPlacements : list string :=
  ["vertex-first"; "vertex-last"; "vertex-firstlast"; "point"].

(** The segments that the loop of [_getArrows] visits. *)
Definition segmentsOf (points : LineString.path) : list (list Point.t) :=
  match points with
  | LineString.Flat pts => [pts]
  | LineString.Split segments => segments
  end.

(** A point inside an extent, borders included. *)
Definition contains (e : PointExtent.t) (p : Point.t) : Prop :=
  PointExtent.xmin e <= Point.x p <= PointExtent.xmax e
  /\ PointExtent.ymin e <= Point.y p <= PointExtent.ymax e.

(** The kinds whose vertices are the outline that is drawn. *)
Definition outlineKinds : list string :=
  ["triangle"; "cross"; "diamond"; "square"; "x"; "bar"].

(* ================================================================== *)
(** ** Sample inputs *)
(* ================================================================== *)

(** A host whose stamps are the gradient type and a fixed digit. *)
Definition sampleHost : Host :=
  {| getGradientStamp := gradientType;
     numberToString := fun _ => "1" |}.

(** A geometry with one point to render, drawn without the image cache;
    [rotation] is the rotation of every instance. *)
Definition liveGeometry (rotation : option R)
  : VectorMarkerSymbolizer.Geometry :=
  {| VectorMarkerSymbolizer.shadowBlur := 0;
     VectorMarkerSymbolizer.renderContainerPoints := [Point.new 5 5];
     VectorMarkerSymbolizer.rotationAt := fun _ => rotation;
     VectorMarkerSymbolizer.isSpriting := false;
     VectorMarkerSymbolizer.isMask := false;
     VectorMarkerSymbolizer.cacheVectorOnCanvas := Some false |}.

(** The same geometry under a layer that leaves the cache on. *)
Definition cachedGeometry : VectorMarkerSymbolizer.Geometry :=
  {| VectorMarkerSymbolizer.shadowBlur := 0;
     VectorMarkerSymbolizer.renderContainerPoints := [Point.new 5 5];
     VectorMarkerSymbolizer.rotationAt := fun _ => None;
     VectorMarkerSymbolizer.isSpriting := false;
     VectorMarkerSymbolizer.isMask := false;
     VectorMarkerSymbolizer.cacheVectorOnCanvas := None |}.

(** The symbol [{ markerType: kind }]. *)
Definition symbolOfKind (kind : string) : Symbol.t :=
  {| Symbol.markerType := Some kind; Symbol.markerFill := None;
     Symbol.markerFillOpacity := None; Symbol.markerFillPatternFile := None;
     Symbol.markerLineColor := None; Symbol.markerLineWidth := None;
     Symbol.markerLineOpacity := None; Symbol.markerLineDasharray := None;
     Symbol.markerLinePatternFile := None; Symbol.markerWidth := None;
     Symbol.markerHeight := None; Symbol.markerDx := None;
     Symbol.markerDy := None; Symbol.markerOpacity := None;
     Symbol.markerRotation := None |}.

(** The symbol [{ markerLineWidth: 0 }]. *)
Definition hairlineSymbol : Symbol.t :=
  {| Symbol.markerType := None; Symbol.markerFill := None;
     Symbol.markerFillOpacity := None; Symbol.markerFillPatternFile := None;
     Symbol.markerLineColor := None; Symbol.markerLineWidth := Some 0;
     Symbol.markerLineOpacity := None; Symbol.markerLineDasharray := None;
     Symbol.markerLinePatternFile := None; Symbol.markerWidth := None;
     Symbol.markerHeight := None; Symbol.markerDx := None;
     Symbol.markerDy := None; Symbol.markerOpacity := None;
     Symbol.markerRotation := None |}.

(** The symbol [{ markerType: 'bar', markerWidth: 10, markerHeight: 20,
    markerLineWidth: 2 }]. *)
Definition barSymbol : Symbol.t :=
  {| Symbol.markerType := Some "bar"; Symbol.markerFill := None;
     Symbol.markerFillOpacity := None; Symbol.markerFillPatternFile := None;
     Symbol.markerLineColor := None; Symbol.markerLineWidth := Some 2;
     Symbol.markerLineOpacity := None; Symbol.markerLineDasharray := None;
     Symbol.markerLinePatternFile := None; Symbol.markerWidth := Some 10;
     Symbol.markerHeight := Some 20; Symbol.markerDx := None;
     Symbol.markerDy := None; Symbol.markerOpacity := None;
     Symbol.markerRotation := None |}.

(** The symbol [{ markerFillOpacity: 0, markerLineOpacity: 0 }]. *)
Definition transparentSymbol : Symbol.t :=
  {| Symbol.markerType := None; Symbol.markerFill := None;
     Symbol.markerFillOpacity := Some 0; Symbol.markerFillPatternFile := None;
     Symbol.markerLineColor := None; Symbol.markerLineWidth := None;
     Symbol.markerLineOpacity := Some 0; Symbol.markerLineDasharray := None;
     Symbol.markerLinePatternFile := None; Symbol.markerWidth := None;
     Symbol.markerHeight := None; Symbol.markerDx := None;
     Symbol.markerDy := None; Symbol.markerOpacity := None;
     Symbol.markerRotation := None |}.

(** The symbol [{ markerType: 'pin' }] drawn live with a rotation, and
    the unsupported [{ markerType: 'hexagon' }] likewise. *)
Definition rotatedPin : VectorMarkerSymbolizer.t :=
  VectorMarkerSymbolizer.constructor (symbolOfKind "pin")
    (liveGeometry (Some 1)) false.
Definition rotatedHexagon : VectorMarkerSymbolizer.t :=
  VectorMarkerSymbolizer.constructor (symbolOfKind "hexagon")
    (liveGeometry (Some 1)) false.

(** The gradient [{ type: 'linear', colorStops: [[0, 'red'], [1, 'blue']] }]. *)
Definition redToBlue : gradient :=
  {| gradientType := "linear"; colorStops := [(0, "red"); (1, "blue")] |}.

(** The symbol [{ markerFillOpacity: 0.5, markerOpacity: 0.5 }]. *)
Definition fadedSymbol : Symbol.t :=
  {| Symbol.markerType := None; Symbol.markerFill := None;
     Symbol.markerFillOpacity := Some (1 / 2);
     Symbol.markerFillPatternFile := None;
     Symbol.markerLineColor := None; Symbol.markerLineWidth := None;
     Symbol.markerLineOpacity := None; Symbol.markerLineDasharray := None;
     Symbol.markerLinePatternFile := None; Symbol.markerWidth := None;
     Symbol.markerHeight := None; Symbol.markerDx := None;
     Symbol.markerDy := None; Symbol.markerOpacity := Some (1 / 2);
     Symbol.markerRotation := None |}.

(** A context in its initial state. *)
Definition blankContext : Canvas.context :=
  Canvas.getContext (Canvas.createCanvas 100 100).

(* ================================================================== *)
(** * Properties *)
(* ================================================================== *)

(** ** Numbers and strings *)

Lemma isZero_true (x : R) : JS.isZero x = true <-> x = 0.
Proof.
  unfold JS.isZero. destruct (Req_dec_T x 0); split; intros; auto; discriminate.
Qed.

Lemma isZero_false (x : R) : JS.isZero x = false <-> x <> 0.
Proof.
  unfold JS.isZero. destruct (Req_dec_T x 0); split; intros; auto;
    try discriminate; contradiction.
Qed.

Lemma isZero_0 : JS.isZero 0 = true.
Proof. apply isZero_true. reflexivity. Qed.

Lemma trunc_IZR (k : Z) : JS.trunc (IZR k) = k.
Proof.
  unfold JS.trunc. destruct (Rle_dec 0 (IZR k)).
  - apply ZfloorZ.
  - apply Zceil_eq. lra.
Qed.

Lemma rem_2_zero (x : R) : JS.isZero (JS.rem x 2) = true <-> isEvenInteger x.
Proof.
  rewrite isZero_true. unfold JS.rem, isEvenInteger. split.
  - intros H. exists (JS.trunc (x / 2)). rewrite mult_IZR. lra.
  - intros [k ->]. rewrite mult_IZR.
    replace (2 * IZR k / 2) with (IZR k) by lra.
    rewrite trunc_IZR. lra.
Qed.

Lemma append_nonempty (a b : string) : (a ++ "_" ++ b)%string <> "".
Proof. destruct a; discriminate. Qed.

Lemma length_append (a b : string) :
  String.length (a ++ b)%string = (String.length a + String.length b)%nat.
Proof. induction a as [|c a IH]; simpl; [reflexivity | now rewrite IH]. Qed.

Lemma append_cancel_r (r a b : string) :
  (a ++ r)%string = (b ++ r)%string -> a = b.
Proof.
  revert b. induction a as [|c a IH]; intros [|d b] H; simpl in H.
  - reflexivity.
  - exfalso. apply (f_equal String.length) in H.
    simpl in H. rewrite !length_append in H. simpl in H. lia.
  - exfalso. apply (f_equal String.length) in H.
    simpl in H. rewrite !length_append in H. simpl in H. lia.
  - injection H as -> H. f_equal. apply IH, H.
Qed.

Lemma append_cancel_l (l a b : string) :
  (l ++ a)%string = (l ++ b)%string -> a = b.
Proof.
  induction l as [|c l IH]; simpl; intros H.
  - exact H.
  - injection H as H. apply IH, H.
Qed.

(** ** Points *)

Lemma point_eq (p q : Point.t) :
  Point.x p = Point.x q -> Point.y p = Point.y q -> p = q.
Proof. destruct p, q; simpl; intros -> ->; reflexivity. Qed.

Lemma mag_pos (p q : Point.t) : p <> q -> 0 < Point.mag (Point.sub q p).
Proof.
  intros Hne. unfold Point.mag, Point.sub; simpl.
  apply sqrt_lt_R0.
  set (dx := Point.x q - Point.x p). set (dy := Point.y q - Point.y p).
  assert (Hx : 0 <= dx * dx) by nra.
  assert (Hy : 0 <= dy * dy) by nra.
  destruct (Req_dec_T dx 0) as [Hdx|Hdx].
  - destruct (Req_dec_T dy 0) as [Hdy|Hdy].
    + exfalso. apply Hne. subst dx dy. apply point_eq; lra.
    + pose proof (Rsqr_pos_lt dy Hdy) as H. unfold Rsqr in H. lra.
  - pose proof (Rsqr_pos_lt dx Hdx) as H. unfold Rsqr in H. lra.
Qed.

Lemma mag_sqr (p : Point.t) :
  Point.mag p * Point.mag p = Point.x p * Point.x p + Point.y p * Point.y p.
Proof. unfold Point.mag. apply sqrt_sqrt. nra. Qed.

(** ** Arrow heads *)

Lemma tolerance_default (tolerance : option R) :
  match tolerance with
  | Some t => if JS.truthy t then t else 0
  | None => 0
  end = getValueOrDefault tolerance 0.
Proof.
  destruct tolerance as [t|]; simpl; [|reflexivity].
  unfold JS.truthy, JS.isZero. destruct (Req_dec_T t 0); simpl; congruence.
Qed.

Lemma opposite_wing (p n : Point.t) (k : R) :
  Point.add p (Point.multi (Point._multi n (-1)) k)
  = Point.sub p (Point.multi n k).
Proof.
  apply point_eq; unfold Point._multi, Point.multi, Point.add, Point.sub;
    simpl; lra.
Qed.

Lemma sqrt_100 : sqrt (10 * 10 + 0 * 0) = 10.
Proof. replace (10 * 10 + 0 * 0) with (10 * 10) by lra. apply sqrt_square. lra. Qed.

(** C6.  For [prePoint] distinct from [point], [_getArrowPoints] returns
    the closed kite [wing0; point; wing1; wing0]: with [u] the unit
    vector from [prePoint] to [point] and [n] a unit vector perpendicular
    to it, the back-tip lies [height] back from [point] along [u] and the
    wings are the back-tip plus and minus [halfWidth] times [n], where
    [width = lineWidth * factor0], [height = lineWidth * factor1 +
    tolerance] and [halfWidth = width / 2 + tolerance].  For
    [prePoint = (0,0)], [point = (10,0)], [lineWidth = 3], style [3,4]
    and tolerance 0 the tip is [(10,0)] and the wings are [(-2, 4.5)] and
    [(-2, -4.5)]. *)
Theorem C6_arrow_points_form_a_kite :
  (forall (prePoint point : Point.t) (lineWidth factor0 factor1 : R)
          (tolerance : option R),
      prePoint <> point ->
      let tol := getValueOrDefault tolerance 0 in
      let width := lineWidth * factor0 in
      let height := lineWidth * factor1 + tol in
      let halfWidth := width / 2 + tol in
      let d := Point.sub point prePoint in
      exists u n back wing0 wing1 : Point.t,
        0 < Point.mag d
        /\ d = Point.multi u (Point.mag d)
        /\ Point.dot u u = 1
        /\ Point.dot n u = 0
        /\ Point.dot n n = 1
        /\ back = Point.sub point (Point.multi u height)
        /\ wing0 = Point.add back (Point.multi n halfWidth)
        /\ wing1 = Point.sub back (Point.multi n halfWidth)
        /\ LineString._getArrowPoints prePoint point lineWidth
             (factor0, factor1) tolerance
           = [wing0; point; wing1; wing0])
  /\ LineString._getArrowPoints (Point.new 0 0) (Point.new 10 0) 3 (3, 4)
       (Some 0)
     = [Point.new (-2) (9 / 2); Point.new 10 0; Point.new (-2) (- 9 / 2);
        Point.new (-2) (9 / 2)].
Proof.
  split.
  - intros prePoint point lineWidth factor0 factor1 tolerance Hne
      tol width height halfWidth d.
    pose proof (mag_pos prePoint point Hne) as Hm. fold d in Hm.
    pose proof (mag_sqr d) as Hsq.
    set (m := Point.mag d) in *.
    assert (Hm0 : m <> 0) by lra.
    unfold d, Point.sub in Hsq. simpl in Hsq.
    set (dx := Point.x point - Point.x prePoint) in *.
    set (dy := Point.y point - Point.y prePoint) in *.
    assert (Hinv : dx * dx / (m * m) + dy * dy / (m * m) = 1).
    { replace (dx * dx / (m * m) + dy * dy / (m * m))
        with ((dx * dx + dy * dy) / (m * m)) by now field.
      rewrite <- Hsq. now field. }
    exists (Point._unit d), (Point._perp (Point._unit d)).
    eexists. eexists. eexists.
    split; [exact Hm|].
    split.
    { apply point_eq; unfold Point._unit, Point.multi; simpl;
        fold dx dy m; now field. }
    split.
    { unfold Point.dot, Point._unit; simpl; fold dx dy m.
      rewrite <- Hinv. now field. }
    split.
    { unfold Point.dot, Point._perp, Point._unit; simpl; fold dx dy m.
      now field. }
    split.
    { unfold Point.dot, Point._perp, Point._unit; simpl; fold dx dy m.
      rewrite <- Hinv. now field. }
    split; [reflexivity|]. split; [reflexivity|]. split; [reflexivity|].
    unfold LineString._getArrowPoints. rewrite tolerance_default.
    fold tol. simpl fst. simpl snd. fold width height halfWidth.
    unfold Point.substract. fold d.
    rewrite opposite_wing. reflexivity.
  - unfold LineString._getArrowPoints, JS.truthy.
    rewrite isZero_0. simpl negb. simpl fst. simpl snd.
    unfold Point.substract, Point._unit, Point.mag,
      Point.sub, Point._perp, Point._multi, Point.multi, Point.add.
    simpl.
    replace (10 - 0) with 10 by lra.
    replace (0 - 0) with 0 by lra.
    rewrite sqrt_100.
    repeat (f_equal; try lra).
Qed.

(** The kite of two distinct points of the x axis. *)
Lemma C6_witness :
  exists u n back wing0 wing1 : Point.t,
    0 < Point.mag (Point.sub (Point.new 10 0) (Point.new 0 0))
    /\ Point.sub (Point.new 10 0) (Point.new 0 0)
       = Point.multi u (Point.mag (Point.sub (Point.new 10 0) (Point.new 0 0)))
    /\ Point.dot u u = 1
    /\ Point.dot n u = 0
    /\ Point.dot n n = 1
    /\ back = Point.sub (Point.new 10 0)
                (Point.multi u (3 * 4 + getValueOrDefault (Some 0) 0))
    /\ wing0 = Point.add back
                 (Point.multi n (3 * 3 / 2 + getValueOrDefault (Some 0) 0))
    /\ wing1 = Point.sub back
                 (Point.multi n (3 * 3 / 2 + getValueOrDefault (Some 0) 0))
    /\ LineString._getArrowPoints (Point.new 0 0) (Point.new 10 0) 3 (3, 4)
         (Some 0)
       = [wing0; Point.new 10 0; wing1; wing0].
Proof.
  apply (proj1 C6_arrow_points_form_a_kite
           (Point.new 0 0) (Point.new 10 0) 3 3 4 (Some 0)).
  intros H. injection H as H. lra.
Defined.




Lemma pointLoop_length (segment : list Point.t) (lineWidth : R)
    (arrowStyle : R * R) (tolerance : option R) :
  length (LineString.pointLoop segment lineWidth arrowStyle tolerance)
  = (length segment - 1)%nat.
Proof.
  induction segment as [|a [|b rest] IH]; [reflexivity | reflexivity |].
  change (S (length (LineString.pointLoop (b :: rest) lineWidth arrowStyle
                       tolerance))
          = (length (a :: b :: rest) - 1)%nat).
  rewrite IH. simpl length. lia.
Qed.










(** The entry test of [_getArrows] counts the elements of the outer
    array: a split path made of a single segment yields no arrow. *)
Lemma getArrows_single_split_segment (this : LineString.t)
    (segment : list Point.t) (lineWidth : R) (tolerance : option R) :
  LineString._getArrows this (LineString.Split [segment]) lineWidth tolerance
  = Returns None.
Proof.
  unfold LineString._getArrows.
  destruct (LineString._getArrowStyle this); reflexivity.
Qed.


(** ** Style resolution *)

Lemma lineOpacity_of_translateLineAndFill (s : VectorMarkerSymbolizer.Style) :
  (VectorMarkerSymbolizer.markerLineWidth s = 0 ->
   StrokeAndFill.lineOpacity (VectorMarkerSymbolizer.translateLineAndFill s)
   = 0)
  /\ (VectorMarkerSymbolizer.markerLineWidth s <> 0 ->
      StrokeAndFill.lineOpacity (VectorMarkerSymbolizer.translateLineAndFill s)
      = VectorMarkerSymbolizer.markerLineOpacity s).
Proof.
  unfold VectorMarkerSymbolizer.translateLineAndFill.
  cbn [StrokeAndFill.lineWidth].
  split; intros H.
  - rewrite (proj2 (isZero_true _) H). reflexivity.
  - rewrite (proj2 (isZero_false _) H). reflexivity.
Qed.

(** C8.  The symbolizer built from the empty symbol has [lineOpacity = 1],
    [polygonOpacity = 1], [lineColor = '#000'], [polygonFill = '#00f'],
    [markerWidth = 10] and [markerHeight = 10]; and for every style the
    derived [lineOpacity] is forced to 0 when the line width is 0 and is
    the marker line opacity otherwise. *)
Theorem C8_defaults_and_zero_line_width
    (g : VectorMarkerSymbolizer.Geometry) (dynamic : bool)
    (s : VectorMarkerSymbolizer.Style) :
  let this := VectorMarkerSymbolizer.constructor Symbol.empty g dynamic in
  let derived := VectorMarkerSymbolizer.translateLineAndFill s in
  StrokeAndFill.lineOpacity (VectorMarkerSymbolizer.strokeAndFill this) = 1
  /\ StrokeAndFill.polygonOpacity (VectorMarkerSymbolizer.strokeAndFill this)
     = 1
  /\ StrokeAndFill.lineColor (VectorMarkerSymbolizer.strokeAndFill this)
     = Color "#000"
  /\ StrokeAndFill.polygonFill (VectorMarkerSymbolizer.strokeAndFill this)
     = Color "#00f"
  /\ VectorMarkerSymbolizer.markerWidth (VectorMarkerSymbolizer.style this)
     = 10
  /\ VectorMarkerSymbolizer.markerHeight (VectorMarkerSymbolizer.style this)
     = 10
  /\ (VectorMarkerSymbolizer.markerLineWidth s = 0 ->
      StrokeAndFill.lineOpacity derived = 0)
  /\ (VectorMarkerSymbolizer.markerLineWidth s <> 0 ->
      StrokeAndFill.lineOpacity derived
      = VectorMarkerSymbolizer.markerLineOpacity s).
Proof.
  intros this derived.
  assert (Hone : JS.isZero 1 = false) by (apply isZero_false; lra).
  unfold this, VectorMarkerSymbolizer.constructor,
    VectorMarkerSymbolizer._defineStyle,
    VectorMarkerSymbolizer.translateLineAndFill,
    VectorMarkerSymbolizer.translate.
  cbn [Symbol.empty getValueOrDefault Symbol.markerLineWidth
       Symbol.markerOpacity Symbol.markerFillOpacity Symbol.markerLineOpacity
       Symbol.markerLineColor Symbol.markerFill Symbol.markerWidth
       Symbol.markerHeight
       VectorMarkerSymbolizer.markerLineWidth
       VectorMarkerSymbolizer.strokeAndFill VectorMarkerSymbolizer.style
       StrokeAndFill.lineWidth].
  rewrite Hone.
  repeat (split; [reflexivity|]).
  unfold derived, VectorMarkerSymbolizer.translateLineAndFill.
  cbn [StrokeAndFill.lineWidth].
  split; intros H.
  - rewrite (proj2 (isZero_true _) H). reflexivity.
  - rewrite (proj2 (isZero_false _) H). reflexivity.
Qed.

(** The derived line opacity of [{ markerLineWidth: 0 }] and of [{}]. *)
Lemma C8_witness :
  StrokeAndFill.lineOpacity
    (VectorMarkerSymbolizer.translateLineAndFill
       (VectorMarkerSymbolizer.translate hairlineSymbol)) = 0
  /\ StrokeAndFill.lineOpacity
       (VectorMarkerSymbolizer.translateLineAndFill
          (VectorMarkerSymbolizer.translate Symbol.empty))
     = VectorMarkerSymbolizer.markerLineOpacity
         (VectorMarkerSymbolizer.translate Symbol.empty).
Proof.
  split.
  - destruct (C8_defaults_and_zero_line_width (liveGeometry None) false
                (VectorMarkerSymbolizer.translate hairlineSymbol))
      as (_ & _ & _ & _ & _ & _ & Hzero & _).
    apply Hzero. reflexivity.
  - destruct (C8_defaults_and_zero_line_width (liveGeometry None) false
                (VectorMarkerSymbolizer.translate Symbol.empty))
      as (_ & _ & _ & _ & _ & _ & _ & Hother).
    apply Hother. simpl. lra.
Defined.

Lemma translateLineAndFill_lineWidth (s : VectorMarkerSymbolizer.Style) :
  StrokeAndFill.lineWidth (VectorMarkerSymbolizer.translateLineAndFill s)
  = VectorMarkerSymbolizer.markerLineWidth s.
Proof.
  unfold VectorMarkerSymbolizer.translateLineAndFill.
  cbn [StrokeAndFill.lineWidth].
  destruct (JS.isZero (VectorMarkerSymbolizer.markerLineWidth s)); reflexivity.
Qed.

Lemma translateLineAndFill_paints (s : VectorMarkerSymbolizer.Style) :
  StrokeAndFill.lineColor (VectorMarkerSymbolizer.translateLineAndFill s)
  = VectorMarkerSymbolizer.markerLineColor s
  /\ StrokeAndFill.polygonFill (VectorMarkerSymbolizer.translateLineAndFill s)
     = VectorMarkerSymbolizer.markerFill s
  /\ StrokeAndFill.polygonOpacity
       (VectorMarkerSymbolizer.translateLineAndFill s)
     = VectorMarkerSymbolizer.markerFillOpacity s.
Proof.
  unfold VectorMarkerSymbolizer.translateLineAndFill.
  cbn [StrokeAndFill.lineWidth].
  destruct (JS.isZero (VectorMarkerSymbolizer.markerLineWidth s));
    repeat split; reflexivity.
Qed.

Lemma constructor_lineWidth (symbol : Symbol.t)
    (g : VectorMarkerSymbolizer.Geometry) (dynamic : bool) :
  StrokeAndFill.lineWidth
    (VectorMarkerSymbolizer.strokeAndFill
       (VectorMarkerSymbolizer.constructor symbol g dynamic))
  = VectorMarkerSymbolizer.markerLineWidth
      (VectorMarkerSymbolizer.translate symbol).
Proof. apply translateLineAndFill_lineWidth. Qed.

Lemma constructor_padding (symbol : Symbol.t)
    (g : VectorMarkerSymbolizer.Geometry) (dynamic : bool) :
  VectorMarkerSymbolizer.padding
    (VectorMarkerSymbolizer.constructor symbol g dynamic)
  = if JS.isZero
         (JS.rem (VectorMarkerSymbolizer.markerLineWidth
                    (VectorMarkerSymbolizer.translate symbol)) 2)
    then (2, 2) else (3, 3).
Proof.
  unfold VectorMarkerSymbolizer.constructor, VectorMarkerSymbolizer._defineStyle.
  cbn [VectorMarkerSymbolizer.padding].
  rewrite translateLineAndFill_lineWidth. reflexivity.
Qed.

(** ** Anchor *)

Lemma standsOnAnchor_true (kind : string) :
  VectorMarkerSymbolizer.standsOnAnchor kind = true
  <-> kind = "bar" \/ kind = "pie" \/ kind = "pin".
Proof.
  unfold VectorMarkerSymbolizer.standsOnAnchor.
  rewrite !orb_true_iff, !String.eqb_eq. tauto.
Qed.

(** C7.  With the kind read as the lower-cased marker type,
    [_getAnchor(w, h)] is [(w/2, h - padding[1] - lineWidth/2 -
    shadowBlur)] when the kind is bar, pie or pin, and [(w/2, h/2)] for
    every other kind. *)
Theorem C7_anchor (this : VectorMarkerSymbolizer.t) (w h : R) :
  let kind :=
    JS.toLowerCase
      (VectorMarkerSymbolizer.markerType (VectorMarkerSymbolizer.style this)) in
  let lineWidth :=
    StrokeAndFill.lineWidth (VectorMarkerSymbolizer.strokeAndFill this) in
  let shadowBlur :=
    VectorMarkerSymbolizer.shadowBlur (VectorMarkerSymbolizer.geometry this) in
  let bottomPadding := snd (VectorMarkerSymbolizer.padding this) in
  (kind = "bar" \/ kind = "pie" \/ kind = "pin" ->
   VectorMarkerSymbolizer._getAnchor this w h
   = Point.new (w / 2) (h - bottomPadding - lineWidth / 2 - shadowBlur))
  /\ (~ (kind = "bar" \/ kind = "pie" \/ kind = "pin") ->
      VectorMarkerSymbolizer._getAnchor this w h = Point.new (w / 2) (h / 2)).
Proof.
  intros kind lineWidth shadowBlur bottomPadding.
  unfold VectorMarkerSymbolizer._getAnchor. fold kind.
  split; intros H.
  - rewrite (proj2 (standsOnAnchor_true kind) H). reflexivity.
  - destruct (VectorMarkerSymbolizer.standsOnAnchor kind) eqn:E;
      [|reflexivity].
    exfalso. apply H. apply standsOnAnchor_true, E.
Qed.

(** The anchors of a bar and of an ellipse in an image of 16 by 26. *)
Lemma C7_witness :
  let bar :=
    VectorMarkerSymbolizer.constructor barSymbol (liveGeometry None) false in
  let ellipse :=
    VectorMarkerSymbolizer.constructor Symbol.empty (liveGeometry None) false in
  VectorMarkerSymbolizer._getAnchor bar 16 26 = Point.new 8 23
  /\ VectorMarkerSymbolizer._getAnchor ellipse 16 26 = Point.new 8 13.
Proof.
  split.
  - rewrite (proj1 (C7_anchor
               (VectorMarkerSymbolizer.constructor barSymbol
                  (liveGeometry None) false) 16 26))
      by (left; reflexivity).
    rewrite constructor_padding, constructor_lineWidth.
    change (VectorMarkerSymbolizer.markerLineWidth
              (VectorMarkerSymbolizer.translate barSymbol)) with 2.
    rewrite (proj2 (rem_2_zero 2)) by (exists 1%Z; reflexivity).
    apply point_eq; simpl; lra.
  - rewrite (proj2 (C7_anchor
               (VectorMarkerSymbolizer.constructor Symbol.empty
                  (liveGeometry None) false) 16 26))
      by (intros [H|[H|H]]; discriminate H).
    apply point_eq; simpl; lra.
Defined.

(** ** Shape vertices and the draw dispatch *)

(** Splits the goal on the tests [String.eqb k "..."] of a kind [k]. *)
Ltac split_kind k :=
  repeat match goal with
  | |- context [String.eqb k ?lit] =>
      destruct (String.eqb_spec k lit) as [?Hkind|?Hkind]
  end.

Lemma getVectorPoints_other (kind : string) (width height : R) :
  ~ In kind vertexKinds ->
  VectorMarkerSymbolizer._getVectorPoints kind width height = [].
Proof.
  intros H. unfold VectorMarkerSymbolizer._getVectorPoints.
  split_kind kind; try reflexivity;
    exfalso; apply H; subst kind; simpl; tauto.
Qed.

Lemma sameState_refl (ctx : Canvas.context) : sameState ctx ctx.
Proof. repeat split. Qed.

Lemma sameState_trans (a b c : Canvas.context) :
  sameState a b -> sameState b c -> sameState a c.
Proof.
  intros (H1 & H2 & H3) (H4 & H5 & H6). repeat split; congruence.
Qed.

Lemma afterGradientBlock_frame (this : VectorMarkerSymbolizer.t)
    (ctx : Canvas.context) (point : Point.t) :
  sameState (snd (afterGradientBlock this ctx point)) ctx
  /\ VectorMarkerSymbolizer.style (fst (afterGradientBlock this ctx point))
     = VectorMarkerSymbolizer.style this
  /\ VectorMarkerSymbolizer._stamp (fst (afterGradientBlock this ctx point))
     = VectorMarkerSymbolizer._stamp this
  /\ VectorMarkerSymbolizer.geometry (fst (afterGradientBlock this ctx point))
     = VectorMarkerSymbolizer.geometry this
  /\ VectorMarkerSymbolizer.padding (fst (afterGradientBlock this ctx point))
     = VectorMarkerSymbolizer.padding this.
Proof.
  unfold afterGradientBlock.
  destruct (VectorMarkerSymbolizer.usesGradient _); repeat split.
Qed.

Lemma drawVectorMarker_unsupported (this : VectorMarkerSymbolizer.t)
    (ctx : Canvas.context) (point : Point.t) :
  let kind :=
    JS.toLowerCase
      (VectorMarkerSymbolizer.markerType (VectorMarkerSymbolizer.style this)) in
  ~ In kind supportedKinds ->
  VectorMarkerSymbolizer._drawVectorMarker this ctx point
  = (afterGradientBlock this ctx point,
     Throws (JS.Error ("unsupported markerType: " ++ kind))).
Proof.
  intros kind H.
  unfold VectorMarkerSymbolizer._drawVectorMarker, afterGradientBlock.
  fold kind.
  destruct (VectorMarkerSymbolizer.usesGradient _);
    split_kind kind; cbv [orb]; try reflexivity;
    exfalso; apply H;
    match goal with Hk : kind = _ |- _ => rewrite Hk; simpl; tauto end.
Qed.

Lemma drawVectorMarker_supported (this : VectorMarkerSymbolizer.t)
    (ctx : Canvas.context) (point : Point.t) :
  let kind :=
    JS.toLowerCase
      (VectorMarkerSymbolizer.markerType (VectorMarkerSymbolizer.style this)) in
  In kind supportedKinds ->
  exists ctx' : Canvas.context,
    VectorMarkerSymbolizer._drawVectorMarker this ctx point
    = (fst (afterGradientBlock this ctx point), ctx', Returns tt)
    /\ sameState ctx' ctx.
Proof.
  intros kind H.
  unfold VectorMarkerSymbolizer._drawVectorMarker, afterGradientBlock.
  fold kind.
  destruct (VectorMarkerSymbolizer.usesGradient _);
    split_kind kind; cbv [orb];
    try (eexists; split; [reflexivity | repeat split]).
  all: exfalso; simpl in H; intuition congruence.
Qed.

(** [_drawVectorMarker] leaves the line cap, the transform and the save
    stack of the context as they were, however it ends. *)
Lemma drawVectorMarker_frame (this : VectorMarkerSymbolizer.t)
    (ctx : Canvas.context) (point : Point.t) :
  sameState
    (snd (fst (VectorMarkerSymbolizer._drawVectorMarker this ctx point))) ctx.
Proof.
  unfold VectorMarkerSymbolizer._drawVectorMarker.
  set (kind := JS.toLowerCase _).
  destruct (VectorMarkerSymbolizer.usesGradient _);
    split_kind kind; cbv [orb]; repeat split.
Qed.

(** C10.  [_getVectorPoints] is a total function: it returns the listed
    vertices for the seven vertex-based kinds and the empty list for
    ['ellipse'], for ['pie'] and for every other kind string; for a kind
    that is not drawn the failure comes from [_drawVectorMarker], after
    [_getVectorPoints] has returned the empty list. *)
Theorem C10_vector_points_total (this : VectorMarkerSymbolizer.t)
    (ctx : Canvas.context) (point : Point.t) (kind : string)
    (width height : R) :
  let draws := JS.toLowerCase
    (VectorMarkerSymbolizer.markerType (VectorMarkerSymbolizer.style this)) in
  VectorMarkerSymbolizer._getVectorPoints "triangle" width height
  = [Point.new 0 (- (height / 2)); Point.new (- (width / 2)) (height / 2);
     Point.new (width / 2) (height / 2)]
  /\ VectorMarkerSymbolizer._getVectorPoints "cross" width height
     = [Point.new (- (width / 2)) 0; Point.new (width / 2) 0;
        Point.new 0 (- (height / 2)); Point.new 0 (height / 2)]
  /\ VectorMarkerSymbolizer._getVectorPoints "diamond" width height
     = [Point.new (- (width / 2)) 0; Point.new 0 (- (height / 2));
        Point.new (width / 2) 0; Point.new 0 (height / 2)]
  /\ VectorMarkerSymbolizer._getVectorPoints "square" width height
     = [Point.new (- (width / 2)) (height / 2);
        Point.new (width / 2) (height / 2);
        Point.new (width / 2) (- (height / 2));
        Point.new (- (width / 2)) (- (height / 2))]
  /\ VectorMarkerSymbolizer._getVectorPoints "x" width height
     = [Point.new (- (width / 2)) (height / 2);
        Point.new (width / 2) (- (height / 2));
        Point.new (width / 2) (height / 2);
        Point.new (- (width / 2)) (- (height / 2))]
  /\ VectorMarkerSymbolizer._getVectorPoints "bar" width height
     = [Point.new (- (width / 2)) (- height); Point.new (width / 2) (- height);
        Point.new (width / 2) 0; Point.new (- (width / 2)) 0]
  /\ VectorMarkerSymbolizer._getVectorPoints "pin" width height
     = [Point.new 0 0;
        Point.new (- (height * atan (width / 2 / (height / 2)))) (- height);
        Point.new (height * atan (width / 2 / (height / 2))) (- height);
        Point.new 0 0]
  /\ VectorMarkerSymbolizer._getVectorPoints "ellipse" width height = []
  /\ VectorMarkerSymbolizer._getVectorPoints "pie" width height = []
  /\ (~ In kind vertexKinds ->
      VectorMarkerSymbolizer._getVectorPoints kind width height = [])
  /\ (~ In draws supportedKinds ->
      VectorMarkerSymbolizer._getVectorPoints draws width height = []
      /\ snd (VectorMarkerSymbolizer._drawVectorMarker this ctx point)
         = Throws (JS.Error ("unsupported markerType: " ++ draws))).
Proof.
  intros draws.
  repeat match goal with
  | |- VectorMarkerSymbolizer._getVectorPoints (String _ _) _ _ = _ /\ _ =>
      split; [unfold VectorMarkerSymbolizer._getVectorPoints; simpl;
              repeat (f_equal; try lra) |]
  end.
  split; [apply getVectorPoints_other|].
  intros H. split.
  - apply getVectorPoints_other. intros Hin. apply H.
    unfold vertexKinds, supportedKinds in *. simpl in *. tauto.
  - rewrite (drawVectorMarker_unsupported this ctx point H). reflexivity.
Qed.

(** The vertex list of an unknown kind and the failure of its draw. *)
Lemma C10_witness :
  let this :=
    VectorMarkerSymbolizer.constructor (symbolOfKind "hexagon")
      (liveGeometry None) false in
  VectorMarkerSymbolizer._getVectorPoints "hexagon" 10 10 = []
  /\ snd (VectorMarkerSymbolizer._drawVectorMarker this blankContext
            (Point.new 5 5))
     = Throws (JS.Error "unsupported markerType: hexagon").
Proof.
  intros this.
  destruct (C10_vector_points_total this blankContext (Point.new 5 5)
              "hexagon" 10 10)
    as (_ & _ & _ & _ & _ & _ & _ & _ & _ & Hother & Hdraw).
  split.
  - apply Hother. simpl. intuition discriminate.
  - apply Hdraw. simpl. intuition discriminate.
Defined.

(** ** The marker image and its cache *)


Lemma createMarkerImage_supported (this : VectorMarkerSymbolizer.t) :
  let kind :=
    JS.toLowerCase
      (VectorMarkerSymbolizer.markerType (VectorMarkerSymbolizer.style this)) in
  let lineWidth :=
    StrokeAndFill.lineWidth (VectorMarkerSymbolizer.strokeAndFill this) in
  let shadow :=
    VectorMarkerSymbolizer.shadowBlur (VectorMarkerSymbolizer.geometry this) in
  In kind supportedKinds ->
  exists (this' : VectorMarkerSymbolizer.t) (img : Canvas.t),
    VectorMarkerSymbolizer._createMarkerImage this = (this', Returns img)
    /\ Canvas.width img
       = round (VectorMarkerSymbolizer.markerWidth
                  (VectorMarkerSymbolizer.style this)
                + lineWidth + 2 * shadow
                + fst (VectorMarkerSymbolizer.padding this) * 2)
    /\ Canvas.height img
       = round (VectorMarkerSymbolizer.markerHeight
                  (VectorMarkerSymbolizer.style this)
                + lineWidth + 2 * shadow
                + snd (VectorMarkerSymbolizer.padding this) * 2)
    /\ VectorMarkerSymbolizer.style this' = VectorMarkerSymbolizer.style this
    /\ VectorMarkerSymbolizer.geometry this'
       = VectorMarkerSymbolizer.geometry this
    /\ VectorMarkerSymbolizer.padding this'
       = VectorMarkerSymbolizer.padding this.
Proof.
  intros kind lineWidth shadow H.
  unfold VectorMarkerSymbolizer._createMarkerImage.
  match goal with
  | |- context [VectorMarkerSymbolizer._drawVectorMarker this ?c ?p] =>
      destruct (drawVectorMarker_supported this c p H) as (ctx' & -> & _);
      destruct (afterGradientBlock_frame this c p) as (_ & Hs & _ & Hg & Hp);
      destruct (afterGradientBlock this c p) as [this' ctx'']
  end.
  eexists. eexists. split; [reflexivity|].
  repeat split; assumption.
Qed.

Section StampAndCache.

Context {host : Host}.

Lemma computeStamp_nonempty (s : VectorMarkerSymbolizer.Style) :
  VectorMarkerSymbolizer.stampMissing
    (Some (VectorMarkerSymbolizer.computeStamp s)) = false.
Proof.
  unfold VectorMarkerSymbolizer.stampMissing.
  apply String.eqb_neq.
  unfold VectorMarkerSymbolizer.computeStamp, JS.join,
    VectorMarkerSymbolizer.stampParts.
  cbn [String.concat]. apply append_nonempty.
Qed.

Lemma stampSymbol_frame (this : VectorMarkerSymbolizer.t) :
  VectorMarkerSymbolizer.style (fst (VectorMarkerSymbolizer._stampSymbol this))
  = VectorMarkerSymbolizer.style this
  /\ VectorMarkerSymbolizer.geometry
       (fst (VectorMarkerSymbolizer._stampSymbol this))
     = VectorMarkerSymbolizer.geometry this
  /\ VectorMarkerSymbolizer.padding
       (fst (VectorMarkerSymbolizer._stampSymbol this))
     = VectorMarkerSymbolizer.padding this
  /\ VectorMarkerSymbolizer.strokeAndFill
       (fst (VectorMarkerSymbolizer._stampSymbol this))
     = VectorMarkerSymbolizer.strokeAndFill this.
Proof.
  unfold VectorMarkerSymbolizer._stampSymbol.
  destruct (VectorMarkerSymbolizer.stampMissing _); repeat split.
Qed.


End StampAndCache.

Lemma Zceil_IZR (k : Z) : Zceil (IZR k) = k.
Proof. apply Zceil_eq. lra. Qed.

(** C3.  The padding of a symbolizer is (2,2) when its line width is an
    even integer and (3,3) otherwise; on a miss of the image cache the
    image registered under the stamp has width
    [ceil(markerWidth + lineWidth + 2*shadowBlur + 2*paddingX)] and
    height [ceil(markerHeight + lineWidth + 2*shadowBlur + 2*paddingY)],
    the rounding of [core/util] being the ceiling the spec names. *)
Theorem C3_marker_image_size {host : Host}
    (symbol : Symbol.t) (g : VectorMarkerSymbolizer.Geometry) (dynamic : bool)
    (ctx : Canvas.context) (cookedPoints : list Point.t)
    (resources : gmap string Canvas.t) :
  let this := VectorMarkerSymbolizer.constructor symbol g dynamic in
  let style := VectorMarkerSymbolizer.style this in
  let lineWidth :=
    StrokeAndFill.lineWidth (VectorMarkerSymbolizer.strokeAndFill this) in
  let shadowBlur := VectorMarkerSymbolizer.shadowBlur g in
  let kind := JS.toLowerCase (VectorMarkerSymbolizer.markerType style) in
  let stamp := VectorMarkerSymbolizer.computeStamp style in
  let paddingX := fst (VectorMarkerSymbolizer.padding this) in
  let paddingY := snd (VectorMarkerSymbolizer.padding this) in
  (isEvenInteger lineWidth -> VectorMarkerSymbolizer.padding this = (2, 2))
  /\ (~ isEvenInteger lineWidth ->
      VectorMarkerSymbolizer.padding this = (3, 3))
  /\ (In kind supportedKinds ->
      VectorMarkerSymbolizer.getImage resources stamp = None ->
      exists (this' : VectorMarkerSymbolizer.t) (ctx' : Canvas.context)
             (img : Canvas.t),
        VectorMarkerSymbolizer._drawMarkersWithCache this ctx cookedPoints
          resources
        = (this', ctx', <[ stamp := img ]> resources, Returns tt)
        /\ Canvas.width img
           = Zceil (VectorMarkerSymbolizer.markerWidth style + lineWidth
                    + 2 * shadowBlur + 2 * paddingX)
        /\ Canvas.height img
           = Zceil (VectorMarkerSymbolizer.markerHeight style + lineWidth
                    + 2 * shadowBlur + 2 * paddingY)).
Proof.
  intros this style lineWidth shadowBlur kind stamp paddingX paddingY.
  assert (Hpad : VectorMarkerSymbolizer.padding this
                 = if JS.isZero (JS.rem lineWidth 2) then (2, 2) else (3, 3))
    by reflexivity.
  split; [|split].
  - intros Heven. rewrite Hpad.
    rewrite (proj2 (rem_2_zero lineWidth) Heven). reflexivity.
  - intros Hodd. rewrite Hpad.
    destruct (JS.isZero (JS.rem lineWidth 2)) eqn:E; [|reflexivity].
    exfalso. apply Hodd. apply rem_2_zero, E.
  - intros Hkind Hmiss.
    unfold VectorMarkerSymbolizer._drawMarkersWithCache,
      VectorMarkerSymbolizer._stampSymbol.
    change (VectorMarkerSymbolizer._stamp this) with (@None string).
    cbn [VectorMarkerSymbolizer.stampMissing].
    fold style. fold stamp. rewrite Hmiss.
    destruct (createMarkerImage_supported
                (VectorMarkerSymbolizer.setStamp this stamp) Hkind)
      as (this' & img & -> & Hw & Hh & _).
    eexists. eexists. exists img.
    split; [reflexivity|].
    rewrite Hw, Hh. unfold round.
    split; f_equal; cbn [VectorMarkerSymbolizer.setStamp
      VectorMarkerSymbolizer.style VectorMarkerSymbolizer.strokeAndFill
      VectorMarkerSymbolizer.geometry VectorMarkerSymbolizer.padding];
      fold style lineWidth; unfold paddingX, paddingY, shadowBlur;
      change (VectorMarkerSymbolizer.geometry this) with g; lra.
Qed.

(** The image of the bar of 10 by 20 with a line of width 2, drawn
    through an empty cache, is 16 by 26. *)
Lemma C3_witness :
  let this :=
    VectorMarkerSymbolizer.constructor barSymbol cachedGeometry false in
  VectorMarkerSymbolizer.padding this = (2, 2)
  /\ exists (this' : VectorMarkerSymbolizer.t) (ctx' : Canvas.context)
            (img : Canvas.t),
       VectorMarkerSymbolizer._drawMarkersWithCache (host := sampleHost) this
         blankContext [Point.new 5 5] ∅
       = (this', ctx',
          <[ VectorMarkerSymbolizer.computeStamp (host := sampleHost)
               (VectorMarkerSymbolizer.style this) := img ]> ∅,
          Returns tt)
       /\ Canvas.width img = 16%Z
       /\ Canvas.height img = 26%Z.
Proof.
  intros this.
  destruct (C3_marker_image_size (host := sampleHost) barSymbol cachedGeometry
              false blankContext [Point.new 5 5] ∅)
    as (Heven & _ & Hmiss).
  fold this in Heven, Hmiss.
  assert (Hlw : StrokeAndFill.lineWidth
                  (VectorMarkerSymbolizer.strokeAndFill this) = 2)
    by (unfold this; rewrite constructor_lineWidth; reflexivity).
  assert (Hpad : VectorMarkerSymbolizer.padding this = (2, 2)).
  { apply Heven. rewrite Hlw. exists 1%Z. reflexivity. }
  split; [exact Hpad|].
  destruct Hmiss as (this' & ctx' & img & E & Hw & Hh).
  - simpl. tauto.
  - apply lookup_empty.
  - exists this', ctx', img. split; [exact E|].
    rewrite Hw, Hh, Hlw, Hpad.
    change (VectorMarkerSymbolizer.markerWidth
              (VectorMarkerSymbolizer.style this)) with 10.
    change (VectorMarkerSymbolizer.markerHeight
              (VectorMarkerSymbolizer.style this)) with 20.
    cbn [fst snd cachedGeometry VectorMarkerSymbolizer.shadowBlur].
    split.
    + replace (10 + 2 + 2 * 0 + 2 * 2) with (IZR 16) by lra. apply Zceil_IZR.
    + replace (20 + 2 + 2 * 0 + 2 * 2) with (IZR 26) by lra. apply Zceil_IZR.
Defined.

(** ** Scoped surface state *)

Lemma rotate_frame (this : VectorMarkerSymbolizer.t) (ctx : Canvas.context)
    (origin : Point.t) (rotation : option R) :
  match VectorMarkerSymbolizer._rotate this ctx origin rotation with
  | (ctx1, Some _) =>
      Canvas.saved ctx1
      = (Canvas.lineCap ctx, Canvas.transform ctx) :: Canvas.saved ctx
  | (ctx1, None) => ctx1 = ctx
  end.
Proof. destruct rotation; reflexivity. Qed.

Lemma restore_frame (ctx ctx1 ctx2 : Canvas.context) :
  Canvas.saved ctx1
  = (Canvas.lineCap ctx, Canvas.transform ctx) :: Canvas.saved ctx ->
  sameState ctx2 ctx1 ->
  sameState (Canvas.restore ctx2) ctx.
Proof.
  intros Hs (_ & _ & H). unfold Canvas.restore. rewrite H, Hs.
  repeat split.
Qed.

Lemma drawMarkersLoop_frame (todo : list (nat * Point.t)) :
  forall (this : VectorMarkerSymbolizer.t) (ctx : Canvas.context),
    snd (VectorMarkerSymbolizer.drawMarkersLoop this ctx todo) = Returns tt ->
    sameState
      (snd (fst (VectorMarkerSymbolizer.drawMarkersLoop this ctx todo))) ctx.
Proof.
  induction todo as [|[i point] rest IH]; intros this ctx Hret.
  - apply sameState_refl.
  - cbn [VectorMarkerSymbolizer.drawMarkersLoop] in *.
    pose proof (rotate_frame this ctx point
                  (VectorMarkerSymbolizer._getRotationAt this i)) as Hrot.
    destruct (VectorMarkerSymbolizer._rotate this ctx point _)
      as [ctx1 origin].
    match type of Hret with
    | context [VectorMarkerSymbolizer._drawVectorMarker this ctx1 ?p] =>
        pose proof (drawVectorMarker_frame this ctx1 p) as Hdraw;
        destruct (VectorMarkerSymbolizer._drawVectorMarker this ctx1 p)
          as [[this2 ctx2] [[]|e]]
    end; [|discriminate Hret].
    simpl in Hdraw.
    eapply sameState_trans; [apply IH, Hret|].
    destruct origin as [o|].
    + eapply restore_frame; eassumption.
    + subst ctx1. exact Hdraw.
Qed.

Lemma drawImagesLoop_frame (this : VectorMarkerSymbolizer.t) (img : Canvas.t)
    (anchor : Point.t) (todo : list (nat * Point.t)) :
  forall ctx : Canvas.context,
    sameState
      (VectorMarkerSymbolizer.drawImagesLoop this ctx img anchor todo) ctx.
Proof.
  induction todo as [|[i cooked] rest IH]; intros ctx.
  - apply sameState_refl.
  - cbn [VectorMarkerSymbolizer.drawImagesLoop].
    pose proof (rotate_frame this ctx (Point.sub cooked anchor)
                  (VectorMarkerSymbolizer._getRotationAt this i)) as Hrot.
    destruct (VectorMarkerSymbolizer._rotate this ctx _ _) as [ctx1 origin].
    eapply sameState_trans; [apply IH|].
    destruct origin as [o|].
    + eapply restore_frame; [eassumption|]. repeat split.
    + subst ctx1. repeat split.
Qed.

Lemma drawMarkersLoop_returns (todo : list (nat * Point.t)) :
  forall (this : VectorMarkerSymbolizer.t) (ctx : Canvas.context),
    In (JS.toLowerCase
          (VectorMarkerSymbolizer.markerType
             (VectorMarkerSymbolizer.style this))) supportedKinds ->
    snd (VectorMarkerSymbolizer.drawMarkersLoop this ctx todo) = Returns tt.
Proof.
  induction todo as [|[i point] rest IH]; intros this ctx Hkind.
  - reflexivity.
  - cbn [VectorMarkerSymbolizer.drawMarkersLoop].
    destruct (VectorMarkerSymbolizer._rotate this ctx point _)
      as [ctx1 origin].
    match goal with
    | |- context [VectorMarkerSymbolizer._drawVectorMarker this ctx1 ?p] =>
        destruct (drawVectorMarker_supported this ctx1 p Hkind)
          as (ctx2 & -> & _);
        destruct (afterGradientBlock_frame this ctx1 p) as (_ & Hs & _)
    end.
    apply IH. rewrite Hs. exact Hkind.
Qed.

Section Symbolize.

Context {host : Host}.

(** The entry test of [symbolize] reads ['polygonOpacity'] and
    ['lineOpacity'] from the style of [translate], which has no such
    keys: the test comes down to the width and the height. *)
Lemma symbolize_unfold (this : VectorMarkerSymbolizer.t)
    (ctx : Canvas.context) (resources : gmap string Canvas.t) :
  VectorMarkerSymbolizer.symbolize this ctx resources
  = if (JS.isZero (VectorMarkerSymbolizer.markerWidth
                     (VectorMarkerSymbolizer.style this))
        || JS.isZero (VectorMarkerSymbolizer.markerHeight
                        (VectorMarkerSymbolizer.style this)))%bool
    then (this, ctx, resources, Returns tt)
    else
      let cookedPoints := VectorMarkerSymbolizer._getRenderContainerPoints this in
      if negb (isArrayHasData cookedPoints)
      then (this, ctx, resources, Returns tt)
      else
        let ctx := VectorMarkerSymbolizer._prepareContext this ctx in
        if (VectorMarkerSymbolizer.isSpriting
              (VectorMarkerSymbolizer.geometry this)
            || VectorMarkerSymbolizer.isMask
                 (VectorMarkerSymbolizer.geometry this)
            || VectorMarkerSymbolizer._dynamic this
            || VectorMarkerSymbolizer.cacheDisabled
                 (VectorMarkerSymbolizer.geometry this))%bool
        then
          let '(this, ctx, outcome) :=
            VectorMarkerSymbolizer._drawMarkers this ctx cookedPoints in
          (this, ctx, resources, outcome)
        else
          VectorMarkerSymbolizer._drawMarkersWithCache this ctx cookedPoints
            resources.
Proof.
  unfold VectorMarkerSymbolizer.symbolize.
  change (JS.get (VectorMarkerSymbolizer.entries
                    (VectorMarkerSymbolizer.style this)) "markerWidth")
    with (JS.Number (VectorMarkerSymbolizer.markerWidth
                       (VectorMarkerSymbolizer.style this))).
  change (JS.get (VectorMarkerSymbolizer.entries
                    (VectorMarkerSymbolizer.style this)) "markerHeight")
    with (JS.Number (VectorMarkerSymbolizer.markerHeight
                       (VectorMarkerSymbolizer.style this))).
  change (JS.get (VectorMarkerSymbolizer.entries
                    (VectorMarkerSymbolizer.style this)) "polygonOpacity")
    with JS.Undefined.
  change (JS.get (VectorMarkerSymbolizer.entries
                    (VectorMarkerSymbolizer.style this)) "lineOpacity")
    with JS.Undefined.
  cbn [JS.strictEqZero andb]. rewrite orb_false_r. reflexivity.
Qed.

Lemma drawMarkers_frame (this : VectorMarkerSymbolizer.t)
    (ctx : Canvas.context) (cookedPoints : list Point.t) :
  snd (VectorMarkerSymbolizer._drawMarkers this ctx cookedPoints) = Returns tt ->
  sameState
    (snd (fst (VectorMarkerSymbolizer._drawMarkers this ctx cookedPoints))) ctx.
Proof.
  unfold VectorMarkerSymbolizer._drawMarkers. intros Hret.
  eapply sameState_trans; [apply drawMarkersLoop_frame, Hret|].
  destruct (negb _); repeat split.
Qed.

Lemma drawMarkersWithCache_frame (this : VectorMarkerSymbolizer.t)
    (ctx : Canvas.context) (cookedPoints : list Point.t)
    (resources : gmap string Canvas.t) :
  sameState
    (snd (fst (fst (VectorMarkerSymbolizer._drawMarkersWithCache this ctx
                      cookedPoints resources)))) ctx.
Proof.
  unfold VectorMarkerSymbolizer._drawMarkersWithCache.
  destruct (VectorMarkerSymbolizer._stampSymbol this) as [this1 stamp].
  destruct (VectorMarkerSymbolizer.getImage resources stamp) as [img|].
  - apply drawImagesLoop_frame.
  - destruct (VectorMarkerSymbolizer._createMarkerImage this1)
      as [this2 [img|e]].
    + apply drawImagesLoop_frame.
    + apply sameState_refl.
Qed.

Lemma symbolize_frame (this : VectorMarkerSymbolizer.t)
    (ctx : Canvas.context) (resources : gmap string Canvas.t) :
  snd (VectorMarkerSymbolizer.symbolize this ctx resources) = Returns tt ->
  sameState
    (snd (fst (fst (VectorMarkerSymbolizer.symbolize this ctx resources)))) ctx.
Proof.
  rewrite symbolize_unfold.
  destruct (_ || _)%bool; [intros _; apply sameState_refl|].
  cbv zeta.
  destruct (negb _); [intros _; apply sameState_refl|].
  destruct (_ || _ || _ || _)%bool.
  - pose proof (drawMarkers_frame this
                  (VectorMarkerSymbolizer._prepareContext this ctx)
                  (VectorMarkerSymbolizer._getRenderContainerPoints this))
      as Hframe.
    destruct (VectorMarkerSymbolizer._drawMarkers _ _ _) as [[this' ctx'] o].
    simpl. intros Hret. destruct (Hframe Hret) as (H1 & H2 & H3).
    repeat split; assumption.
  - intros _.
    eapply sameState_trans; [apply drawMarkersWithCache_frame|].
    repeat split.
Qed.

Lemma drawMarkersWithCache_returns (this : VectorMarkerSymbolizer.t)
    (ctx : Canvas.context) (cookedPoints : list Point.t)
    (resources : gmap string Canvas.t) :
  In (JS.toLowerCase
        (VectorMarkerSymbolizer.markerType
           (VectorMarkerSymbolizer.style this))) supportedKinds ->
  snd (VectorMarkerSymbolizer._drawMarkersWithCache this ctx cookedPoints
         resources) = Returns tt.
Proof.
  intros Hkind. unfold VectorMarkerSymbolizer._drawMarkersWithCache.
  destruct (stampSymbol_frame this) as (Hs & _).
  destruct (VectorMarkerSymbolizer._stampSymbol this) as [this1 stamp].
  simpl fst in Hs. rewrite <- Hs in Hkind.
  destruct (VectorMarkerSymbolizer.getImage resources stamp) as [img|];
    [reflexivity|].
  destruct (createMarkerImage_supported this1 Hkind) as (this2 & img & -> & _).
  reflexivity.
Qed.

Lemma symbolize_returns (this : VectorMarkerSymbolizer.t)
    (ctx : Canvas.context) (resources : gmap string Canvas.t) :
  In (JS.toLowerCase
        (VectorMarkerSymbolizer.markerType
           (VectorMarkerSymbolizer.style this))) supportedKinds ->
  snd (VectorMarkerSymbolizer.symbolize this ctx resources) = Returns tt.
Proof.
  intros Hkind. rewrite symbolize_unfold.
  destruct (_ || _)%bool; [reflexivity|]. cbv zeta.
  destruct (negb _); [reflexivity|].
  destruct (_ || _ || _ || _)%bool.
  - pose proof (drawMarkersLoop_returns
                  (VectorMarkerSymbolizer.downwards
                     (VectorMarkerSymbolizer._getRenderContainerPoints this))
                  this) as Hloop.
    unfold VectorMarkerSymbolizer._drawMarkers.
    match goal with
    | |- context [VectorMarkerSymbolizer.drawMarkersLoop this ?c ?l] =>
        specialize (Hloop c Hkind);
        destruct (VectorMarkerSymbolizer.drawMarkersLoop this c l)
          as [[this' ctx'] o]
    end.
    exact Hloop.
  - apply drawMarkersWithCache_returns, Hkind.
Qed.

End Symbolize.

(** An unsupported kind drawn live at a single rotated point: the error
    leaves the state saved by [_rotate] on the stack. *)
Lemma symbolize_unsupported_rotated {host : Host}
    (this : VectorMarkerSymbolizer.t) (ctx : Canvas.context)
    (resources : gmap string Canvas.t) (p : Point.t) (angle : R) :
  let kind :=
    JS.toLowerCase
      (VectorMarkerSymbolizer.markerType (VectorMarkerSymbolizer.style this)) in
  VectorMarkerSymbolizer.markerWidth (VectorMarkerSymbolizer.style this) <> 0 ->
  VectorMarkerSymbolizer.markerHeight (VectorMarkerSymbolizer.style this) <> 0 ->
  VectorMarkerSymbolizer.renderContainerPoints
    (VectorMarkerSymbolizer.geometry this) = [p] ->
  VectorMarkerSymbolizer.cacheDisabled (VectorMarkerSymbolizer.geometry this)
  = true ->
  VectorMarkerSymbolizer.rotationAt (VectorMarkerSymbolizer.geometry this) 0%nat
  = Some angle ->
  ~ In kind supportedKinds ->
  let result := VectorMarkerSymbolizer.symbolize this ctx resources in
  snd result = Throws (JS.Error ("unsupported markerType: " ++ kind))
  /\ Canvas.saved (snd (fst (fst result)))
     = (Canvas.lineCap ctx, Canvas.transform ctx) :: Canvas.saved ctx.
Proof.
  intros kind Hw Hh Hpts Hlive Hrot Hkind result. unfold result.
  rewrite symbolize_unfold.
  rewrite (proj2 (isZero_false _) Hw), (proj2 (isZero_false _) Hh).
  unfold VectorMarkerSymbolizer._getRenderContainerPoints.
  rewrite Hpts, Hlive. rewrite !orb_true_r.
  cbn [orb isArrayHasData negb].
  unfold VectorMarkerSymbolizer._drawMarkers.
  change (VectorMarkerSymbolizer.downwards [p]) with [(0%nat, p)].
  cbn [VectorMarkerSymbolizer.drawMarkersLoop].
  unfold VectorMarkerSymbolizer._getRotationAt. rewrite Hrot.
  cbn [VectorMarkerSymbolizer._rotate].
  match goal with
  | |- context [VectorMarkerSymbolizer._drawVectorMarker this ?c ?q] =>
      rewrite (drawVectorMarker_unsupported this c q Hkind);
      destruct (afterGradientBlock_frame this c q) as ((_ & _ & Hs) & _);
      destruct (afterGradientBlock this c q) as [this' ctx']
  end.
  fold kind. split; [reflexivity|].
  simpl in Hs |- *. rewrite Hs.
  destruct (negb _); reflexivity.
Qed.

(** C5, amended.  The line cap, the transform and the save stack of the
    context are the same after [_drawVectorMarker] as before it, the
    line cap set to ['round'] for a pin or a pie being put back; and
    they are the same after [_drawMarkers], [_drawMarkersWithCache] and
    [symbolize] as before whenever the call returns normally, which it
    does for every supported kind: each rotation applied for an instance
    is undone by the [restore] that follows the draw of that instance.
    Nothing restores the state when the draw raises. *)
Theorem C5_state_restored_on_normal_completion {host : Host}
    (this : VectorMarkerSymbolizer.t) (ctx : Canvas.context)
    (point : Point.t) (cookedPoints : list Point.t)
    (resources : gmap string Canvas.t) :
  let kind :=
    JS.toLowerCase
      (VectorMarkerSymbolizer.markerType (VectorMarkerSymbolizer.style this)) in
  sameState
    (snd (fst (VectorMarkerSymbolizer._drawVectorMarker this ctx point))) ctx
  /\ (snd (VectorMarkerSymbolizer._drawMarkers this ctx cookedPoints)
      = Returns tt ->
      sameState
        (snd (fst (VectorMarkerSymbolizer._drawMarkers this ctx cookedPoints)))
        ctx)
  /\ sameState
       (snd (fst (fst (VectorMarkerSymbolizer._drawMarkersWithCache this ctx
                         cookedPoints resources)))) ctx
  /\ (snd (VectorMarkerSymbolizer.symbolize this ctx resources) = Returns tt ->
      sameState
        (snd (fst (fst (VectorMarkerSymbolizer.symbolize this ctx resources))))
        ctx)
  /\ (In kind supportedKinds ->
      snd (VectorMarkerSymbolizer.symbolize this ctx resources) = Returns tt).
Proof.
  intros kind.
  split; [apply drawVectorMarker_frame|].
  split; [apply drawMarkers_frame|].
  split; [apply drawMarkersWithCache_frame|].
  split; [apply symbolize_frame|].
  apply symbolize_returns.
Qed.

(** A rotated pin drawn live leaves the context in its initial state. *)
Lemma C5_witness :
  snd (VectorMarkerSymbolizer.symbolize (host := sampleHost) rotatedPin
         blankContext ∅) = Returns tt
  /\ sameState
       (snd (fst (fst (VectorMarkerSymbolizer.symbolize (host := sampleHost)
                         rotatedPin blankContext ∅))))
       blankContext.
Proof.
  destruct (C5_state_restored_on_normal_completion (host := sampleHost)
              rotatedPin blankContext (Point.new 5 5) [Point.new 5 5] ∅)
    as (_ & _ & _ & Hframe & Hreturns).
  assert (Hret : snd (VectorMarkerSymbolizer.symbolize (host := sampleHost)
                        rotatedPin blankContext ∅) = Returns tt)
    by (apply Hreturns; simpl; tauto).
  split; [exact Hret | exact (Hframe Hret)].
Defined.

(** C5 as stated fails when the draw inside the rotation raises: for the
    unsupported kind ['hexagon'] drawn with a rotation, [symbolize] ends
    with the error and the state saved by the rotation is still on the
    stack of the context, whose transform is still the rotated one. *)
Lemma C5_counterexample :
  let result :=
    VectorMarkerSymbolizer.symbolize (host := sampleHost) rotatedHexagon
      blankContext ∅ in
  snd result = Throws (JS.Error "unsupported markerType: hexagon")
  /\ Canvas.saved blankContext = []
  /\ Canvas.saved (snd (fst (fst result))) = [("butt", [])]
  /\ ~ sameState (snd (fst (fst result))) blankContext.
Proof.
  intros result.
  destruct (symbolize_unsupported_rotated (host := sampleHost) rotatedHexagon
              blankContext ∅ (Point.new 5 5) 1)
    as (Hthrow & Hsaved).
  - simpl. lra.
  - simpl. lra.
  - reflexivity.
  - reflexivity.
  - reflexivity.
  - simpl. intuition discriminate.
  - fold result in Hthrow, Hsaved.
    split; [exact Hthrow|]. split; [reflexivity|]. split; [exact Hsaved|].
    intros (_ & _ & H). rewrite Hsaved in H. discriminate H.
Qed.

(** ** The identity stamp *)

Lemma computeStamp_withFill {host : Host} (s : VectorMarkerSymbolizer.Style) :
  exists rest : string,
    forall f : paint,
      VectorMarkerSymbolizer.computeStamp (withFill s f)
      = (VectorMarkerSymbolizer.markerType s ++ "_"
         ++ VectorMarkerSymbolizer.paintStamp f ++ rest)%string.
Proof.
  exists ("_" ++ JS.join "_" (tl (tl (VectorMarkerSymbolizer.stampParts s))))%string.
  intros f. reflexivity.
Qed.

Lemma stamps_differ {host : Host} (s : VectorMarkerSymbolizer.Style)
    (fill1 fill2 : paint) :
  VectorMarkerSymbolizer.paintStamp fill1
  <> VectorMarkerSymbolizer.paintStamp fill2 ->
  VectorMarkerSymbolizer.computeStamp (withFill s fill1)
  <> VectorMarkerSymbolizer.computeStamp (withFill s fill2).
Proof.
  intros Hne Heq. apply Hne.
  destruct (computeStamp_withFill s) as (rest & Hrest).
  rewrite !Hrest in Heq.
  apply append_cancel_l, append_cancel_l, append_cancel_r in Heq.
  exact Heq.
Qed.

(** C2, amended.  The stamp is the join with ['_'] of, in this order, the
    kind, the fill colour or gradient stamp, the fill opacity, the fill
    pattern file, the line colour or gradient stamp, the line width, the
    line opacity, the dash array joined with [','], the line pattern
    file, the width and the height.  [_stampSymbol] computes it when no
    stamp is stored, stores it, and from then on returns the stored
    stamp without looking at the style.  Symbols that differ only in
    [markerDx], [markerDy] or [markerRotation], and styles that differ
    only in [markerDx] or [markerDy], have the same stamp.
    Styles that differ only in [markerFill] have different stamps
    whenever the colour-or-gradient strings of the two fills differ, in
    particular for two different colour strings. *)
Theorem C2_stamp {host : Host}
    (s other : VectorMarkerSymbolizer.Style)
    (symbol : Symbol.t) (g : VectorMarkerSymbolizer.Geometry) (dynamic : bool)
    (dx dy rotation : option R) (x y : R) (fill1 fill2 : paint)
    (css1 css2 : string) :
  let this := VectorMarkerSymbolizer.constructor symbol g dynamic in
  let stamped :=
    VectorMarkerSymbolizer.setStamp this
      (VectorMarkerSymbolizer.computeStamp other) in
  VectorMarkerSymbolizer.computeStamp s
  = JS.join "_"
      [ VectorMarkerSymbolizer.markerType s;
        VectorMarkerSymbolizer.paintStamp (VectorMarkerSymbolizer.markerFill s);
        numberToString (VectorMarkerSymbolizer.markerFillOpacity s);
        VectorMarkerSymbolizer.nullableStamp
          (VectorMarkerSymbolizer.markerFillPatternFile s);
        VectorMarkerSymbolizer.paintStamp
          (VectorMarkerSymbolizer.markerLineColor s);
        numberToString (VectorMarkerSymbolizer.markerLineWidth s);
        numberToString (VectorMarkerSymbolizer.markerLineOpacity s);
        JS.join "," (map numberToString
                       (VectorMarkerSymbolizer.markerLineDasharray s));
        VectorMarkerSymbolizer.nullableStamp
          (VectorMarkerSymbolizer.markerLinePatternFile s);
        numberToString (VectorMarkerSymbolizer.markerWidth s);
        numberToString (VectorMarkerSymbolizer.markerHeight s) ]
  /\ VectorMarkerSymbolizer._stampSymbol this
     = (VectorMarkerSymbolizer.setStamp this
          (VectorMarkerSymbolizer.computeStamp
             (VectorMarkerSymbolizer.style this)),
        VectorMarkerSymbolizer.computeStamp (VectorMarkerSymbolizer.style this))
  /\ VectorMarkerSymbolizer._stampSymbol stamped
     = (stamped, VectorMarkerSymbolizer.computeStamp other)
  /\ VectorMarkerSymbolizer.computeStamp
       (VectorMarkerSymbolizer.translate (withPlacement symbol dx dy rotation))
     = VectorMarkerSymbolizer.computeStamp
         (VectorMarkerSymbolizer.translate symbol)
  /\ VectorMarkerSymbolizer.computeStamp (withOffset s x y)
     = VectorMarkerSymbolizer.computeStamp s
  /\ (VectorMarkerSymbolizer.paintStamp fill1
      <> VectorMarkerSymbolizer.paintStamp fill2 ->
      VectorMarkerSymbolizer.computeStamp (withFill s fill1)
      <> VectorMarkerSymbolizer.computeStamp (withFill s fill2))
  /\ (css1 <> css2 ->
      VectorMarkerSymbolizer.computeStamp (withFill s (Color css1))
      <> VectorMarkerSymbolizer.computeStamp (withFill s (Color css2))).
Proof.
  intros this stamped.
  split; [reflexivity|].
  split; [reflexivity|].
  split.
  { unfold VectorMarkerSymbolizer._stampSymbol.
    change (VectorMarkerSymbolizer._stamp stamped)
      with (Some (VectorMarkerSymbolizer.computeStamp other)).
    rewrite computeStamp_nonempty. reflexivity. }
  split; [reflexivity|].
  split; [reflexivity|].
  split; [apply stamps_differ|].
  intros Hne. apply stamps_differ. exact Hne.
Qed.

(** The stamps of a red and of a blue marker differ. *)
Lemma C2_witness :
  VectorMarkerSymbolizer.computeStamp (host := sampleHost)
    (withFill (VectorMarkerSymbolizer.translate Symbol.empty) (Color "red"))
  <> VectorMarkerSymbolizer.computeStamp (host := sampleHost)
       (withFill (VectorMarkerSymbolizer.translate Symbol.empty)
          (Color "blue")).
Proof.
  destruct (C2_stamp (host := sampleHost)
              (VectorMarkerSymbolizer.translate Symbol.empty)
              (VectorMarkerSymbolizer.translate Symbol.empty)
              Symbol.empty (liveGeometry None) false None None None 0 0
              (Color "red") (Color "blue") "red" "blue")
    as (_ & _ & _ & _ & _ & Hfill & Hcss).
  apply Hcss. discriminate.
Defined.

(** C2 as stated fails: a gradient fill and the plain string equal to its
    gradient stamp are two different values of [markerFill] with the
    same stamp, whatever the stamping function of the host is. *)
Lemma C2_counterexample :
  let s := VectorMarkerSymbolizer.translate Symbol.empty in
  (Gradient redToBlue <> Color (getGradientStamp (Host := sampleHost) redToBlue)
   /\ VectorMarkerSymbolizer.computeStamp (host := sampleHost)
        (withFill s (Gradient redToBlue))
      = VectorMarkerSymbolizer.computeStamp (host := sampleHost)
          (withFill s (Color (getGradientStamp (Host := sampleHost)
                                redToBlue))))
  /\ ~ exists host : Host,
        forall (style : VectorMarkerSymbolizer.Style) (fill1 fill2 : paint),
          fill1 <> fill2 ->
          VectorMarkerSymbolizer.computeStamp (withFill style fill1)
          <> VectorMarkerSymbolizer.computeStamp (withFill style fill2).
Proof.
  intros s. split.
  - split; [discriminate | reflexivity].
  - intros [host H].
    apply (H s (Gradient redToBlue) (Color (getGradientStamp redToBlue)));
      [discriminate | reflexivity].
Qed.

(** ** The entry test of [symbolize] *)

Lemma drawVectorMarker_ellipse (this : VectorMarkerSymbolizer.t)
    (ctx : Canvas.context) (point : Point.t) :
  JS.toLowerCase
    (VectorMarkerSymbolizer.markerType (VectorMarkerSymbolizer.style this))
  = "ellipse" ->
  VectorMarkerSymbolizer.usesGradient
    (VectorMarkerSymbolizer.strokeAndFill this) = false ->
  VectorMarkerSymbolizer._drawVectorMarker this ctx point
  = (this,
     Canvas.ellipse ctx point
       (VectorMarkerSymbolizer.markerWidth
          (VectorMarkerSymbolizer.style this) / 2)
       (VectorMarkerSymbolizer.markerHeight
          (VectorMarkerSymbolizer.style this) / 2)
       (StrokeAndFill.lineOpacity (VectorMarkerSymbolizer.strokeAndFill this))
       (StrokeAndFill.polygonOpacity
          (VectorMarkerSymbolizer.strokeAndFill this)),
     Returns tt).
Proof.
  intros Hkind Hsolid. unfold VectorMarkerSymbolizer._drawVectorMarker.
  rewrite Hkind, Hsolid. reflexivity.
Qed.

(** A marker of zero width or zero height: [symbolize] returns at once,
    with the symbolizer, the context and the resources as they were. *)
Lemma symbolize_zero_size {host : Host} (this : VectorMarkerSymbolizer.t)
    (ctx : Canvas.context) (resources : gmap string Canvas.t) :
  VectorMarkerSymbolizer.markerWidth (VectorMarkerSymbolizer.style this) = 0
  \/ VectorMarkerSymbolizer.markerHeight (VectorMarkerSymbolizer.style this) = 0 ->
  VectorMarkerSymbolizer.symbolize this ctx resources
  = (this, ctx, resources, Returns tt).
Proof.
  intros H. rewrite symbolize_unfold.
  destruct H as [H|H]; rewrite (proj2 (isZero_true _) H);
    [|rewrite orb_true_r]; reflexivity.
Qed.

(** An ellipse in plain colours drawn live at a single point that has no
    rotation. *)
Lemma symbolize_live_ellipse {host : Host} (this : VectorMarkerSymbolizer.t)
    (ctx : Canvas.context) (resources : gmap string Canvas.t) (p : Point.t) :
  VectorMarkerSymbolizer.markerWidth (VectorMarkerSymbolizer.style this) <> 0 ->
  VectorMarkerSymbolizer.markerHeight (VectorMarkerSymbolizer.style this) <> 0 ->
  VectorMarkerSymbolizer.renderContainerPoints
    (VectorMarkerSymbolizer.geometry this) = [p] ->
  VectorMarkerSymbolizer.cacheDisabled (VectorMarkerSymbolizer.geometry this)
  = true ->
  VectorMarkerSymbolizer.rotationAt (VectorMarkerSymbolizer.geometry this) 0%nat
  = None ->
  JS.toLowerCase
    (VectorMarkerSymbolizer.markerType (VectorMarkerSymbolizer.style this))
  = "ellipse" ->
  VectorMarkerSymbolizer.usesGradient
    (VectorMarkerSymbolizer.strokeAndFill this) = false ->
  VectorMarkerSymbolizer.symbolize this ctx resources
  = (this,
     Canvas.ellipse
       (Canvas.prepareCanvas (VectorMarkerSymbolizer._prepareContext this ctx)
          (VectorMarkerSymbolizer.strokeAndFill this))
       p
       (VectorMarkerSymbolizer.markerWidth
          (VectorMarkerSymbolizer.style this) / 2)
       (VectorMarkerSymbolizer.markerHeight
          (VectorMarkerSymbolizer.style this) / 2)
       (StrokeAndFill.lineOpacity (VectorMarkerSymbolizer.strokeAndFill this))
       (StrokeAndFill.polygonOpacity
          (VectorMarkerSymbolizer.strokeAndFill this)),
     resources, Returns tt).
Proof.
  intros Hw Hh Hpts Hlive Hrot Hkind Hsolid.
  rewrite symbolize_unfold.
  rewrite (proj2 (isZero_false _) Hw), (proj2 (isZero_false _) Hh).
  unfold VectorMarkerSymbolizer._getRenderContainerPoints.
  rewrite Hpts, Hlive. rewrite !orb_true_r.
  cbn [orb isArrayHasData negb].
  unfold VectorMarkerSymbolizer._drawMarkers.
  change (VectorMarkerSymbolizer.downwards [p]) with [(0%nat, p)].
  cbn [VectorMarkerSymbolizer.drawMarkersLoop].
  unfold VectorMarkerSymbolizer._getRotationAt. rewrite Hrot.
  cbn [VectorMarkerSymbolizer._rotate].
  rewrite Hsolid. cbn [negb].
  rewrite (drawVectorMarker_ellipse this _ p Hkind Hsolid).
  reflexivity.
Qed.

Lemma constructor_usesGradient (symbol : Symbol.t)
    (g : VectorMarkerSymbolizer.Geometry) (dynamic : bool) :
  VectorMarkerSymbolizer.usesGradient
    (VectorMarkerSymbolizer.strokeAndFill
       (VectorMarkerSymbolizer.constructor symbol g dynamic))
  = (isGradient (VectorMarkerSymbolizer.markerLineColor
                   (VectorMarkerSymbolizer.translate symbol))
     || isGradient (VectorMarkerSymbolizer.markerFill
                      (VectorMarkerSymbolizer.translate symbol)))%bool.
Proof.
  unfold VectorMarkerSymbolizer.usesGradient,
    VectorMarkerSymbolizer.constructor, VectorMarkerSymbolizer._defineStyle.
  cbn [VectorMarkerSymbolizer.strokeAndFill].
  destruct (translateLineAndFill_paints
              (VectorMarkerSymbolizer.translate symbol)) as (-> & -> & _).
  reflexivity.
Qed.

(** C1, at the failing input.  The symbol [{ markerFillOpacity: 0,
    markerLineOpacity: 0 }] resolves to a fill opacity and a line opacity
    of 0, yet [symbolize] does not return early: it prepares the context
    and the canvas style and draws the ellipse with both opacities 0,
    because the opacity test reads the keys ['polygonOpacity'] and
    ['lineOpacity'] from [this.style], which only has the
    [marker]-prefixed keys. *)
Theorem C1_zero_opacity_is_drawn :
  let this :=
    VectorMarkerSymbolizer.constructor transparentSymbol (liveGeometry None)
      false in
  let result :=
    VectorMarkerSymbolizer.symbolize (host := sampleHost) this blankContext ∅ in
  VectorMarkerSymbolizer.markerFillOpacity (VectorMarkerSymbolizer.style this)
  = 0
  /\ VectorMarkerSymbolizer.markerLineOpacity (VectorMarkerSymbolizer.style this)
     = 0
  /\ StrokeAndFill.polygonOpacity (VectorMarkerSymbolizer.strokeAndFill this)
     = 0
  /\ StrokeAndFill.lineOpacity (VectorMarkerSymbolizer.strokeAndFill this) = 0
  /\ JS.get (VectorMarkerSymbolizer.entries (VectorMarkerSymbolizer.style this))
       "polygonOpacity" = JS.Undefined
  /\ JS.get (VectorMarkerSymbolizer.entries (VectorMarkerSymbolizer.style this))
       "lineOpacity" = JS.Undefined
  /\ snd result = Returns tt
  /\ Canvas.calls (snd (fst (fst result)))
     = [Canvas.PrepareContext;
        Canvas.PrepareCanvas (VectorMarkerSymbolizer.strokeAndFill this);
        Canvas.Ellipse (Point.new 5 5) (10 / 2) (10 / 2) 0 0].
Proof.
  intros this result.
  assert (Hlo : StrokeAndFill.lineOpacity
                  (VectorMarkerSymbolizer.strokeAndFill this) = 0).
  { destruct (lineOpacity_of_translateLineAndFill
                (VectorMarkerSymbolizer.translate transparentSymbol))
      as (_ & H).
    apply H. simpl. lra. }
  assert (Hfo : StrokeAndFill.polygonOpacity
                  (VectorMarkerSymbolizer.strokeAndFill this) = 0).
  { unfold this, VectorMarkerSymbolizer.constructor,
      VectorMarkerSymbolizer._defineStyle.
    cbn [VectorMarkerSymbolizer.strokeAndFill].
    destruct (translateLineAndFill_paints
                (VectorMarkerSymbolizer.translate transparentSymbol))
      as (_ & _ & ->).
    reflexivity. }
  repeat (split; [first [reflexivity | assumption]|]).
  unfold result.
  rewrite (symbolize_live_ellipse (host := sampleHost) this blankContext ∅
             (Point.new 5 5)).
  - cbn [fst snd]. split; [reflexivity|].
    rewrite Hlo, Hfo. reflexivity.
  - simpl. lra.
  - simpl. lra.
  - reflexivity.
  - reflexivity.
  - reflexivity.
  - reflexivity.
  - unfold this. rewrite constructor_usesGradient. reflexivity.
Qed.

(** ** The unsupported kind *)










(* ================================================================== *)
(** * Further properties of the code *)
(* ================================================================== *)

(** ** Arrow heads *)

Lemma unit_of_multiple (d : Point.t) (k : R) :
  0 < k -> 0 < Point.mag d ->
  Point._unit (Point.multi d k) = Point._unit d.
Proof.
  intros Hk Hm.
  assert (Hmag : Point.mag (Point.multi d k) = k * Point.mag d).
  { unfold Point.mag, Point.multi. simpl.
    replace (Point.x d * k * (Point.x d * k) + Point.y d * k * (Point.y d * k))
      with ((k * k) * (Point.x d * Point.x d + Point.y d * Point.y d)) by ring.
    rewrite sqrt_mult by nra. rewrite sqrt_square by lra. reflexivity. }
  unfold Point._unit. rewrite Hmag.
  apply point_eq; unfold Point.multi; simpl; field; lra.
Qed.

(** X1.  Only the direction from [prePoint] to [point] enters the arrow:
    moving [prePoint] along the line through the two points, on the same
    side of [point], gives the same four points. *)
Theorem arrow_depends_on_direction_only (prePoint point : Point.t)
    (k lineWidth : R) (arrowStyle : R * R) (tolerance : option R) :
  prePoint <> point ->
  0 < k ->
  LineString._getArrowPoints
    (Point.sub point (Point.multi (Point.sub point prePoint) k)) point
    lineWidth arrowStyle tolerance
  = LineString._getArrowPoints prePoint point lineWidth arrowStyle tolerance.
Proof.
  intros Hne Hk. unfold LineString._getArrowPoints, Point.substract.
  replace (Point.sub point
             (Point.sub point (Point.multi (Point.sub point prePoint) k)))
    with (Point.multi (Point.sub point prePoint) k)
    by (apply point_eq; unfold Point.sub, Point.multi; simpl; lra).
  rewrite (unit_of_multiple _ k Hk (mag_pos prePoint point Hne)).
  reflexivity.
Qed.

(** The arrow at (10,0) is the same seen from (0,0) and from (5,0). *)
Lemma arrow_depends_on_direction_only_witness :
  LineString._getArrowPoints
    (Point.sub (Point.new 10 0)
       (Point.multi (Point.sub (Point.new 10 0) (Point.new 0 0)) (1 / 2)))
    (Point.new 10 0) 3 (3, 4) None
  = LineString._getArrowPoints (Point.new 0 0) (Point.new 10 0) 3 (3, 4) None.
Proof.
  apply arrow_depends_on_direction_only.
  - intros H. injection H as H. lra.
  - lra.
Defined.

(** X2.  Moving both points by the same vector moves the four points of
    the arrow by that vector. *)
Theorem arrow_moves_with_its_points (prePoint point v : Point.t)
    (lineWidth : R) (arrowStyle : R * R) (tolerance : option R) :
  LineString._getArrowPoints (Point.add prePoint v) (Point.add point v)
    lineWidth arrowStyle tolerance
  = map (fun p => Point.add p v)
      (LineString._getArrowPoints prePoint point lineWidth arrowStyle
         tolerance).
Proof.
  unfold LineString._getArrowPoints, Point.substract.
  replace (Point.sub (Point.add point v) (Point.add prePoint v))
    with (Point.sub point prePoint)
    by (apply point_eq; unfold Point.sub, Point.add; simpl; lra).
  cbn [map].
  repeat (f_equal; try (apply point_eq; unfold Point.sub, Point.add,
    Point._multi, Point.multi, Point._perp; simpl; lra)).
Qed.

Lemma segmentArrows_unknown (placement : option string)
    (segment : list Point.t) (lineWidth : R) (arrowStyle : R * R)
    (tolerance : option R) :
  (forall name : string,
      In name knownPlacements -> LineString.placementIs placement name = false) ->
  LineString.segmentArrows placement segment lineWidth arrowStyle tolerance
  = Returns [].
Proof.
  intros H. unfold LineString.segmentArrows.
  rewrite (H "vertex-first"), (H "vertex-firstlast"), (H "vertex-last"),
    (H "point") by (simpl; tauto).
  reflexivity.
Qed.

Lemma collectArrows_unknown (placement : option string)
    (segments : list (list Point.t)) (lineWidth : R) (arrowStyle : R * R)
    (tolerance : option R) :
  (forall name : string,
      In name knownPlacements -> LineString.placementIs placement name = false) ->
  LineString.collectArrows placement segments lineWidth arrowStyle tolerance
  = Returns [].
Proof.
  intros H. induction segments as [|segment rest IH]; [reflexivity|].
  cbn [LineString.collectArrows].
  rewrite (segmentArrows_unknown _ _ _ _ _ H), IH. reflexivity.
Qed.

(** X3.  When the placement is missing or is none of ['vertex-first'],
    ['vertex-last'], ['vertex-firstlast'] and ['point'], [_getArrows]
    returns [null] for every path, short segments included, and does not
    raise. *)
Theorem getArrows_unknown_placement (this : LineString.t)
    (points : LineString.path) (lineWidth : R) (tolerance : option R) :
  (forall p : string,
      LineString.arrowPlacement this = Some p -> ~ In p knownPlacements) ->
  LineString._getArrows this points lineWidth tolerance = Returns None.
Proof.
  intros H.
  assert (Hfalse : forall name : string,
            In name knownPlacements ->
            LineString.placementIs (LineString._getArrowPlacement this) name
            = false).
  { intros name Hin. unfold LineString.placementIs,
      LineString._getArrowPlacement.
    destruct (LineString.arrowPlacement this) as [p|] eqn:E; [|reflexivity].
    apply String.eqb_neq. intros ->. exact (H name eq_refl Hin). }
  unfold LineString._getArrows.
  destruct (LineString._getArrowStyle this); [|reflexivity].
  destruct (Nat.ltb _ 2); [reflexivity|].
  rewrite (collectArrows_unknown _ _ _ _ _ Hfalse). reflexivity.
Qed.

(** A line with the classic style and no placement has no arrow. *)
Lemma getArrows_unknown_placement_witness :
  LineString._getArrows
    {| LineString.arrowStyle := LineString.NamedStyle "classic";
       LineString.arrowPlacement := None |}
    (LineString.Flat [Point.new 0 0; Point.new 10 0]) 3 None
  = Returns None.
Proof.
  apply getArrows_unknown_placement. intros p H. discriminate H.
Defined.

Lemma list_sum_rev (l : list nat) : list_sum (rev l) = list_sum l.
Proof.
  induction l as [|n l IH]; [reflexivity|].
  cbn [rev]. rewrite list_sum_app, IH. simpl. lia.
Qed.

Lemma collectArrows_point (segments : list (list Point.t)) (lineWidth : R)
    (arrowStyle : R * R) (tolerance : option R) :
  exists arrows : list (list Point.t),
    LineString.collectArrows (Some "point") segments lineWidth arrowStyle
      tolerance = Returns arrows
    /\ length arrows
       = list_sum (map (fun segment => (length segment - 1)%nat) segments).
Proof.
  induction segments as [|segment rest (more & E & Hlen)].
  - exists []. split; reflexivity.
  - exists (LineString.pointLoop segment lineWidth arrowStyle tolerance ++ more).
    split.
    + cbn [LineString.collectArrows]. rewrite E. reflexivity.
    + rewrite length_app, pointLoop_length, Hlen. reflexivity.
Qed.

(** X4.  With placement ['point'] and an arrow style, [_getArrows] never
    raises, whatever the lengths of the segments, and a path that passes
    the entry test gets one arrow per segment point after the first of
    its segment: a flat path of [n >= 2] points gets [n - 1] arrows. *)
Theorem getArrows_point_count (arrowStyle : R * R)
    (points : LineString.path) (lineWidth : R) (tolerance : option R) :
  let this :=
    {| LineString.arrowStyle := LineString.ArrayStyle arrowStyle;
       LineString.arrowPlacement := Some "point" |} in
  (2 <= LineString.pathLength points)%nat ->
  exists arrows : list (list Point.t),
    LineString._getArrows this points lineWidth tolerance
    = Returns (match arrows with [] => None | _ => Some arrows end)
    /\ length arrows
       = list_sum (map (fun segment => (length segment - 1)%nat)
                     (segmentsOf points)).
Proof.
  intros this Hlen.
  destruct (collectArrows_point (rev (segmentsOf points)) lineWidth arrowStyle
              tolerance) as (arrows & E & Hcount).
  exists arrows. split.
  - unfold LineString._getArrows.
    change (LineString._getArrowStyle this) with (Some arrowStyle). cbv iota.
    destruct (Nat.ltb_spec (LineString.pathLength points) 2) as [Hlt|_];
      [lia|].
    change (LineString._getArrowPlacement this) with (Some "point").
    fold (segmentsOf points). rewrite E. reflexivity.
  - rewrite Hcount, map_rev. apply list_sum_rev.
Qed.

(** A flat path of three points gets two arrows. *)
Lemma getArrows_point_count_witness :
  exists arrows : list (list Point.t),
    LineString._getArrows
      {| LineString.arrowStyle := LineString.ArrayStyle (3, 4);
         LineString.arrowPlacement := Some "point" |}
      (LineString.Flat [Point.new 0 0; Point.new 10 0; Point.new 10 10]) 3 None
    = Returns (match arrows with [] => None | _ => Some arrows end)
    /\ length arrows = 2%nat.
Proof.
  destruct (getArrows_point_count (3, 4)
              (LineString.Flat [Point.new 0 0; Point.new 10 0; Point.new 10 10])
              3 None) as (arrows & E & Hlen).
  - simpl. lia.
  - exists arrows. split; [exact E | exact Hlen].
Defined.

(** ** Painting a line *)

Lemma arrowLineWidth_max (lineWidth : R) :
  LineStringPaint.arrowLineWidth (Some lineWidth) = Rmax 3 lineWidth.
Proof.
  unfold LineStringPaint.arrowLineWidth, JS.truthy, JS.isZero.
  destruct (Req_dec_T lineWidth 0) as [Hz|Hz]; simpl.
  - subst. rewrite Rmax_left by lra. reflexivity.
  - destruct (Rlt_dec lineWidth 3) as [Hlt|Hge].
    + rewrite Rmax_left by lra. reflexivity.
    + rewrite Rmax_right by lra. reflexivity.
Qed.

(** X5.  [_paintArrow] computes the arrows for a line width of at least
    3: a symbol line width below 3, zero or missing counts as 3 and any
    other is used as it is. *)
Theorem paintArrow_minimum_line_width (this : LineString.t)
    (lineWidth : R) (ctx : LineCanvas.context) (points : LineString.path)
    (lineOpacity : R) :
  3 <= LineStringPaint.arrowLineWidth (Some lineWidth)
  /\ (3 <= lineWidth ->
      LineStringPaint.arrowLineWidth (Some lineWidth) = lineWidth)
  /\ LineStringPaint._paintArrow this (Some lineWidth) ctx points lineOpacity
     = LineStringPaint._paintArrow this (Some (Rmax 3 lineWidth)) ctx points
         lineOpacity
  /\ (lineWidth <= 3 ->
      LineStringPaint._paintArrow this (Some lineWidth) ctx points lineOpacity
      = LineStringPaint._paintArrow this None ctx points lineOpacity).
Proof.
  rewrite arrowLineWidth_max.
  split; [apply Rmax_l|].
  split; [intros H; apply Rmax_right, H|].
  unfold LineStringPaint._paintArrow.
  rewrite !arrowLineWidth_max.
  split.
  - rewrite (Rmax_right 3 (Rmax 3 lineWidth)) by apply Rmax_l. reflexivity.
  - intros H. rewrite Rmax_left by exact H. reflexivity.
Qed.

(** A width of 5 is kept; a width of 1 paints what a missing width
    paints. *)
Lemma paintArrow_minimum_line_width_witness :
  let this :=
    {| LineString.arrowStyle := LineString.NamedStyle "classic";
       LineString.arrowPlacement := Some "vertex-last" |} in
  let ctx := {| LineCanvas.hasSetLineDash := true; LineCanvas.calls := [] |} in
  let points := LineString.Flat [Point.new 0 0; Point.new 10 0] in
  LineStringPaint.arrowLineWidth (Some 5) = 5
  /\ LineStringPaint._paintArrow this (Some 1) ctx points 1
     = LineStringPaint._paintArrow this None ctx points 1.
Proof.
  intros this ctx points. split.
  - apply (proj1 (proj2 (paintArrow_minimum_line_width this 5 ctx points 1))).
    lra.
  - apply (proj2 (proj2 (proj2 (paintArrow_minimum_line_width this 1 ctx
                                  points 1)))).
    lra.
Defined.

Lemma fillArrows_calls (todo : list (list Point.t)) (lineOpacity : R) :
  forall ctx : LineCanvas.context,
    LineCanvas.calls (LineStringPaint.fillArrows ctx todo lineOpacity)
    = LineCanvas.calls ctx
      ++ flat_map (fun arrow =>
                     [LineCanvas.FillStyleFromStrokeStyle;
                      LineCanvas.Polygon arrow lineOpacity lineOpacity]) todo.
Proof.
  induction todo as [|arrow rest IH]; intros ctx.
  - cbn [LineStringPaint.fillArrows flat_map]. now rewrite app_nil_r.
  - cbn [LineStringPaint.fillArrows flat_map]. rewrite IH.
    cbn [LineCanvas.record LineCanvas.calls].
    rewrite <- !app_assoc. reflexivity.
Qed.

(** X6.  When [_getArrows] yields arrows, [_paintOn] strokes the path
    once, then clears the dash pattern once if the context can, then for
    each arrow, from the last computed to the first, takes the stroke
    style as fill style and fills the arrow polygon with the line
    opacity as both opacities; nothing else is issued. *)
Theorem paintOn_calls (this : LineString.t) (symbolLineWidth : option R)
    (ctx : LineCanvas.context) (points : LineString.path)
    (lineOpacity fillOpacity : R) (dasharray : option (list R))
    (arrows : list (list Point.t)) :
  LineString._getArrows this points
    (LineStringPaint.arrowLineWidth symbolLineWidth) None
  = Returns (Some arrows) ->
  snd (LineStringPaint._paintOn this symbolLineWidth ctx points lineOpacity
         fillOpacity dasharray) = Returns tt
  /\ LineCanvas.calls
       (fst (LineStringPaint._paintOn this symbolLineWidth ctx points
               lineOpacity fillOpacity dasharray))
     = LineCanvas.calls ctx
       ++ [LineCanvas.Path points lineOpacity dasharray]
       ++ (if LineCanvas.hasSetLineDash ctx
           then [LineCanvas.SetLineDash []] else [])
       ++ flat_map (fun arrow =>
                      [LineCanvas.FillStyleFromStrokeStyle;
                       LineCanvas.Polygon arrow lineOpacity lineOpacity])
            (rev arrows).
Proof.
  intros E. unfold LineStringPaint._paintOn, LineStringPaint._paintArrow.
  rewrite E. cbn [fst snd]. split; [reflexivity|].
  rewrite fillArrows_calls.
  cbn [LineCanvas.record LineCanvas.hasSetLineDash].
  destruct (LineCanvas.hasSetLineDash ctx);
    cbn [LineCanvas.record LineCanvas.calls];
    rewrite <- ?app_assoc; reflexivity.
Qed.

(** A line of two points with the classic style, placement
    ['vertex-last'] and line width 3: one stroke of the path, the dash
    pattern cleared, one polygon for the arrow at (10,0). *)
Lemma paintOn_calls_witness :
  let this :=
    {| LineString.arrowStyle := LineString.NamedStyle "classic";
       LineString.arrowPlacement := Some "vertex-last" |} in
  let ctx := {| LineCanvas.hasSetLineDash := true; LineCanvas.calls := [] |} in
  let points := LineString.Flat [Point.new 0 0; Point.new 10 0] in
  let arrow :=
    LineString._getArrowPoints (Point.new 0 0) (Point.new 10 0)
      (LineStringPaint.arrowLineWidth (Some 3)) (3, 4) None in
  LineCanvas.calls
    (fst (LineStringPaint._paintOn this (Some 3) ctx points 1 1 None))
  = [LineCanvas.Path points 1 None; LineCanvas.SetLineDash [];
     LineCanvas.FillStyleFromStrokeStyle; LineCanvas.Polygon arrow 1 1].
Proof.
  intros this ctx points arrow.
  apply (proj2 (paintOn_calls this (Some 3) ctx points 1 1 None [arrow]
                  eq_refl)).
Defined.

(** X7.  When the line has no arrow style, when its placement is not a
    known one or when the path has fewer than two elements, [_paintOn]
    issues the stroke of the path and nothing else, and returns
    normally; when [_getArrows] raises, the stroke has been issued and
    the error is passed on. *)
Theorem paintOn_without_arrows (this : LineString.t)
    (symbolLineWidth : option R) (ctx : LineCanvas.context)
    (points : LineString.path) (lineOpacity fillOpacity : R)
    (dasharray : option (list R)) (e : JS.error) :
  let stroked :=
    LineCanvas.record ctx (LineCanvas.Path points lineOpacity dasharray) in
  (LineString._getArrowStyle this = None
   \/ (forall p : string,
         LineString.arrowPlacement this = Some p -> ~ In p knownPlacements)
   \/ (LineString.pathLength points < 2)%nat ->
   LineStringPaint._paintOn this symbolLineWidth ctx points lineOpacity
     fillOpacity dasharray = (stroked, Returns tt))
  /\ (LineString._getArrows this points
        (LineStringPaint.arrowLineWidth symbolLineWidth) None = Throws e ->
      LineStringPaint._paintOn this symbolLineWidth ctx points lineOpacity
        fillOpacity dasharray = (stroked, Throws e)).
Proof.
  intros stroked. split.
  - intros H.
    assert (E : LineString._getArrows this points
                  (LineStringPaint.arrowLineWidth symbolLineWidth) None
                = Returns None).
    { destruct H as [H|[H|H]].
      - unfold LineString._getArrows. rewrite H. reflexivity.
      - apply getArrows_unknown_placement, H.
      - unfold LineString._getArrows.
        destruct (LineString._getArrowStyle this); [|reflexivity].
        destruct (Nat.ltb_spec (LineString.pathLength points) 2); [|lia].
        reflexivity. }
    unfold LineStringPaint._paintOn, LineStringPaint._paintArrow.
    rewrite E. reflexivity.
  - intros E. unfold LineStringPaint._paintOn, LineStringPaint._paintArrow.
    rewrite E. reflexivity.
Qed.

(** A line without arrow style: one call. *)
Lemma paintOn_without_arrows_witness :
  let this :=
    {| LineString.arrowStyle := LineString.NoArrowStyle;
       LineString.arrowPlacement := Some "vertex-last" |} in
  let ctx := {| LineCanvas.hasSetLineDash := true; LineCanvas.calls := [] |} in
  let points := LineString.Flat [Point.new 0 0; Point.new 10 0] in
  LineStringPaint._paintOn this (Some 3) ctx points 1 1 None
  = (LineCanvas.record ctx (LineCanvas.Path points 1 None), Returns tt).
Proof.
  intros this ctx points.
  apply (proj1 (paintOn_without_arrows this (Some 3) ctx points 1 1 None
                  JS.TypeError)).
  left. reflexivity.
Defined.

(** ** Paint parameters of a polygon *)

Lemma fold_addHole_unsplit (holes : list Polygon.node) :
  forall part0 part1 holePoints : list Polygon.node,
    fold_left (Polygon.addHole false) holes (part0, part1, holePoints)
    = (part0, part1, holePoints ++ holes).
Proof.
  induction holes as [|hole rest IH]; intros part0 part1 holePoints.
  - now rewrite app_nil_r.
  - cbn [fold_left Polygon.addHole]. rewrite IH, <- app_assoc. reflexivity.
Qed.

Lemma fold_addHole_split (holes : list Polygon.node) :
  Forall (fun hole => Polygon.isArray hole = true) holes ->
  forall part0 part1 holePoints : list Polygon.node,
    fold_left (Polygon.addHole true) holes (part0, part1, holePoints)
    = (part0 ++ map (fun hole => Polygon.at_ hole 0) holes,
       part1 ++ map (fun hole => Polygon.at_ hole 1) holes,
       holePoints).
Proof.
  induction 1 as [|hole rest Harr _ IH]; intros part0 part1 holePoints.
  - cbn [map fold_left]. now rewrite !app_nil_r.
  - cbn [fold_left Polygon.addHole map]. rewrite Harr, IH.
    rewrite <- !app_assoc. reflexivity.
Qed.

(** X8.  For a shell that is not split (an empty array, or one whose
    first element is not an array) the paint parameters are one array
    holding the shell followed by the holes, in their order. *)
Theorem polygon_params_unsplit (points holes : list Polygon.node) :
  Polygon.isArray (nth 0 points Polygon.Undefined) = false ->
  Polygon._getPaintParams points holes
  = [Polygon.List (Polygon.List points :: holes)].
Proof.
  intros H. unfold Polygon._getPaintParams.
  assert (Hsplit : match points with
                   | first :: _ => Polygon.isArray first
                   | [] => false
                   end = false) by (destruct points; [reflexivity | exact H]).
  rewrite Hsplit, fold_addHole_unsplit. reflexivity.
Qed.

(** A triangle with one hole. *)
Lemma polygon_params_unsplit_witness :
  let shell :=
    [Polygon.Vertex (Point.new 0 0); Polygon.Vertex (Point.new 10 0);
     Polygon.Vertex (Point.new 0 10)] in
  let hole :=
    Polygon.List
      [Polygon.Vertex (Point.new 1 1); Polygon.Vertex (Point.new 2 1);
       Polygon.Vertex (Point.new 1 2)] in
  Polygon._getPaintParams shell [hole]
  = [Polygon.List [Polygon.List shell; hole]].
Proof.
  intros shell hole. apply polygon_params_unsplit. reflexivity.
Defined.

(** X9.  For a split shell the paint parameters are one array of exactly
    two parts, whatever the number of pieces of the shell: the first
    part is piece 0 of the shell followed by element 0 of each hole, the
    second is element 1 of the shell followed by element 1 of each hole,
    the holes being arrays; further pieces, of the shell and of the
    holes, are left out, and of a hole that is not itself split the
    elements taken are its first two points. *)
Theorem polygon_params_split (points holes : list Polygon.node) :
  Polygon.isArray (nth 0 points Polygon.Undefined) = true ->
  Forall (fun hole => Polygon.isArray hole = true) holes ->
  Polygon._getPaintParams points holes
  = [Polygon.List
       [Polygon.List (nth 0 points Polygon.Undefined
                      :: map (fun hole => Polygon.at_ hole 0) holes);
        Polygon.List (nth 1 points Polygon.Undefined
                      :: map (fun hole => Polygon.at_ hole 1) holes)]].
Proof.
  intros H Hholes. unfold Polygon._getPaintParams.
  assert (Hsplit : match points with
                   | first :: _ => Polygon.isArray first
                   | [] => false
                   end = true).
  { destruct points as [|first rest]; [discriminate H | exact H]. }
  rewrite Hsplit, (fold_addHole_split holes Hholes). reflexivity.
Qed.

(** A shell in three pieces with a hole in two pieces and a hole that is
    not split. *)
Lemma polygon_params_split_witness :
  let ring := fun x : R =>
    Polygon.List [Polygon.Vertex (Point.new x 0);
                  Polygon.Vertex (Point.new x 1)] in
  let flatHole :=
    Polygon.List [Polygon.Vertex (Point.new 7 7);
                  Polygon.Vertex (Point.new 8 7);
                  Polygon.Vertex (Point.new 7 8)] in
  Polygon._getPaintParams [ring 1; ring 2; ring 3]
    [Polygon.List [ring 4; ring 5]; flatHole]
  = [Polygon.List
       [Polygon.List [ring 1; ring 4; Polygon.Vertex (Point.new 7 7)];
        Polygon.List [ring 2; ring 5; Polygon.Vertex (Point.new 8 7)]]].
Proof.
  intros ring flatHole.
  apply (polygon_params_split [ring 1; ring 2; ring 3]
           [Polygon.List [ring 4; ring 5]; flatHole]).
  - reflexivity.
  - repeat constructor.
Defined.

(** ** Rotation and extents of a marker *)

(** X10.  [getRotation] returns [null] for every symbolizer: the style
    that [translate] builds has no ['markerRotation'] key, so a rotation
    given in the symbol never reaches it. *)
Theorem getRotation_is_null (symbol : Symbol.t)
    (g : VectorMarkerSymbolizer.Geometry) (dynamic : bool) (rotation : R)
    (this : VectorMarkerSymbolizer.t) :
  VectorMarkerSymbolizer.getRotation this = None
  /\ VectorMarkerSymbolizer.getRotation
       (VectorMarkerSymbolizer.constructor
          (withPlacement symbol (Symbol.markerDx symbol)
             (Symbol.markerDy symbol) (Some rotation)) g dynamic) = None.
Proof. split; reflexivity. Qed.

Lemma extent_eq (a b : PointExtent.t) :
  PointExtent.xmin a = PointExtent.xmin b ->
  PointExtent.ymin a = PointExtent.ymin b ->
  PointExtent.xmax a = PointExtent.xmax b ->
  PointExtent.ymax a = PointExtent.ymax b ->
  a = b.
Proof. destruct a, b; simpl; intros -> -> -> ->; reflexivity. Qed.

(** Decides the comparisons inside [Rmin] and [Rmax]. *)
Ltac split_min_max :=
  unfold Rmin, Rmax;
  repeat match goal with
  | |- context [Rle_dec ?a ?b] => destruct (Rle_dec a b)
  end.

Lemma getMarkerExtent_box (this : VectorMarkerSymbolizer.t) :
  let style := VectorMarkerSymbolizer.style this in
  let w := VectorMarkerSymbolizer.markerWidth style in
  let h := VectorMarkerSymbolizer.markerHeight style in
  let lw := VectorMarkerSymbolizer.markerLineWidth style in
  let dx := VectorMarkerSymbolizer.markerDx style in
  let dy := VectorMarkerSymbolizer.markerDy style in
  0 <= w -> 0 <= h ->
  VectorMarkerSymbolizer.getMarkerExtent this
  = if VectorMarkerSymbolizer.standsOnAnchor
         (JS.toLowerCase (VectorMarkerSymbolizer.markerType style))
    then PointExtent.new (dx - w / 2 - lw / 2) (dy - h - lw / 2)
           (dx + w / 2 + lw / 2) (dy + lw / 2)
    else PointExtent.new (dx - w / 2 - lw / 2) (dy - h / 2 - lw / 2)
           (dx + w / 2 + lw / 2) (dy + h / 2 + lw / 2).
Proof.
  intros style w h lw dx dy Hw Hh.
  unfold VectorMarkerSymbolizer.getMarkerExtent.
  fold style. fold w h lw.
  unfold VectorMarkerSymbolizer.getDxDy. fold style. fold dx dy.
  assert (Hlw : JS.truthy lw = false -> lw = 0).
  { unfold JS.truthy. intros H. apply isZero_true.
    destruct (JS.isZero lw); [reflexivity | discriminate H]. }
  destruct (VectorMarkerSymbolizer.standsOnAnchor _);
    destruct (JS.truthy lw) eqn:E;
    try (rewrite (Hlw eq_refl));
    apply extent_eq;
    unfold PointExtent._expand, PointExtent.expand, PointExtent.ofCorners,
      Point.add; simpl; split_min_max; lra.
Qed.

(** X11.  For a marker of non-negative width and height the marker
    extent is [markerWidth + markerLineWidth] wide and [markerHeight +
    markerLineWidth] high and is centred horizontally on [markerDx]; for
    a bar, a pie or a pin its lower border is half a line width below
    [markerDy], for the other kinds it is centred vertically on
    [markerDy]. *)
Theorem markerExtent_size (this : VectorMarkerSymbolizer.t) :
  let style := VectorMarkerSymbolizer.style this in
  let w := VectorMarkerSymbolizer.markerWidth style in
  let h := VectorMarkerSymbolizer.markerHeight style in
  let lw := VectorMarkerSymbolizer.markerLineWidth style in
  let dx := VectorMarkerSymbolizer.markerDx style in
  let dy := VectorMarkerSymbolizer.markerDy style in
  let kind := JS.toLowerCase (VectorMarkerSymbolizer.markerType style) in
  let e := VectorMarkerSymbolizer.getMarkerExtent this in
  0 <= w -> 0 <= h ->
  PointExtent.xmax e - PointExtent.xmin e = w + lw
  /\ PointExtent.ymax e - PointExtent.ymin e = h + lw
  /\ (PointExtent.xmin e + PointExtent.xmax e) / 2 = dx
  /\ (kind = "bar" \/ kind = "pie" \/ kind = "pin" ->
      PointExtent.ymax e = dy + lw / 2)
  /\ (~ (kind = "bar" \/ kind = "pie" \/ kind = "pin") ->
      (PointExtent.ymin e + PointExtent.ymax e) / 2 = dy).
Proof.
  intros style w h lw dx dy kind e Hw Hh.
  unfold e. rewrite (getMarkerExtent_box this Hw Hh).
  fold style. fold w h lw dx dy kind.
  destruct (VectorMarkerSymbolizer.standsOnAnchor kind) eqn:E; simpl.
  - repeat split; try lra. intros H. exfalso. apply H.
    apply standsOnAnchor_true, E.
  - repeat split; try lra. intros H.
    apply standsOnAnchor_true in H. congruence.
Qed.

(** The extent of the bar of 10 by 20 with a line of width 2. *)
Lemma markerExtent_size_witness :
  let this :=
    VectorMarkerSymbolizer.constructor barSymbol (liveGeometry None) false in
  let e := VectorMarkerSymbolizer.getMarkerExtent this in
  PointExtent.xmax e - PointExtent.xmin e = 10 + 2
  /\ PointExtent.ymax e - PointExtent.ymin e = 20 + 2
  /\ PointExtent.ymax e = 0 + 2 / 2.
Proof.
  intros this e.
  destruct (markerExtent_size this) as (Hx & Hy & _ & Hbar & _).
  - simpl. lra.
  - simpl. lra.
  - split; [exact Hx|]. split; [exact Hy|].
    apply Hbar. left. reflexivity.
Defined.

(** X12.  For the kinds triangle, cross, diamond, square, x and bar, with
    non-negative width, height and line width, every vertex of
    [_getVectorPoints], moved by the marker offset, lies inside the
    marker extent. *)
Theorem outline_inside_markerExtent (this : VectorMarkerSymbolizer.t) :
  let style := VectorMarkerSymbolizer.style this in
  let kind := JS.toLowerCase (VectorMarkerSymbolizer.markerType style) in
  In kind outlineKinds ->
  0 <= VectorMarkerSymbolizer.markerWidth style ->
  0 <= VectorMarkerSymbolizer.markerHeight style ->
  0 <= VectorMarkerSymbolizer.markerLineWidth style ->
  Forall (fun v =>
            contains (VectorMarkerSymbolizer.getMarkerExtent this)
              (Point.add v (VectorMarkerSymbolizer.getDxDy this)))
    (VectorMarkerSymbolizer._getVectorPoints kind
       (VectorMarkerSymbolizer.markerWidth style)
       (VectorMarkerSymbolizer.markerHeight style)).
Proof.
  intros style kind Hkind Hw Hh Hlw.
  rewrite (getMarkerExtent_box this Hw Hh). fold style. fold kind.
  unfold VectorMarkerSymbolizer.getDxDy. fold style.
  set (w := VectorMarkerSymbolizer.markerWidth style) in *.
  set (h := VectorMarkerSymbolizer.markerHeight style) in *.
  set (lw := VectorMarkerSymbolizer.markerLineWidth style) in *.
  set (dx := VectorMarkerSymbolizer.markerDx style).
  set (dy := VectorMarkerSymbolizer.markerDy style).
  clearbody kind w h lw dx dy.
  unfold outlineKinds in Hkind. cbn [In] in Hkind.
  destruct Hkind as [E|[E|[E|[E|[E|[E|[]]]]]]]; subst kind;
    cbv [VectorMarkerSymbolizer.standsOnAnchor
         VectorMarkerSymbolizer._getVectorPoints String.eqb Ascii.eqb
         Bool.eqb orb];
    repeat match goal with |- Forall _ _ => constructor end;
    unfold contains;
    cbn [Point.add Point.x Point.y PointExtent.xmin PointExtent.xmax
         PointExtent.ymin PointExtent.ymax];
    lra.
Qed.

(** The four corners of the default square marker. *)
Lemma outline_inside_markerExtent_witness :
  let this :=
    VectorMarkerSymbolizer.constructor (symbolOfKind "square")
      (liveGeometry None) false in
  let style := VectorMarkerSymbolizer.style this in
  Forall (fun v =>
            contains (VectorMarkerSymbolizer.getMarkerExtent this)
              (Point.add v (VectorMarkerSymbolizer.getDxDy this)))
    (VectorMarkerSymbolizer._getVectorPoints
       (JS.toLowerCase (VectorMarkerSymbolizer.markerType style))
       (VectorMarkerSymbolizer.markerWidth style)
       (VectorMarkerSymbolizer.markerHeight style)).
Proof.
  intros this style.
  refine (outline_inside_markerExtent this _ _ _ _).
  - right; right; right; left. reflexivity.
  - change (0 <= 10). lra.
  - change (0 <= 10). lra.
  - change (0 <= 1). lra.
Defined.

(** X13.  With non-negative width, height and line width, the gradient
    extent of a draw point has the size of the marker extent and
    contains the draw point moved by the marker offset. *)
Theorem gradientExtent_around_point (this : VectorMarkerSymbolizer.t)
    (point : Point.t) :
  let style := VectorMarkerSymbolizer.style this in
  let e := VectorMarkerSymbolizer._getGraidentExtent this point in
  0 <= VectorMarkerSymbolizer.markerWidth style ->
  0 <= VectorMarkerSymbolizer.markerHeight style ->
  0 <= VectorMarkerSymbolizer.markerLineWidth style ->
  PointExtent.xmax e - PointExtent.xmin e
  = VectorMarkerSymbolizer.markerWidth style
    + VectorMarkerSymbolizer.markerLineWidth style
  /\ PointExtent.ymax e - PointExtent.ymin e
     = VectorMarkerSymbolizer.markerHeight style
       + VectorMarkerSymbolizer.markerLineWidth style
  /\ contains e (Point.add point (VectorMarkerSymbolizer.getDxDy this)).
Proof.
  intros style e Hw Hh Hlw. unfold e, VectorMarkerSymbolizer._getGraidentExtent.
  rewrite (getMarkerExtent_box this Hw Hh). fold style.
  unfold VectorMarkerSymbolizer.getDxDy, contains. fold style.
  destruct (VectorMarkerSymbolizer.standsOnAnchor _); simpl;
    repeat split; lra.
Qed.

(** The gradient extent of the default marker drawn at (5,5). *)
Lemma gradientExtent_around_point_witness :
  let this :=
    VectorMarkerSymbolizer.constructor Symbol.empty (liveGeometry None) false in
  contains (VectorMarkerSymbolizer._getGraidentExtent this (Point.new 5 5))
    (Point.add (Point.new 5 5) (VectorMarkerSymbolizer.getDxDy this)).
Proof.
  intros this.
  apply (gradientExtent_around_point this (Point.new 5 5)); simpl; lra.
Defined.

(** ** Acceptance and the entry of [symbolize] *)

(** X14.  [test] accepts a symbol exactly when it has no ['markerFile']
    and a ['markerType'] other than ['path']; it does not look at the
    kind: the style of an accepted symbol carries the symbol's own
    marker type, never the ['ellipse'] default, and drawing it returns
    normally when the lower-cased type is one of the nine kinds and
    raises otherwise. *)
Theorem test_accepts_on_markerType_alone
    (symbol : option VectorMarkerSymbolizer.SymbolObject)
    (g : VectorMarkerSymbolizer.Geometry) (dynamic : bool)
    (ctx : Canvas.context) (point : Point.t) :
  VectorMarkerSymbolizer.test symbol = true <->
  exists (s : VectorMarkerSymbolizer.SymbolObject) (k : string),
    symbol = Some s
    /\ VectorMarkerSymbolizer.markerFile s = None
    /\ Symbol.markerType (VectorMarkerSymbolizer.properties s) = Some k
    /\ k <> "path"
    /\ let this :=
         VectorMarkerSymbolizer.constructor
           (VectorMarkerSymbolizer.properties s) g dynamic in
       VectorMarkerSymbolizer.markerType (VectorMarkerSymbolizer.style this) = k
       /\ (In (JS.toLowerCase k) supportedKinds ->
           snd (VectorMarkerSymbolizer._drawVectorMarker this ctx point)
           = Returns tt)
       /\ (~ In (JS.toLowerCase k) supportedKinds ->
           snd (VectorMarkerSymbolizer._drawVectorMarker this ctx point)
           = Throws (JS.Error ("unsupported markerType: " ++ JS.toLowerCase k))).
Proof.
  split.
  - destruct symbol as [s|]; [|discriminate].
    unfold VectorMarkerSymbolizer.test.
    destruct (VectorMarkerSymbolizer.markerFile s) eqn:Efile; [discriminate|].
    destruct (Symbol.markerType (VectorMarkerSymbolizer.properties s))
      as [k|] eqn:Etype; [|discriminate].
    intros H. apply negb_true_iff, String.eqb_neq in H.
    exists s, k. repeat (split; [first [reflexivity | assumption]|]).
    assert (Hk : VectorMarkerSymbolizer.markerType
                   (VectorMarkerSymbolizer.style
                      (VectorMarkerSymbolizer.constructor
                         (VectorMarkerSymbolizer.properties s) g dynamic)) = k).
    { unfold VectorMarkerSymbolizer.constructor,
        VectorMarkerSymbolizer._defineStyle, VectorMarkerSymbolizer.translate.
      cbn [VectorMarkerSymbolizer.style VectorMarkerSymbolizer.markerType].
      rewrite Etype. reflexivity. }
    cbv zeta. split; [exact Hk|]. split; intros Hkind.
    + match goal with
      | |- context [VectorMarkerSymbolizer._drawVectorMarker ?t ctx point] =>
          destruct (drawVectorMarker_supported t ctx point) as (c & E & _);
          [rewrite Hk; exact Hkind | rewrite E; reflexivity]
      end.
    + match goal with
      | |- context [VectorMarkerSymbolizer._drawVectorMarker ?t ctx point] =>
          rewrite (drawVectorMarker_unsupported t ctx point);
          [rewrite Hk; reflexivity | rewrite Hk; exact Hkind]
      end.
  - intros (s & k & -> & Hfile & Htype & Hne & _).
    unfold VectorMarkerSymbolizer.test. rewrite Hfile, Htype.
    apply negb_true_iff, String.eqb_neq, Hne.
Qed.

(** The symbol [{ markerType: 'hexagon' }] is accepted and its draw
    raises. *)
Lemma test_accepts_on_markerType_alone_witness :
  let s :=
    {| VectorMarkerSymbolizer.markerFile := None;
       VectorMarkerSymbolizer.properties := symbolOfKind "hexagon" |} in
  VectorMarkerSymbolizer.test (Some s) = true
  /\ snd (VectorMarkerSymbolizer._drawVectorMarker
            (VectorMarkerSymbolizer.constructor (symbolOfKind "hexagon")
               (liveGeometry None) false)
            blankContext (Point.new 5 5))
     = Throws (JS.Error "unsupported markerType: hexagon").
Proof.
  intros s.
  assert (Htest : VectorMarkerSymbolizer.test (Some s) = true) by reflexivity.
  split; [exact Htest|].
  destruct (proj1 (test_accepts_on_markerType_alone (Some s) (liveGeometry None)
                     false blankContext (Point.new 5 5)) Htest)
    as (s' & k & Hs & _ & Hk & _ & _ & _ & Hthrow).
  injection Hs as <-. injection Hk as <-.
  apply Hthrow. simpl. intuition discriminate.
Defined.

(** X15.  [symbolize] does nothing when the marker width is 0, when the
    marker height is 0 or when the geometry has no point to render: the
    symbolizer, the context and the resources are returned as they
    were, no stamp is stored and no image is created. *)
Theorem symbolize_nothing_to_draw {host : Host}
    (this : VectorMarkerSymbolizer.t) (ctx : Canvas.context)
    (resources : gmap string Canvas.t) :
  VectorMarkerSymbolizer.markerWidth (VectorMarkerSymbolizer.style this) = 0
  \/ VectorMarkerSymbolizer.markerHeight (VectorMarkerSymbolizer.style this) = 0
  \/ VectorMarkerSymbolizer.renderContainerPoints
       (VectorMarkerSymbolizer.geometry this) = [] ->
  VectorMarkerSymbolizer.symbolize this ctx resources
  = (this, ctx, resources, Returns tt).
Proof.
  intros H. rewrite symbolize_unfold.
  destruct H as [H|[H|H]].
  - rewrite (proj2 (isZero_true _) H). reflexivity.
  - rewrite (proj2 (isZero_true _) H), orb_true_r. reflexivity.
  - unfold VectorMarkerSymbolizer._getRenderContainerPoints. rewrite H.
    destruct (_ || _)%bool; reflexivity.
Qed.

(** A geometry without render points: nothing is drawn. *)
Lemma symbolize_nothing_to_draw_witness :
  let g :=
    {| VectorMarkerSymbolizer.shadowBlur := 0;
       VectorMarkerSymbolizer.renderContainerPoints := [];
       VectorMarkerSymbolizer.rotationAt := fun _ => None;
       VectorMarkerSymbolizer.isSpriting := false;
       VectorMarkerSymbolizer.isMask := false;
       VectorMarkerSymbolizer.cacheVectorOnCanvas := None |} in
  let this := VectorMarkerSymbolizer.constructor Symbol.empty g false in
  VectorMarkerSymbolizer.symbolize (host := sampleHost) this blankContext ∅
  = (this, blankContext, ∅, Returns tt).
Proof.
  intros g this. apply symbolize_nothing_to_draw. right; right. reflexivity.
Defined.

(** ** Strokes, blits and the image cache *)

(** X16.  A cross and an x are drawn as two strokes of two points each
    and never as a polygon: for a cross the horizontal stroke of length
    [markerWidth] and the vertical stroke of length [markerHeight]
    through the draw point, for an x the two diagonals of the box of
    that width and height centred on the draw point; only the line
    opacity is used. *)
Theorem cross_and_x_are_two_strokes (this : VectorMarkerSymbolizer.t)
    (ctx : Canvas.context) (point : Point.t) :
  let style := VectorMarkerSymbolizer.style this in
  let kind := JS.toLowerCase (VectorMarkerSymbolizer.markerType style) in
  let hw := VectorMarkerSymbolizer.markerWidth style / 2 in
  let hh := VectorMarkerSymbolizer.markerHeight style / 2 in
  let lo :=
    StrokeAndFill.lineOpacity (VectorMarkerSymbolizer.strokeAndFill this) in
  let x := Point.x point in
  let y := Point.y point in
  let result := VectorMarkerSymbolizer._drawVectorMarker this ctx point in
  let before := Canvas.calls (snd (afterGradientBlock this ctx point)) in
  (kind = "cross" ->
   snd result = Returns tt
   /\ Canvas.calls (snd (fst result))
      = before
        ++ [Canvas.Path [Point.new (x - hw) y; Point.new (x + hw) y] lo;
            Canvas.Path [Point.new x (y - hh); Point.new x (y + hh)] lo])
  /\ (kind = "x" ->
      snd result = Returns tt
      /\ Canvas.calls (snd (fst result))
         = before
           ++ [Canvas.Path [Point.new (x - hw) (y + hh);
                            Point.new (x + hw) (y - hh)] lo;
               Canvas.Path [Point.new (x + hw) (y + hh);
                            Point.new (x - hw) (y - hh)] lo]).
Proof.
  intros style kind hw hh lo x y result before.
  unfold result, before, VectorMarkerSymbolizer._drawVectorMarker,
    afterGradientBlock.
  fold style. fold kind. fold lo.
  clearbody kind.
  split; intros ->;
    destruct (VectorMarkerSymbolizer.usesGradient _);
    cbv [VectorMarkerSymbolizer._getVectorPoints String.eqb Ascii.eqb Bool.eqb
         orb VectorMarkerSymbolizer.addToAll map JS.slice skipn firstn
         Nat.sub Point._add Point.add fst snd Canvas.path
         Canvas.record Canvas.calls Canvas.prepareCanvas];
    cbn [Point.x Point.y];
    (split; [reflexivity|]);
    rewrite <- ?app_assoc; cbn [app];
    repeat match goal with
    | |- _ ++ _ = _ ++ _ => apply f_equal2; [reflexivity|]
    | |- _ :: _ = _ :: _ => apply f_equal2
    | |- Canvas.Path _ _ = Canvas.Path _ _ => apply f_equal2; [|reflexivity]
    | |- Point.new _ _ = Point.new _ _ =>
        apply f_equal2; unfold x, y, hw, hh; lra
    | |- [] = [] => reflexivity
    | |- Canvas.PrepareCanvas _ = Canvas.PrepareCanvas _ => reflexivity
    end.
Qed.

(** The default cross at (5,5): the strokes from (0,5) to (10,5) and
    from (5,0) to (5,10). *)
Lemma cross_and_x_are_two_strokes_witness :
  let this :=
    VectorMarkerSymbolizer.constructor (symbolOfKind "cross")
      (liveGeometry None) false in
  let lo :=
    StrokeAndFill.lineOpacity (VectorMarkerSymbolizer.strokeAndFill this) in
  let result :=
    VectorMarkerSymbolizer._drawVectorMarker this blankContext (Point.new 5 5) in
  snd result = Returns tt
  /\ Canvas.calls (snd (fst result))
     = Canvas.calls (snd (afterGradientBlock this blankContext (Point.new 5 5)))
       ++ [Canvas.Path [Point.new (5 - 10 / 2) 5; Point.new (5 + 10 / 2) 5] lo;
           Canvas.Path [Point.new 5 (5 - 10 / 2); Point.new 5 (5 + 10 / 2)] lo].
Proof.
  intros this lo result.
  apply (proj1 (cross_and_x_are_two_strokes this blankContext (Point.new 5 5))).
  reflexivity.
Defined.

Lemma assignGradientExtents_lineWidth (this : VectorMarkerSymbolizer.t)
    (point : Point.t) :
  StrokeAndFill.lineWidth
    (VectorMarkerSymbolizer.assignGradientExtents this point)
  = StrokeAndFill.lineWidth (VectorMarkerSymbolizer.strokeAndFill this).
Proof.
  unfold VectorMarkerSymbolizer.assignGradientExtents.
  destruct (isGradient (StrokeAndFill.lineColor _));
    cbn [StrokeAndFill.setLineGradientExtent StrokeAndFill.polygonFill];
    destruct (isGradient (StrokeAndFill.polygonFill _)); reflexivity.
Qed.

Lemma getAnchor_ext (a b : VectorMarkerSymbolizer.t) (w h : R) :
  StrokeAndFill.lineWidth (VectorMarkerSymbolizer.strokeAndFill a)
  = StrokeAndFill.lineWidth (VectorMarkerSymbolizer.strokeAndFill b) ->
  VectorMarkerSymbolizer.geometry a = VectorMarkerSymbolizer.geometry b ->
  VectorMarkerSymbolizer.style a = VectorMarkerSymbolizer.style b ->
  VectorMarkerSymbolizer.padding a = VectorMarkerSymbolizer.padding b ->
  VectorMarkerSymbolizer._getAnchor a w h
  = VectorMarkerSymbolizer._getAnchor b w h.
Proof.
  intros H1 H2 H3 H4. unfold VectorMarkerSymbolizer._getAnchor.
  rewrite H1, H2, H3, H4. reflexivity.
Qed.

Lemma afterGradientBlock_lineWidth (this : VectorMarkerSymbolizer.t)
    (ctx : Canvas.context) (point : Point.t) :
  StrokeAndFill.lineWidth
    (VectorMarkerSymbolizer.strokeAndFill
       (fst (afterGradientBlock this ctx point)))
  = StrokeAndFill.lineWidth (VectorMarkerSymbolizer.strokeAndFill this).
Proof.
  unfold afterGradientBlock.
  destruct (VectorMarkerSymbolizer.usesGradient _); [|reflexivity].
  apply assignGradientExtents_lineWidth.
Qed.

(** What [_createMarkerImage] keeps of the symbolizer when it
    succeeds. *)
Lemma createMarkerImage_keeps (this : VectorMarkerSymbolizer.t) :
  In (JS.toLowerCase
        (VectorMarkerSymbolizer.markerType
           (VectorMarkerSymbolizer.style this))) supportedKinds ->
  exists (this' : VectorMarkerSymbolizer.t) (img : Canvas.t),
    VectorMarkerSymbolizer._createMarkerImage this = (this', Returns img)
    /\ (forall w h : R,
          VectorMarkerSymbolizer._getAnchor this' w h
          = VectorMarkerSymbolizer._getAnchor this w h)
    /\ VectorMarkerSymbolizer.geometry this'
       = VectorMarkerSymbolizer.geometry this
    /\ VectorMarkerSymbolizer.style this' = VectorMarkerSymbolizer.style this
    /\ VectorMarkerSymbolizer._stamp this' = VectorMarkerSymbolizer._stamp this.
Proof.
  intros H. unfold VectorMarkerSymbolizer._createMarkerImage.
  match goal with
  | |- context [VectorMarkerSymbolizer._drawVectorMarker this ?c ?p] =>
      destruct (drawVectorMarker_supported this c p H) as (ctx' & -> & _);
      destruct (afterGradientBlock_frame this c p) as (_ & Hs & Ht & Hg & Hp);
      pose proof (afterGradientBlock_lineWidth this c p) as Hlw;
      destruct (afterGradientBlock this c p) as [this' ctx'']
  end.
  simpl fst in *.
  eexists. eexists. split; [reflexivity|].
  split; [|repeat split; assumption].
  intros w h. apply getAnchor_ext; assumption.
Qed.

Lemma map_snd_combine_seq {A : Type} (l : list A) :
  forall start : nat, map snd (combine (seq start (length l)) l) = l.
Proof.
  induction l as [|a l IH]; intros start; [reflexivity|].
  cbn [length seq combine map snd]. now rewrite IH.
Qed.

Lemma map_snd_downwards (cookedPoints : list Point.t) :
  map snd (VectorMarkerSymbolizer.downwards cookedPoints) = rev cookedPoints.
Proof.
  unfold VectorMarkerSymbolizer.downwards.
  now rewrite map_rev, map_snd_combine_seq.
Qed.

Lemma drawImagesLoop_calls (this : VectorMarkerSymbolizer.t) (img : Canvas.t)
    (anchor : Point.t) (todo : list (nat * Point.t)) :
  (forall i : nat,
      VectorMarkerSymbolizer.rotationAt (VectorMarkerSymbolizer.geometry this) i
      = None) ->
  forall ctx : Canvas.context,
    Canvas.calls
      (VectorMarkerSymbolizer.drawImagesLoop this ctx img anchor todo)
    = Canvas.calls ctx
      ++ map (fun p =>
                Canvas.Image (Canvas.width img) (Canvas.height img)
                  (Canvas.calls (Canvas.getContext img))
                  (Point.x (Point.sub p anchor)) (Point.y (Point.sub p anchor)))
           (map snd todo).
Proof.
  intros Hrot. induction todo as [|[i cooked] rest IH]; intros ctx.
  - cbn [VectorMarkerSymbolizer.drawImagesLoop map]. now rewrite app_nil_r.
  - cbn [VectorMarkerSymbolizer.drawImagesLoop map snd].
    unfold VectorMarkerSymbolizer._getRotationAt. rewrite Hrot.
    cbn [VectorMarkerSymbolizer._rotate]. rewrite IH.
    cbn [Canvas.image Canvas.record Canvas.calls].
    rewrite <- app_assoc. reflexivity.
Qed.

Section Cache.

Context {host : Host}.

Lemma stampSymbol_stored (this : VectorMarkerSymbolizer.t) :
  VectorMarkerSymbolizer._stamp (fst (VectorMarkerSymbolizer._stampSymbol this))
  = Some (snd (VectorMarkerSymbolizer._stampSymbol this))
  /\ VectorMarkerSymbolizer.stampMissing
       (Some (snd (VectorMarkerSymbolizer._stampSymbol this))) = false.
Proof.
  unfold VectorMarkerSymbolizer._stampSymbol.
  destruct (VectorMarkerSymbolizer.stampMissing
              (VectorMarkerSymbolizer._stamp this)) eqn:E.
  - cbn [fst snd VectorMarkerSymbolizer.setStamp VectorMarkerSymbolizer._stamp].
    split; [reflexivity | apply computeStamp_nonempty].
  - cbn [fst snd].
    destruct (VectorMarkerSymbolizer._stamp this) as [s|]; [|discriminate E].
    split; [reflexivity | exact E].
Qed.

Lemma stampSymbol_of_stored (this : VectorMarkerSymbolizer.t) (s : string) :
  VectorMarkerSymbolizer._stamp this = Some s ->
  VectorMarkerSymbolizer.stampMissing (Some s) = false ->
  VectorMarkerSymbolizer._stampSymbol this = (this, s).
Proof.
  intros H1 H2. unfold VectorMarkerSymbolizer._stampSymbol.
  rewrite H1, H2. reflexivity.
Qed.

(** X17.  When no rotation is defined, [_drawMarkersWithCache] of a
    supported kind draws the image found or registered under the stamp
    once for each point, from the last point to the first, each time at
    the point minus the anchor of the image, and issues no other call on
    the context. *)
Theorem cached_draw_blits_each_point (this : VectorMarkerSymbolizer.t)
    (ctx : Canvas.context) (cookedPoints : list Point.t)
    (resources : gmap string Canvas.t) :
  In (JS.toLowerCase
        (VectorMarkerSymbolizer.markerType
           (VectorMarkerSymbolizer.style this))) supportedKinds ->
  (forall i : nat,
      VectorMarkerSymbolizer.rotationAt (VectorMarkerSymbolizer.geometry this) i
      = None) ->
  exists (this' : VectorMarkerSymbolizer.t) (ctx' : Canvas.context)
         (resources' : gmap string Canvas.t) (img : Canvas.t),
    VectorMarkerSymbolizer._drawMarkersWithCache this ctx cookedPoints resources
    = (this', ctx', resources', Returns tt)
    /\ VectorMarkerSymbolizer.getImage resources'
         (snd (VectorMarkerSymbolizer._stampSymbol this)) = Some img
    /\ Canvas.calls ctx'
       = Canvas.calls ctx
         ++ map (fun p =>
                   let q :=
                     Point.sub p
                       (VectorMarkerSymbolizer._getAnchor this
                          (IZR (Canvas.width img)) (IZR (Canvas.height img))) in
                   Canvas.Image (Canvas.width img) (Canvas.height img)
                     (Canvas.calls (Canvas.getContext img))
                     (Point.x q) (Point.y q))
              (rev cookedPoints).
Proof.
  intros Hkind Hrot.
  unfold VectorMarkerSymbolizer._drawMarkersWithCache.
  destruct (stampSymbol_frame this) as (Hs & Hg & Hp & Hsf).
  destruct (VectorMarkerSymbolizer._stampSymbol this) as [this1 stamp].
  simpl fst in *. simpl snd.
  assert (Hanchor1 : forall w h : R,
            VectorMarkerSymbolizer._getAnchor this1 w h
            = VectorMarkerSymbolizer._getAnchor this w h).
  { intros w h. apply getAnchor_ext; congruence. }
  destruct (VectorMarkerSymbolizer.getImage resources stamp) as [img|] eqn:E.
  - exists this1, (VectorMarkerSymbolizer.drawImagesLoop this1 ctx img
                     (VectorMarkerSymbolizer._getAnchor this1
                        (IZR (Canvas.width img)) (IZR (Canvas.height img)))
                     (VectorMarkerSymbolizer.downwards cookedPoints)),
      resources, img.
    split; [reflexivity|]. split; [exact E|].
    rewrite drawImagesLoop_calls by (rewrite Hg; exact Hrot).
    rewrite map_snd_downwards, Hanchor1. reflexivity.
  - assert (Hkind1 : In (JS.toLowerCase
                           (VectorMarkerSymbolizer.markerType
                              (VectorMarkerSymbolizer.style this1)))
                        supportedKinds) by (rewrite Hs; exact Hkind).
    destruct (createMarkerImage_keeps this1 Hkind1)
      as (this2 & img & -> & Hanchor2 & Hg2 & _).
    eexists. eexists. eexists. exists img.
    split; [reflexivity|].
    split.
    { unfold VectorMarkerSymbolizer.getImage,
        VectorMarkerSymbolizer.addResource. cbn [fst].
      apply lookup_insert_eq. }
    rewrite drawImagesLoop_calls by (rewrite Hg2, Hg; exact Hrot).
    rewrite map_snd_downwards, Hanchor2, Hanchor1. reflexivity.
Qed.

(** X18.  After [_drawMarkersWithCache] has returned for a supported
    kind, the image is in the resources under the stamp, and a second
    call with the symbolizer and the resources it returned creates no
    image: it returns the same symbolizer and the same resources and
    draws that image. *)
Theorem cache_second_draw_reuses_image (this : VectorMarkerSymbolizer.t)
    (ctx ctx2 : Canvas.context) (cookedPoints cookedPoints2 : list Point.t)
    (resources : gmap string Canvas.t) :
  In (JS.toLowerCase
        (VectorMarkerSymbolizer.markerType
           (VectorMarkerSymbolizer.style this))) supportedKinds ->
  exists (this1 : VectorMarkerSymbolizer.t) (ctx1 : Canvas.context)
         (resources1 : gmap string Canvas.t) (img : Canvas.t),
    VectorMarkerSymbolizer._drawMarkersWithCache this ctx cookedPoints resources
    = (this1, ctx1, resources1, Returns tt)
    /\ VectorMarkerSymbolizer.getImage resources1
         (snd (VectorMarkerSymbolizer._stampSymbol this)) = Some img
    /\ VectorMarkerSymbolizer._drawMarkersWithCache this1 ctx2 cookedPoints2
         resources1
       = (this1,
          VectorMarkerSymbolizer.drawImagesLoop this1 ctx2 img
            (VectorMarkerSymbolizer._getAnchor this1
               (IZR (Canvas.width img)) (IZR (Canvas.height img)))
            (VectorMarkerSymbolizer.downwards cookedPoints2),
          resources1, Returns tt).
Proof.
  intros Hkind.
  unfold VectorMarkerSymbolizer._drawMarkersWithCache at 1.
  destruct (stampSymbol_frame this) as (Hs & _).
  destruct (stampSymbol_stored this) as (Hstored & Hpresent).
  destruct (VectorMarkerSymbolizer._stampSymbol this) as [this1 stamp].
  simpl fst in *. simpl snd in *.
  destruct (VectorMarkerSymbolizer.getImage resources stamp) as [img|] eqn:E.
  - eexists. eexists. eexists. exists img.
    split; [reflexivity|]. split; [exact E|].
    unfold VectorMarkerSymbolizer._drawMarkersWithCache.
    rewrite (stampSymbol_of_stored this1 stamp Hstored Hpresent), E.
    reflexivity.
  - assert (Hkind1 : In (JS.toLowerCase
                           (VectorMarkerSymbolizer.markerType
                              (VectorMarkerSymbolizer.style this1)))
                        supportedKinds) by (rewrite Hs; exact Hkind).
    destruct (createMarkerImage_keeps this1 Hkind1)
      as (this2 & img & -> & _ & _ & _ & Hstamp2).
    assert (Hfound : VectorMarkerSymbolizer.getImage
                       (VectorMarkerSymbolizer.addResource resources
                          (stamp, Canvas.width img, Canvas.height img) img)
                       stamp = Some img).
    { unfold VectorMarkerSymbolizer.getImage,
        VectorMarkerSymbolizer.addResource. cbn [fst].
      apply lookup_insert_eq. }
    eexists. eexists. eexists. exists img.
    split; [reflexivity|]. split; [exact Hfound|].
    unfold VectorMarkerSymbolizer._drawMarkersWithCache.
    rewrite (stampSymbol_of_stored this2 stamp) by congruence.
    rewrite Hfound. reflexivity.
Qed.

End Cache.

(** The default marker at two points through an empty cache: two
    blits, the one of the second point first. *)
Lemma cached_draw_blits_each_point_witness :
  let this :=
    VectorMarkerSymbolizer.constructor Symbol.empty cachedGeometry false in
  exists (ctx' : Canvas.context) (img : Canvas.t),
    snd (fst (fst (VectorMarkerSymbolizer._drawMarkersWithCache
                     (host := sampleHost) this blankContext
                     [Point.new 5 5; Point.new 7 7] ∅))) = ctx'
    /\ Canvas.calls ctx'
       = map (fun p =>
                let q :=
                  Point.sub p
                    (VectorMarkerSymbolizer._getAnchor this
                       (IZR (Canvas.width img)) (IZR (Canvas.height img))) in
                Canvas.Image (Canvas.width img) (Canvas.height img)
                  (Canvas.calls (Canvas.getContext img)) (Point.x q) (Point.y q))
           [Point.new 7 7; Point.new 5 5].
Proof.
  intros this.
  destruct (cached_draw_blits_each_point (host := sampleHost) this blankContext
              [Point.new 5 5; Point.new 7 7] ∅)
    as (this' & ctx' & resources' & img & E & _ & Hcalls).
  - simpl. tauto.
  - intros i. reflexivity.
  - exists ctx', img. rewrite E. split; [reflexivity | exact Hcalls].
Defined.

(** The default marker: the second draw finds the image of the first. *)
Lemma cache_second_draw_reuses_image_witness :
  let this :=
    VectorMarkerSymbolizer.constructor Symbol.empty cachedGeometry false in
  let first :=
    VectorMarkerSymbolizer._drawMarkersWithCache (host := sampleHost) this
      blankContext [Point.new 5 5] ∅ in
  let second :=
    VectorMarkerSymbolizer._drawMarkersWithCache (host := sampleHost)
      (fst (fst (fst first))) blankContext [Point.new 7 7] (snd (fst first)) in
  fst (fst (fst second)) = fst (fst (fst first))
  /\ snd (fst second) = snd (fst first)
  /\ snd second = Returns tt.
Proof.
  intros this first second.
  destruct (cache_second_draw_reuses_image (host := sampleHost) this
              blankContext blankContext [Point.new 5 5] [Point.new 7 7] ∅)
    as (this1 & ctx1 & resources1 & img & E1 & _ & E2).
  - simpl. tauto.
  - unfold second, first. rewrite E1. cbn [fst snd]. rewrite E2.
    repeat split.
Defined.

(** X19.  The image that [_createMarkerImage] returns is what
    [_drawMarkers] draws, on a blank canvas of the size of the image, for
    the single point [_getAnchor(w, h)] when no rotation is defined for
    it: the same calls in the same order, and the same symbolizer
    afterwards. *)
Theorem marker_image_is_a_live_draw (this this' : VectorMarkerSymbolizer.t)
    (img : Canvas.t) :
  VectorMarkerSymbolizer.rotationAt (VectorMarkerSymbolizer.geometry this) 0
  = None ->
  VectorMarkerSymbolizer._createMarkerImage this = (this', Returns img) ->
  VectorMarkerSymbolizer._drawMarkers this
    (Canvas.getContext
       (Canvas.createCanvas (Canvas.width img) (Canvas.height img)))
    [VectorMarkerSymbolizer._getAnchor this
       (IZR (Canvas.width img)) (IZR (Canvas.height img))]
  = (this', Canvas.getContext img, Returns tt).
Proof.
  intros Hrot.
  unfold VectorMarkerSymbolizer._createMarkerImage,
    VectorMarkerSymbolizer._drawMarkers, VectorMarkerSymbolizer.downwards.
  cbn [length seq combine rev app VectorMarkerSymbolizer.drawMarkersLoop].
  unfold VectorMarkerSymbolizer._getRotationAt. rewrite Hrot.
  cbn [VectorMarkerSymbolizer._rotate].
  match goal with
  | |- context [VectorMarkerSymbolizer._drawVectorMarker this ?c ?p] =>
      destruct (VectorMarkerSymbolizer._drawVectorMarker this c p)
        as [[this1 ctx1] [[]|e]] eqn:E
  end; [|discriminate].
  intros H. injection H as <- <-.
  cbn [Canvas.width Canvas.height Canvas.getContext Canvas.createCanvas] in *.
  rewrite E. reflexivity.
Qed.

(** The image of the default marker. *)
Lemma marker_image_is_a_live_draw_witness :
  let this :=
    VectorMarkerSymbolizer.constructor Symbol.empty cachedGeometry false in
  exists (this' : VectorMarkerSymbolizer.t) (img : Canvas.t),
    VectorMarkerSymbolizer._createMarkerImage this = (this', Returns img)
    /\ VectorMarkerSymbolizer._drawMarkers this
         (Canvas.getContext
            (Canvas.createCanvas (Canvas.width img) (Canvas.height img)))
         [VectorMarkerSymbolizer._getAnchor this
            (IZR (Canvas.width img)) (IZR (Canvas.height img))]
       = (this', Canvas.getContext img, Returns tt).
Proof.
  intros this.
  destruct (createMarkerImage_keeps this) as (this' & img & E & _).
  - simpl. tauto.
  - exists this', img. split; [exact E|].
    exact (marker_image_is_a_live_draw this this' img eq_refl E).
Defined.

(** X20.  A symbolizer built from a symbol with a numeric
    ['markerOpacity'] paints with the symbol's fill and line opacities,
    1 when they are missing, each multiplied by it, the line opacity
    being 0 instead when the line width is 0; when the three opacities
    of the symbol are between 0 and 1, so are the two it paints with. *)
Theorem markerOpacity_scales_both_opacities (symbol : Symbol.t)
    (g : VectorMarkerSymbolizer.Geometry) (dynamic : bool) (o : R) :
  Symbol.markerOpacity symbol = Some o ->
  let f := getValueOrDefault (Symbol.markerFillOpacity symbol) 1 in
  let l := getValueOrDefault (Symbol.markerLineOpacity symbol) 1 in
  let lineWidth := getValueOrDefault (Symbol.markerLineWidth symbol) 1 in
  let painted :=
    VectorMarkerSymbolizer.strokeAndFill
      (VectorMarkerSymbolizer.constructor symbol g dynamic) in
  StrokeAndFill.polygonOpacity painted = f * o
  /\ (lineWidth <> 0 -> StrokeAndFill.lineOpacity painted = l * o)
  /\ (lineWidth = 0 -> StrokeAndFill.lineOpacity painted = 0)
  /\ (0 <= o <= 1 -> 0 <= f <= 1 -> 0 <= l <= 1 ->
      0 <= StrokeAndFill.polygonOpacity painted <= 1
      /\ 0 <= StrokeAndFill.lineOpacity painted <= 1).
Proof.
  intros Ho f l lineWidth painted.
  set (s := VectorMarkerSymbolizer.translate symbol).
  assert (Hw : VectorMarkerSymbolizer.markerLineWidth s = lineWidth)
    by reflexivity.
  assert (Hl : VectorMarkerSymbolizer.markerLineOpacity s = l * o).
  { unfold s, VectorMarkerSymbolizer.translate.
    cbn [VectorMarkerSymbolizer.markerLineOpacity]. now rewrite Ho. }
  assert (Hf : VectorMarkerSymbolizer.markerFillOpacity s = f * o).
  { unfold s, VectorMarkerSymbolizer.translate.
    cbn [VectorMarkerSymbolizer.markerFillOpacity]. now rewrite Ho. }
  assert (Hp : StrokeAndFill.polygonOpacity painted = f * o).
  { rewrite <- Hf.
    exact (proj2 (proj2 (translateLineAndFill_paints s))). }
  destruct (lineOpacity_of_translateLineAndFill s) as [Hzero Hother].
  rewrite Hw in Hzero, Hother. rewrite Hl in Hother.
  change (StrokeAndFill.lineOpacity
            (VectorMarkerSymbolizer.translateLineAndFill s))
    with (StrokeAndFill.lineOpacity painted) in Hzero, Hother.
  split; [exact Hp|]. split; [exact Hother|]. split; [exact Hzero|].
  intros Hro Hrf Hrl. rewrite Hp. split; [nra|].
  destruct (Req_dec_T lineWidth 0) as [E|E].
  - rewrite (Hzero E). lra.
  - rewrite (Hother E). nra.
Qed.

(** A half-transparent symbol with a fill opacity of one half: the fill
    is painted with one quarter, the line with one half. *)
Lemma markerOpacity_scales_both_opacities_witness :
  let painted :=
    VectorMarkerSymbolizer.strokeAndFill
      (VectorMarkerSymbolizer.constructor fadedSymbol cachedGeometry false) in
  StrokeAndFill.polygonOpacity painted = 1 / 2 * (1 / 2)
  /\ StrokeAndFill.lineOpacity painted = 1 * (1 / 2)
  /\ 0 <= StrokeAndFill.polygonOpacity painted <= 1
  /\ 0 <= StrokeAndFill.lineOpacity painted <= 1.
Proof.
  intros painted.
  destruct (markerOpacity_scales_both_opacities fadedSymbol cachedGeometry
              false (1 / 2) eq_refl) as (Hf & Hl & _ & Hrange).
  split; [exact Hf|]. split.
  - apply Hl. cbn [getValueOrDefault fadedSymbol Symbol.markerLineWidth]. lra.
  - apply Hrange; cbn [getValueOrDefault fadedSymbol Symbol.markerFillOpacity
                       Symbol.markerLineOpacity]; lra.
Defined.
